(** * Game Sentry: the time-budget and gating engine of [game_sentry.py]

    A shallow embedding of the session controller, the usage calculator,
    the rest tracker, the limit monitor and the start gates of
    [GameSentryApp], together with the manual-entry and edit paths of the
    session log.  Python values are modelled as follows.

    - A naive local [datetime] is an integer number of microseconds,
      counted from the midnight that starts proleptic ordinal day 0 (so that
      [date_of] is Python's [toordinal] of the date and [time_of] is the
      time of day).  Years stay within 1..9999 as in Python; leaving that
      range is modelled where the source can do it, in the one-day shift
      of [ManualEntryDialog.save].  The end of a rest period and the
      arguments of the [datetime] constructor are taken within the range in
      which Python computes them; where a property depends on it, the
      range is a hypothesis.
    - A [timedelta] is its exact number of microseconds; its
      [total_seconds()], a float in the source, has the same whole seconds
      for spans below [2 ^ 34] seconds (about 544 years).
    - Strings are [string]; the parsers cover ASCII text (Python's [\d] and
      [\s] also accept other Unicode digits and blanks).
    - Dictionaries with string keys are [gmap string _], sets of keys are
      [gset string], a Firestore array is a [list].
    - Fields read with [dict.get(key, default)] are [option]s, the default
      being applied at the place of the read, as in the source.  Fields are
      taken to hold values of the type the program itself writes there.
    - Methods are state transformers on the attributes of the application.
      The state carries its environment: every call of [datetime.now()]
      takes the next reading of a clock, every yes/no dialog the next
      answer of the person at the screen, and the calls made to the
      notification sink and to the dialogs are kept in a trace. *)

From Stdlib Require Import ZArith Lia Ascii String List Bool DecimalString DecimalPos.
From stdpp Require Import base option gmap strings list.

Local Open Scope string_scope.
Local Open Scope list_scope.
Local Open Scope stdpp_scope.
Local Open Scope Z_scope.

(** ** Python built-ins on text *)

Module PyStr.

Definition is_digit (c : ascii) : bool :=
  let n := Z.of_nat (nat_of_ascii c) in (48 <=? n) && (n <=? 57).

Definition digit_val (c : ascii) : Z := Z.of_nat (nat_of_ascii c) - 48.

Definition in_range (lo hi : ascii) (c : ascii) : bool :=
  let n := nat_of_ascii c in
  (nat_of_ascii lo <=? n)%nat && (n <=? nat_of_ascii hi)%nat.

Definition is_char (a : ascii) (c : ascii) : bool := Ascii.eqb a c.

(** [str.isspace] on one ASCII character: TAB..CR, FS..US and the blank. *)
Definition is_space (c : ascii) : bool :=
  let n := nat_of_ascii c in
  ((9 <=? n)%nat && (n <=? 13)%nat) || ((28 <=? n)%nat && (n <=? 32)%nat).

(** [s.split(sep)] for a one-character separator. *)
Fixpoint split_on (sep : ascii) (s : string) : list string :=
  match s with
  | EmptyString => [EmptyString]
  | String c s' =>
      if Ascii.eqb c sep then EmptyString :: split_on sep s'
      else match split_on sep s' with
           | w :: ws => String c w :: ws
           | [] => [String c EmptyString]
           end
  end.

Fixpoint lstrip (s : string) : string :=
  match s with
  | String c s' => if is_space c then lstrip s' else s
  | EmptyString => s
  end.

(** Digits of an [int] literal after the sign: groups of digits that a single
    underscore may separate; trailing blanks are allowed.  [seen] tells
    whether the previous character was a digit. *)
Fixpoint int_digits (s : string) (seen : bool) (acc : Z) : option Z :=
  match s with
  | EmptyString => if seen then Some acc else None
  | String c s' =>
      if is_digit c then int_digits s' true (acc * 10 + digit_val c)
      else if is_char "_" c then
        if seen then
          match s' with
          | String d _ => if is_digit d then int_digits s' false acc else None
          | EmptyString => None
          end
        else None
      else if is_space c then
        if seen then (if String.eqb (lstrip s') "" then Some acc else None) else None
      else None
  end.

(** [int(s)] for a string: [None] stands for [ValueError]. *)
Definition py_int (s : string) : option Z :=
  match lstrip s with
  | String "-" s' => Z.opp <$> int_digits s' false 0
  | String "+" s' => int_digits s' false 0
  | s' => int_digits s' false 0
  end.

(** [str(n)] for an integer. *)
Definition str_of_Z (n : Z) : string := NilZero.string_of_int (Z.to_int n).

(** The format specs [:02] and [:02d]: zero padding to width two, the sign
    counting as one character. *)
Definition pad2 (n : Z) : string :=
  if (0 <=? n) && (n <? 10) then "0" +:+ str_of_Z n else str_of_Z n.

(** The format spec [%04d]. *)
Definition pad4 (n : Z) : string :=
  if n <? 0 then str_of_Z n
  else if n <? 10 then "000" +:+ str_of_Z n
  else if n <? 100 then "00" +:+ str_of_Z n
  else if n <? 1000 then "0" +:+ str_of_Z n
  else str_of_Z n.

Definition nl : string := String (ascii_of_nat 10) EmptyString.

End PyStr.

(** ** Python's [datetime] *)

Module PyDatetime.
Import PyStr.

Definition us_per_second : Z := 1000000.
Definition us_per_day : Z := 86400 * us_per_second.

(** [datetime]: microseconds; [date]: proleptic ordinal; [time]: microseconds
    since midnight; [timedelta]: microseconds. *)
Definition date_of (dt : Z) : Z := dt / us_per_day.
Definition time_of (dt : Z) : Z := dt mod us_per_day.

Definition timedelta_minutes (m : Z) : Z := m * 60 * us_per_second.
Definition timedelta_days (d : Z) : Z := d * us_per_day.

(** [int(td.total_seconds())]: truncation towards zero, of the exact
    quotient; the float that the source truncates has the same whole
    seconds for spans below [2 ^ 34] seconds. *)
Definition int_total_seconds (td : Z) : Z := Z.quot td us_per_second.
(** [td.days] and [td.seconds] of a normalised [timedelta]. *)
Definition td_days (td : Z) : Z := td / us_per_day.
Definition td_seconds (td : Z) : Z := (td mod us_per_day) / us_per_second.

(** [now.replace(hour=0, minute=0, second=0, microsecond=0)] *)
Definition start_of_day (dt : Z) : Z := date_of dt * us_per_day.

Definition is_leap (year : Z) : bool :=
  (year mod 4 =? 0) && (negb (year mod 100 =? 0) || (year mod 400 =? 0)).

Definition days_before_year (year : Z) : Z :=
  let y := year - 1 in y * 365 + y / 4 - y / 100 + y / 400.

Definition DAYS_IN_MONTH : list Z := [31; 28; 31; 30; 31; 30; 31; 31; 30; 31; 30; 31].
Definition DAYS_BEFORE_MONTH : list Z :=
  [0; 31; 59; 90; 120; 151; 181; 212; 243; 273; 304; 334].

Definition days_in_month (year month : Z) : Z :=
  if (month =? 2) && is_leap year then 29
  else nth (Z.to_nat (month - 1)) DAYS_IN_MONTH 0.

Definition days_before_month (year month : Z) : Z :=
  nth (Z.to_nat (month - 1)) DAYS_BEFORE_MONTH 0
  + (if (2 <? month) && is_leap year then 1 else 0).

Definition ymd2ord (year month day : Z) : Z :=
  days_before_year year + days_before_month year month + day.

Definition DI400Y : Z := days_before_year 401.
Definition DI100Y : Z := days_before_year 101.
Definition DI4Y : Z := days_before_year 5.

Definition ord2ymd (n0 : Z) : Z * Z * Z :=
  let n := n0 - 1 in
  let n400 := n / DI400Y in let n := n mod DI400Y in
  let year := n400 * 400 + 1 in
  let n100 := n / DI100Y in let n := n mod DI100Y in
  let n4 := n / DI4Y in let n := n mod DI4Y in
  let n1 := n / 365 in let n := n mod 365 in
  let year := year + n100 * 100 + n4 * 4 + n1 in
  if (n1 =? 4) || (n100 =? 4) then (year - 1, 12, 31)
  else
    let leapyear := (n1 =? 3) && (negb (n4 =? 24) || (n100 =? 3)) in
    let month := Z.shiftr (n + 50) 5 in
    let preceding :=
      nth (Z.to_nat (month - 1)) DAYS_BEFORE_MONTH 0
      + (if (2 <? month) && leapyear then 1 else 0) in
    if n <? preceding then
      let month := month - 1 in
      let preceding :=
        preceding - (nth (Z.to_nat (month - 1)) DAYS_IN_MONTH 0
                     + (if (month =? 2) && leapyear then 1 else 0)) in
      (year, month, n - preceding + 1)
    else (year, month, n - preceding + 1).

(** The constructor [datetime(year, month, day, hour, minute, second)];
    [None] stands for [ValueError]. *)
Definition mk_datetime (year month day hour minute second : Z) : option Z :=
  if (1 <=? year) && (year <=? 9999) && (1 <=? month) && (month <=? 12)
     && (1 <=? day) && (day <=? days_in_month year month)
     && (0 <=? hour) && (hour <=? 23) && (0 <=? minute) && (minute <=? 59)
     && (0 <=? second) && (second <=? 59)
  then Some (ymd2ord year month day * us_per_day
             + (hour * 3600 + minute * 60 + second) * us_per_second)
  else None.

(** *** [strptime]

    [_strptime] turns the format into a regular expression, matches it at the
    start of the text with backtracking, and then refuses text that the
    match left over.  Each directive is an ordered list of alternatives;
    every alternative is a fixed sequence of character classes. *)

Inductive directive := DY | Dm | Dd | DH | DM | DS.

Global Instance directive_eq_dec : EqDecision directive.
Proof. solve_decision. Defined.

Inductive fmt_item :=
  | FDir (d : directive)
  | FLit (c : ascii)
  | FSpace.

Definition digit : ascii -> bool := is_digit.

Definition dir_alts (d : directive) : list (list (ascii -> bool)) :=
  match d with
  | DY => [[digit; digit; digit; digit]]
  | Dm => [[is_char "1"; in_range "0" "2"]; [is_char "0"; in_range "1" "9"];
           [in_range "1" "9"]]
  | Dd => [[is_char "3"; in_range "0" "1"]; [in_range "1" "2"; digit];
           [is_char "0"; in_range "1" "9"]; [in_range "1" "9"];
           [is_char " "; in_range "1" "9"]]
  | DH => [[is_char "2"; in_range "0" "3"]; [in_range "0" "1"; digit]; [digit]]
  | DM => [[in_range "0" "5"; digit]; [digit]]
  | DS => [[is_char "6"; in_range "0" "1"]; [in_range "0" "5"; digit]; [digit]]
  end.

(** One alternative against the start of [s]: the value of the digits it
    matched (a blank counts for nothing, as in [int(" 7")]) and the rest. *)
Fixpoint match_alt (a : list (ascii -> bool)) (s : string) (acc : Z)
  : option (Z * string) :=
  match a with
  | [] => Some (acc, s)
  | cl :: a' =>
      match s with
      | String c s' =>
          if cl c
          then match_alt a' s' (if is_digit c then acc * 10 + digit_val c else acc)
          else None
      | EmptyString => None
      end
  end.

Fixpoint first_some {A B} (f : A -> option B) (l : list A) : option B :=
  match l with
  | [] => None
  | x :: l' => match f x with Some y => Some y | None => first_some f l' end
  end.

(** What can follow a greedy [\s+] at the start of [s]: the text after the
    whole run of blanks first, then after shorter runs. *)
Fixpoint after_spaces (s : string) : list string :=
  match s with
  | String c s' => if is_space c then after_spaces s' ++ [s'] else []
  | EmptyString => []
  end.

Fixpoint match_items (fmt : list fmt_item) (s : string)
  : option (list (directive * Z) * string) :=
  match fmt with
  | [] => Some ([], s)
  | FLit c :: fmt' =>
      match s with
      | String c' s' => if Ascii.eqb c c' then match_items fmt' s' else None
      | EmptyString => None
      end
  | FSpace :: fmt' => first_some (fun s' => match_items fmt' s') (after_spaces s)
  | FDir d :: fmt' =>
      first_some
        (fun a =>
           match match_alt a s 0 with
           | Some (v, s') =>
               match match_items fmt' s' with
               | Some (fs, r) => Some ((d, v) :: fs, r)
               | None => None
               end
           | None => None
           end)
        (dir_alts d)
  end.

Definition field (d : directive) (dflt : Z) (fs : list (directive * Z)) : Z :=
  match List.find (fun p => bool_decide (fst p = d)) fs with
  | Some p => snd p
  | None => dflt
  end.

(** [datetime.strptime(s, fmt)]; [None] stands for [ValueError]. *)
Definition strptime (s : string) (fmt : list fmt_item) : option Z :=
  match match_items fmt s with
  | Some (fs, EmptyString) =>
      mk_datetime (field DY 1900 fs) (field Dm 1 fs) (field Dd 1 fs)
                  (field DH 0 fs) (field DM 0 fs) (field DS 0 fs)
  | _ => None
  end.

(** ['%H:%M'] *)
Definition FMT_HM : list fmt_item := [FDir DH; FLit ":"; FDir DM].
(** ['%Y-%m-%d'] *)
Definition FMT_Ymd : list fmt_item := [FDir DY; FLit "-"; FDir Dm; FLit "-"; FDir Dd].
(** ['%Y-%m-%d %H:%M'] *)
Definition FMT_YmdHM : list fmt_item := FMT_Ymd ++ [FSpace] ++ FMT_HM.
(** ['%Y-%m-%d %H:%M:%S'] *)
Definition FMT_YmdHMS : list fmt_item := FMT_YmdHM ++ [FLit ":"; FDir DS].

(** [str(d)] for a date: ISO format. *)
Definition str_of_date (d : Z) : string :=
  let '(y, m, dd) := ord2ymd d in
  pad4 y +:+ "-" +:+ pad2 m +:+ "-" +:+ pad2 dd.

(** [dt.strftime('%Y-%m-%d %H:%M:%S')] *)
Definition strftime_YmdHMS (dt : Z) : string :=
  let t := time_of dt / us_per_second in
  str_of_date (date_of dt) +:+ " " +:+ pad2 (t / 3600) +:+ ":"
    +:+ pad2 (t mod 3600 / 60) +:+ ":" +:+ pad2 (t mod 60).

End PyDatetime.

Import PyStr PyDatetime.

(** ** The application state *)

(** One entry of a user's [sessions] array. *)
Record session := Session {
  start : option string;
  stop : option string;
  duration : option string;
}.

Global Instance session_eq_dec : EqDecision session.
Proof. solve_decision. Defined.

(** A user document of the [users] collection: the fields that the engine
    reads and that the user form writes.  [uid] is the key ['id'] that
    [get_user] adds to the dictionary it returns. *)
Record user := User {
  uid : option string;
  username : option string;
  role : option string;
  dob : option string;
  max_session_minutes : option Z;
  max_daily_minutes : option Z;
  rest_minutes : option Z;
  rest_duration_minutes : option Z;
  enforce_rest : option bool;
  enforce_lunch_routine : option bool;
  lunch_start_time : option string;
  lunch_end_time : option string;
  allowed_start_time : option string;
  allowed_end_time : option string;
  sessions : option (list session);
}.

(** A value of [kid_rest_periods]. *)
Record rest_data := RestData {
  start_time : Z;
  duration_minutes : Z;
}.

(** What the engine hands to its collaborators, one event per call:
    [_show_tray_notification] and the [send_..._email] methods (whatever the
    tray icon and the mail settings then make of the call), the threads that
    deliver the start and stop notices, and the dialogs of [messagebox].
    [Raised] marks an exception that leaves the method. *)
Inductive event :=
  | TrayNotification (title message : string) (sound_name : option string)
                     (sounds_enabled : bool)
  | DailyLimitEmail (username : string) (daily_limit current_usage : Z)
  | BlockLimitEmail (username : string) (block_limit block_usage rest_duration : Z)
  | RestEndedEmail (username : string)
  | StartSessionThread (username : string) (sounds_enabled : bool)
  | StopSessionThread (username duration : string) (sounds_enabled : bool)
  | AskYesNo (title message : string) (answer : bool)
  | ShowInfo (title message : string)
  | ShowWarning (title message : string)
  | ShowError (title message : string)
  | Raised (exception : string).

(** The attributes of [GameSentryApp] that the engine uses, and its
    environment: the wall clock, read once per call of [datetime.now()], the
    answers that the person at the screen gives to yes/no dialogs, and the
    events emitted so far, oldest first. *)
Record app := App {
  db : option (gmap string user);
  current_kid_user : option user;
  kid_timer_running : bool;
  kid_timer_start_time : option Z;
  kid_session_log : list session;
  kid_timer_label : string;
  daily_remaining_label : option (string * string);
  daily_limit_notifications : gset string;
  block_limit_notifications : gset string;
  kid_rest_periods : gmap string rest_data;
  lunch_confirmed_today : gmap (option string) Z;
  sound_notifications_enabled : bool;
  clock : nat -> Z;
  ticks : nat;
  answers : nat -> bool;
  asked : nat;
  trace : list event;
}.

Definition set_db v (w : app) : app :=
  match w with
  | App _ cu tr ts sl tl dl dn bn rp lc se ck tk an ak ev =>
      App v cu tr ts sl tl dl dn bn rp lc se ck tk an ak ev
  end.
Definition set_kid_timer_running v (w : app) : app :=
  match w with
  | App d cu _ ts sl tl dl dn bn rp lc se ck tk an ak ev =>
      App d cu v ts sl tl dl dn bn rp lc se ck tk an ak ev
  end.
Definition set_kid_timer_start_time v (w : app) : app :=
  match w with
  | App d cu tr _ sl tl dl dn bn rp lc se ck tk an ak ev =>
      App d cu tr v sl tl dl dn bn rp lc se ck tk an ak ev
  end.
Definition set_kid_session_log v (w : app) : app :=
  match w with
  | App d cu tr ts _ tl dl dn bn rp lc se ck tk an ak ev =>
      App d cu tr ts v tl dl dn bn rp lc se ck tk an ak ev
  end.
Definition set_kid_timer_label v (w : app) : app :=
  match w with
  | App d cu tr ts sl _ dl dn bn rp lc se ck tk an ak ev =>
      App d cu tr ts sl v dl dn bn rp lc se ck tk an ak ev
  end.
Definition set_daily_remaining_label v (w : app) : app :=
  match w with
  | App d cu tr ts sl tl _ dn bn rp lc se ck tk an ak ev =>
      App d cu tr ts sl tl v dn bn rp lc se ck tk an ak ev
  end.
Definition set_daily_limit_notifications v (w : app) : app :=
  match w with
  | App d cu tr ts sl tl dl _ bn rp lc se ck tk an ak ev =>
      App d cu tr ts sl tl dl v bn rp lc se ck tk an ak ev
  end.
Definition set_block_limit_notifications v (w : app) : app :=
  match w with
  | App d cu tr ts sl tl dl dn _ rp lc se ck tk an ak ev =>
      App d cu tr ts sl tl dl dn v rp lc se ck tk an ak ev
  end.
Definition set_kid_rest_periods v (w : app) : app :=
  match w with
  | App d cu tr ts sl tl dl dn bn _ lc se ck tk an ak ev =>
      App d cu tr ts sl tl dl dn bn v lc se ck tk an ak ev
  end.
Definition set_lunch_confirmed_today v (w : app) : app :=
  match w with
  | App d cu tr ts sl tl dl dn bn rp _ se ck tk an ak ev =>
      App d cu tr ts sl tl dl dn bn rp v se ck tk an ak ev
  end.
Definition set_ticks v (w : app) : app :=
  match w with
  | App d cu tr ts sl tl dl dn bn rp lc se ck _ an ak ev =>
      App d cu tr ts sl tl dl dn bn rp lc se ck v an ak ev
  end.
Definition set_asked v (w : app) : app :=
  match w with
  | App d cu tr ts sl tl dl dn bn rp lc se ck tk an _ ev =>
      App d cu tr ts sl tl dl dn bn rp lc se ck tk an v ev
  end.
Definition set_trace v (w : app) : app :=
  match w with
  | App d cu tr ts sl tl dl dn bn rp lc se ck tk an ak _ =>
      App d cu tr ts sl tl dl dn bn rp lc se ck tk an ak v
  end.

(** *** Methods as state transformers *)

Definition M (A : Type) : Type := app -> A * app.

Definition ret {A} (a : A) : M A := fun w => (a, w).
Definition bind {A B} (m : M A) (k : A -> M B) : M B :=
  fun w => let r := m w in k (fst r) (snd r).

Notation "x <~ m ;;; k" := (bind m (fun x => k))
  (at level 200, m at level 100, k at level 200, right associativity).
Notation "m ;;; k" := (bind m (fun _ => k))
  (at level 200, k at level 200, right associativity).

Definition gets {A} (f : app -> A) : M A := fun w => (f w, w).
Definition modify (f : app -> app) : M unit := fun w => (tt, f w).

(** [datetime.now()] *)
Definition now : M Z := fun w => (clock w (ticks w), set_ticks (S (ticks w)) w).

Definition emit (e : event) : M unit := modify (fun w => set_trace (trace w ++ [e]) w).

(** [messagebox.askyesno(title, message)] *)
Definition askyesno (title message : string) : M bool :=
  fun w =>
    let a := answers w (asked w) in
    (a, set_trace (trace w ++ [AskYesNo title message a]) (set_asked (S (asked w)) w)).

(** ** The Firestore helpers *)

(** [get_user(db, user_id)] *)
Definition get_user (d : option (gmap string user)) (user_id : string) : option user :=
  match d with
  | None => None
  | Some d =>
      match d !! user_id with
      | Some doc =>
          Some (User (Some user_id) (username doc) (role doc) (dob doc)
                     (max_session_minutes doc) (max_daily_minutes doc)
                     (rest_minutes doc) (rest_duration_minutes doc)
                     (enforce_rest doc) (enforce_lunch_routine doc)
                     (lunch_start_time doc) (lunch_end_time doc)
                     (allowed_start_time doc) (allowed_end_time doc)
                     (sessions doc))
      | None => None
      end
  end.

(** [get_session_logs_for_user(db, user_id)] *)
Definition get_session_logs_for_user (d : option (gmap string user)) (user_id : string)
  : list session :=
  match d with
  | None => []
  | Some d =>
      match d !! user_id with
      | Some doc => default [] (sessions doc)
      | None => []
      end
  end.

Definition with_sessions (ss : list session) (doc : user) : user :=
  User (uid doc) (username doc) (role doc) (dob doc)
       (max_session_minutes doc) (max_daily_minutes doc)
       (rest_minutes doc) (rest_duration_minutes doc)
       (enforce_rest doc) (enforce_lunch_routine doc)
       (lunch_start_time doc) (lunch_end_time doc)
       (allowed_start_time doc) (allowed_end_time doc) (Some ss).

(** [user_doc.update({'sessions': ss})]: the update of a document that does
    not exist raises, and leaves the collection as it is. *)
Definition update_sessions (d : gmap string user) (user_id : string) (ss : list session)
  : option (gmap string user) :=
  match d !! user_id with
  | Some doc => Some (<[user_id := with_sessions ss doc]> d)
  | None => None
  end.

(** [ArrayUnion([x])] on an array: [x] is added unless it is there already. *)
Definition array_union (l : list session) (x : session) : list session :=
  if bool_decide (x ∈ l) then l else l ++ [x].

(** [add_session_log_to_user(db, user_id, session_log)]: the new collection
    and the boolean returned.  A [user_id] of [None] makes [document()]
    raise, which the function catches. *)
Definition add_session_log_to_user (d : option (gmap string user))
    (user_id : option string) (session_log : session)
  : option (gmap string user) * bool :=
  match d, user_id with
  | None, _ => (None, false)
  | Some d, Some user_id =>
      match update_sessions d user_id
              (array_union (get_session_logs_for_user (Some d) user_id) session_log) with
      | Some d' => (Some d', true)
      | None => (Some d, false)
      end
  | Some d, None => (Some d, false)
  end.

(** ** UsageCalculator *)

(** The body of the loop over the stored sessions; the two usage
    calculators differ only in the test on the start of the session.  A
    session whose start or duration does not parse leaves the total as it
    was ([except (ValueError, IndexError): continue]). *)
Definition add_session_seconds (in_window : Z -> bool) (total_seconds : Z) (s : session)
  : Z :=
  match strptime (default "" (start s)) FMT_YmdHMS with
  | Some start_time =>
      if in_window start_time then
        match split_on ":" (default "00:00:00" (duration s)) with
        | [p0; p1; p2] =>
            match py_int p0, py_int p1, py_int p2 with
            | Some hours, Some minutes, Some seconds =>
                total_seconds + (hours * 3600 + minutes * 60 + seconds)
            | _, _, _ => total_seconds
            end
        | _ => total_seconds
        end
      else total_seconds
  | None => total_seconds
  end.

(** "Add current session time if timer is running": the closing statements
    of both usage calculators. *)
Definition add_current_session (user_id : string) (total_seconds : Z) : M Z :=
  running <~ gets kid_timer_running ;;;
  timer_start <~ gets kid_timer_start_time ;;;
  match running, timer_start with
  | true, Some timer_start =>
      current_user <~ gets current_kid_user ;;;
      let current_user_id :=
        match current_user with Some u => uid u | None => None end in
      if bool_decide (current_user_id = Some user_id) then
        t <~ now ;;;
        let elapsed_seconds := int_total_seconds (t - timer_start) in
        ret (total_seconds + elapsed_seconds)
      else ret total_seconds
  | _, _ => ret total_seconds
  end.

Definition _calculate_daily_usage (user_id : string) : M Z :=
  d <~ gets db ;;;
  match d with
  | None => ret 0
  | Some _ =>
      let sessions := get_session_logs_for_user d user_id in
      t <~ now ;;;
      let today := date_of t in
      let total_seconds :=
        fold_left
          (add_session_seconds (fun start_time => date_of start_time =? today))
          sessions 0 in
      add_current_session user_id total_seconds
  end.

(** ** RestTracker *)

(** [start_time + timedelta(minutes=duration_minutes)], for a sum within
    the years 1..9999; beyond, the source raises [OverflowError]. *)
Definition rest_end (rest : rest_data) : Z :=
  start_time rest + timedelta_minutes (duration_minutes rest).

Definition _get_last_rest_end_time (user_id : string) : M Z :=
  rests <~ gets kid_rest_periods ;;;
  match rests !! user_id with
  | Some rest => ret (rest_end rest)
  | None => t <~ now ;;; ret (start_of_day t)
  end.

Definition _is_user_in_rest (user_id : string) : M bool :=
  rests <~ gets kid_rest_periods ;;;
  match rests !! user_id with
  | None => ret false
  | Some rest => t <~ now ;;; ret (t <? rest_end rest)
  end.

Definition _get_rest_remaining_seconds (user_id : string) : M Z :=
  resting <~ _is_user_in_rest user_id ;;;
  if negb resting then ret 0
  else
    rests <~ gets kid_rest_periods ;;;
    match rests !! user_id with
    | None => ret 0
    | Some rest =>
        t <~ now ;;;
        let remaining := int_total_seconds (rest_end rest - t) in
        ret (Z.max 0 remaining)
    end.

Definition _start_rest_period (user_id : string) (duration_minutes : Z) : M unit :=
  t <~ now ;;;
  modify (fun w =>
    set_kid_rest_periods (<[user_id := RestData t duration_minutes]> (kid_rest_periods w)) w).

Definition _calculate_block_usage (user_id : string) : M Z :=
  d <~ gets db ;;;
  match d with
  | None => ret 0
  | Some _ =>
      match get_user d user_id with
      | None => ret 0
      | Some _ =>
          resting <~ _is_user_in_rest user_id ;;;
          if resting then ret 0
          else
            let sessions := get_session_logs_for_user d user_id in
            t <~ now ;;;
            let today := date_of t in
            last_rest_end <~ _get_last_rest_end_time user_id ;;;
            let total_seconds :=
              fold_left
                (add_session_seconds
                   (fun start_time =>
                      (date_of start_time =? today) && (last_rest_end <=? start_time)))
                sessions 0 in
            add_current_session user_id total_seconds
      end
  end.

(** ** LimitMonitor *)

(** [key.split('_', 1)]: the text before and after the first underscore. *)
Fixpoint split_first (sep : ascii) (s : string) : option (string * string) :=
  match s with
  | EmptyString => None
  | String c s' =>
      if Ascii.eqb c sep then Some (EmptyString, s')
      else match split_first sep s' with
           | Some (a, b) => Some (String c a, b)
           | None => None
           end
  end.

(** Whether [_cleanup_old_notifications] puts the key into [to_remove]. *)
Definition to_remove (today : Z) (notification_key : string) : bool :=
  match split_first "_" notification_key with
  | Some (_, date_str) =>
      match strptime date_str FMT_Ymd with
      | Some notification_date => 1 <? today - date_of notification_date
      | None => true
      end
  | None => true
  end.

Definition _cleanup_old_notifications : M unit :=
  t <~ now ;;;
  let today := date_of t in
  modify (fun w =>
    set_daily_limit_notifications
      (filter (fun k => to_remove today k = false) (daily_limit_notifications w)) w).

Definition _check_daily_limit (user_id username : string) : M unit :=
  d <~ gets db ;;;
  match d with
  | None => ret tt
  | Some _ =>
      match get_user d user_id with
      | None => ret tt
      | Some user_data =>
          match max_daily_minutes user_data with
          | None => ret tt
          | Some daily_limit =>
              current_usage <~ _calculate_daily_usage user_id ;;;
              t <~ now ;;;
              let today_key := user_id +:+ "_" +:+ str_of_date (date_of t) in
              flags <~ gets daily_limit_notifications ;;;
              if bool_decide (today_key ∈ flags) then ret tt
              else if daily_limit <=? current_usage then
                sounds_enabled <~ gets sound_notifications_enabled ;;;
                emit (TrayNotification "Daily Limit Reached!"
                        (username +:+ " has reached their daily limit of "
                         +:+ str_of_Z daily_limit +:+ " minutes." +:+ nl
                         +:+ "Current usage: " +:+ str_of_Z current_usage
                         +:+ " minutes")
                        (Some "over.wav") sounds_enabled) ;;;
                let safe_username :=
                  if String.eqb username "" then "Unknown User" else username in
                emit (DailyLimitEmail safe_username daily_limit current_usage) ;;;
                modify (fun w =>
                  set_daily_limit_notifications
                    ({[today_key]} ∪ daily_limit_notifications w) w) ;;;
                _cleanup_old_notifications
              else ret tt
          end
      end
  end.

Definition _check_block_limit (user_id username : string) : M unit :=
  d <~ gets db ;;;
  match d with
  | None => ret tt
  | Some _ =>
      match get_user d user_id with
      | None => ret tt
      | Some user_data =>
          match max_session_minutes user_data, default true (enforce_rest user_data) with
          | Some block_limit, true =>
              current_block_usage <~ _calculate_block_usage user_id ;;;
              let block_limit_seconds := block_limit * 60 in
              t <~ now ;;;
              let today_key :=
                "block_" +:+ user_id +:+ "_" +:+ str_of_date (date_of t) in
              flags <~ gets block_limit_notifications ;;;
              if bool_decide (today_key ∈ flags) then ret tt
              else if block_limit_seconds <=? current_block_usage then
                let rest_duration := default 60 (rest_duration_minutes user_data) in
                _start_rest_period user_id rest_duration ;;;
                sounds_enabled <~ gets sound_notifications_enabled ;;;
                emit (TrayNotification "Play Time Limit Reached!"
                        (username +:+ " has reached their play time limit of "
                         +:+ str_of_Z block_limit +:+ " minutes." +:+ nl
                         +:+ "Break time started: " +:+ str_of_Z rest_duration
                         +:+ " minutes")
                        (Some "warning.wav") sounds_enabled) ;;;
                emit (BlockLimitEmail username block_limit (current_block_usage / 60)
                        rest_duration) ;;;
                modify (fun w =>
                  set_block_limit_notifications
                    ({[today_key]} ∪ block_limit_notifications w) w)
              else ret tt
          | _, _ => ret tt
          end
      end
  end.

Definition _check_rest_period_end (user_id username : string) : M unit :=
  resting <~ _is_user_in_rest user_id ;;;
  if negb resting then ret tt
  else
    rest_remaining <~ _get_rest_remaining_seconds user_id ;;;
    if rest_remaining <=? 0 then
      modify (fun w => set_kid_rest_periods (delete user_id (kid_rest_periods w)) w) ;;;
      emit (TrayNotification "Break Time Ended!"
              (username +:+ " can now start gaming again." +:+ nl
               +:+ "Play time limit has been reset.")
              None true) ;;;
      emit (RestEndedEmail username)
    else ret tt.

(** ** The remaining-time display *)

Definition _calculate_daily_remaining (user_id : string) : M Z :=
  d <~ gets db ;;;
  match d with
  | None => ret 0
  | Some _ =>
      match get_user d user_id with
      | None => ret 0
      | Some user_data =>
          match max_daily_minutes user_data with
          | None => ret 0
          | Some daily_limit =>
              let daily_limit_seconds := daily_limit * 60 in
              current_usage_seconds <~ _calculate_daily_usage user_id ;;;
              let remaining := daily_limit_seconds - current_usage_seconds in
              ret (Z.max 0 remaining)
          end
      end
  end.

Definition _format_time_remaining (seconds : Z) : string :=
  if seconds <=? 0 then "No time left"
  else if seconds <? 3600 then
    let minutes := seconds / 60 in
    let remaining_seconds := seconds mod 60 in
    str_of_Z minutes +:+ "m " +:+ pad2 remaining_seconds +:+ "s"
  else
    let hours := seconds / 3600 in
    let remaining_seconds := seconds mod 3600 in
    let minutes := remaining_seconds / 60 in
    let final_seconds := remaining_seconds mod 60 in
    str_of_Z hours +:+ "h " +:+ pad2 minutes +:+ "m " +:+ pad2 final_seconds +:+ "s".

(** The colour of the label, as chosen where the label is built and where it
    is refreshed. *)
Definition daily_color (daily_remaining : Z) : string :=
  if 3600 <? daily_remaining then "#28a745"
  else if 1800 <? daily_remaining then "#ffc107"
  else "#dc3545".

Definition truthy (s : option string) : bool :=
  match s with
  | Some s => negb (String.eqb s "")
  | None => false
  end.

Definition _update_daily_time_display : M unit :=
  current_user <~ gets current_kid_user ;;;
  match current_user with
  | None => ret tt
  | Some u =>
      match uid u with
      | Some user_id =>
          if String.eqb user_id "" then ret tt
          else
            daily_remaining <~ _calculate_daily_remaining user_id ;;;
            label <~ gets daily_remaining_label ;;;
            match label with
            | Some _ =>
                let daily_remaining_text := _format_time_remaining daily_remaining in
                modify (set_daily_remaining_label
                          (Some ("Daily Time Left: " +:+ daily_remaining_text,
                                 daily_color daily_remaining)))
            | None => ret tt
            end
      | None => ret tt
      end
  end.

(** ** GateEvaluator *)

(** ['%H:%M'] parsed with [strptime] and reduced with [.time()]. *)
Definition parse_time (s : string) : option Z := time_of <$> strptime s FMT_HM.

Definition _is_lunch_routine_required : M bool :=
  current_user <~ gets current_kid_user ;;;
  match current_user with
  | None => ret false
  | Some user =>
      if negb (default false (enforce_lunch_routine user)) then ret false
      else
        t <~ now ;;;
        let now_time := time_of t in
        match parse_time (default "12:00" (lunch_start_time user)),
              parse_time (default "13:00" (lunch_end_time user)) with
        | Some lunch_start, Some lunch_end =>
            if negb ((lunch_start <=? now_time) && (now_time <=? lunch_end)) then ret false
            else
              let user_id := uid user in
              t' <~ now ;;;
              let today := date_of t' in
              confirmed <~ gets lunch_confirmed_today ;;;
              if bool_decide (confirmed !! user_id = Some today) then
                brushed <~ askyesno "Brush Your Teeth!" "Have you brushed your teeth?" ;;;
                if negb brushed then
                  emit (ShowInfo "Reminder" "Please brush your teeth before playing.") ;;;
                  ret true
                else ret false
              else
                had_lunch <~ askyesno "Lunch Time!" "Have you had lunch yet?" ;;;
                if negb had_lunch then ret false
                else
                  modify (fun w =>
                    set_lunch_confirmed_today
                      (<[user_id := today]> (lunch_confirmed_today w)) w) ;;;
                  brushed <~ askyesno "Brush Your Teeth!"
                               "Great! Now, have you brushed your teeth?" ;;;
                  if negb brushed then
                    emit (ShowInfo "Reminder" "Please brush your teeth before playing.") ;;;
                    ret true
                  else ret false
        | _, _ => ret false
        end
  end.

(** The value of [in_range] in the allowed-hours block of [start_stop_timer];
    [None] when the [try] block raises. *)
Definition in_range_of (allowed_start allowed_end : string) (now_time : Z) : option bool :=
  match parse_time allowed_start, parse_time allowed_end with
  | Some allowed_start_time, Some allowed_end_time =>
      if allowed_start_time <=? allowed_end_time
      then Some ((allowed_start_time <=? now_time) && (now_time <=? allowed_end_time))
      else Some ((allowed_start_time <=? now_time) || (now_time <=? allowed_end_time))
  | _, _ => None
  end.

(** ** SessionController *)

(** [_format_duration(seconds)]; the argument, a float number of seconds in
    the source, is given here in microseconds. *)
Definition _format_duration (duration : Z) : string :=
  let seconds := int_total_seconds duration in
  let h := seconds / 3600 in
  let m := seconds mod 3600 / 60 in
  let s := seconds mod 60 in
  pad2 h +:+ ":" +:+ pad2 m +:+ ":" +:+ pad2 s.

(** One tick of the display; the scheduling of the next tick with [after] is
    left to the caller. *)
Definition _update_kid_timer : M unit :=
  running <~ gets kid_timer_running ;;;
  timer_start <~ gets kid_timer_start_time ;;;
  match running, timer_start with
  | true, Some timer_start =>
      t <~ now ;;;
      modify (set_kid_timer_label (_format_duration (t - timer_start))) ;;;
      _update_daily_time_display
  | _, _ => ret tt
  end.

Definition start_stop_timer : M unit :=
  running <~ gets kid_timer_running ;;;
  if negb running then
    required <~ _is_lunch_routine_required ;;;
    if required then ret tt
    else
      user <~ gets current_kid_user ;;;
      refused <~
        match user with
        | Some user =>
            let allowed_start := default "15:00" (allowed_start_time user) in
            let allowed_end := default "18:00" (allowed_end_time user) in
            t <~ now ;;;
            match in_range_of allowed_start allowed_end (time_of t) with
            | Some in_range =>
                if negb in_range then
                  emit (ShowWarning "Not Allowed"
                          ("You can only play between " +:+ allowed_start
                           +:+ " and " +:+ allowed_end +:+ ".")) ;;;
                  ret true
                else ret false
            | None =>
                emit (ShowWarning "Not Allowed"
                        "Allowed play hours are not set correctly.") ;;;
                ret true
            end
        | None => ret false
        end ;;;
      if refused then ret tt
      else
        match user with
        | None => emit (Raised "AttributeError")
        | Some user =>
            let username := default "Kid" (username user) in
            sounds_enabled <~ gets sound_notifications_enabled ;;;
            emit (StartSessionThread username sounds_enabled) ;;;
            modify (set_kid_timer_running true) ;;;
            t <~ now ;;;
            modify (set_kid_timer_start_time (Some t)) ;;;
            _update_kid_timer
        end
  else
    modify (set_kid_timer_running false) ;;;
    end_time <~ now ;;;
    timer_start <~ gets kid_timer_start_time ;;;
    session_entry <~
      match timer_start with
      | Some start_time =>
          let duration := end_time - start_time in
          let session_entry :=
            Session (Some (strftime_YmdHMS start_time))
                    (Some (strftime_YmdHMS end_time))
                    (Some (_format_duration duration)) in
          current_user <~ gets current_kid_user ;;;
          match current_user with
          | Some user =>
              modify (fun w =>
                set_db (fst (add_session_log_to_user (db w) (uid user) session_entry)) w) ;;;
              let username := default "Kid" (username user) in
              sounds_enabled <~ gets sound_notifications_enabled ;;;
              emit (StopSessionThread username (_format_duration duration)
                      sounds_enabled) ;;;
              match uid user with
              | Some user_id =>
                  if String.eqb user_id "" then ret (Some session_entry)
                  else _check_daily_limit user_id username ;;; ret (Some session_entry)
              | None => ret (Some session_entry)
              end
          | None => ret (Some session_entry)
          end
      | None => ret None
      end ;;;
    match session_entry with
    | Some session_entry =>
        modify (fun w => set_kid_session_log (kid_session_log w ++ [session_entry]) w)
    | None => ret tt
    end ;;;
    _update_daily_time_display ;;;
    modify (set_kid_timer_label "00:00:00") ;;;
    modify (set_kid_timer_start_time None).

(** ** Manual entries and edits of the session log *)

(** The overlap test of both paths against one stored session; a stored
    session whose bounds do not parse is passed over ([continue]). *)
Definition overlaps (start_dt stop_dt : Z) (other : session) : bool :=
  match strptime (default "" (start other)) FMT_YmdHMS,
        strptime (default "" (stop other)) FMT_YmdHMS with
  | Some other_start, Some other_stop =>
      (start_dt <? other_stop) && (other_start <? stop_dt)
  | _, _ => false
  end.

Definition overlap_message (other : session) : string :=
  "The new time range overlaps with another session (from "
  +:+ default "" (start other) +:+ " to " +:+ default "" (stop other) +:+ ").".

(** The last day a [date] can hold, [date.max.toordinal()]. *)
Definition MAXORDINAL : Z := 3652059.

(** The [try] block of [ManualEntryDialog.save]: the bounds and the text of
    the duration, [None] when it raises. *)
Definition entry_of_form (date start_s stop_s : string) : option (Z * Z * string) :=
  match strptime (date +:+ " " +:+ start_s) FMT_YmdHM,
        strptime (date +:+ " " +:+ stop_s) FMT_YmdHM with
  | Some start_dt, Some stop_dt0 =>
      let shifted := stop_dt0 <? start_dt in
      let stop_dt := if shifted then stop_dt0 + timedelta_days 1 else stop_dt0 in
      if shifted && (MAXORDINAL <? date_of stop_dt) then None
      else
        let duration := stop_dt - start_dt in
        let duration_str :=
          if 0 <? td_days duration then
            let total_seconds := duration / us_per_second in
            pad2 (total_seconds / 3600) +:+ ":" +:+ pad2 (total_seconds mod 3600 / 60)
              +:+ ":" +:+ pad2 (total_seconds mod 60)
          else
            let h := td_seconds duration / 3600 in
            let rem := td_seconds duration mod 3600 in
            pad2 h +:+ ":" +:+ pad2 (rem / 60) +:+ ":" +:+ pad2 (rem mod 60) in
        Some (start_dt, stop_dt, duration_str)
  | _, _ => None
  end.

(** [ManualEntryDialog.save], for the dialog opened on the user [user_id]
    with the three entry fields as given. *)
Definition ManualEntryDialog_save (user_id date start_s stop_s : string) : M unit :=
  match entry_of_form date start_s stop_s with
  | None => emit (ShowError "Invalid Input" "Please enter valid date and time values.")
  | Some (start_dt, stop_dt, duration_str) =>
      if stop_dt <? start_dt then
        emit (ShowError "Invalid Time Range" "Start time cannot be after stop time.")
      else
        d <~ gets db ;;;
        let sessions := get_session_logs_for_user d user_id in
        match List.find (overlaps start_dt stop_dt) sessions with
        | Some other => emit (ShowError "Time Overlap" (overlap_message other))
        | None =>
            match d with
            | None => emit (Raised "AttributeError")
            | Some d =>
                let sessions :=
                  sessions ++ [Session (Some (strftime_YmdHMS start_dt))
                                       (Some (strftime_YmdHMS stop_dt))
                                       (Some duration_str)] in
                match update_sessions d user_id sessions with
                | Some d' => modify (set_db (Some d'))
                | None => emit (Raised "NotFound")
                end
            end
        end
  end.

(** The sessions other than the one at [session_idx], in order. *)
Definition others (session_idx : nat) (sessions : list session) : list session :=
  map snd (List.filter (fun p => negb (fst p =? session_idx)%nat) (imap pair sessions)).

(** [edit_selected_log], for the selected row [iid] (of the form
    ["<user_id>:<index>"]) and the answers to the three input dialogs, where
    [None] is the Cancel button. *)
Definition edit_selected_log (selected : option string)
    (new_start new_stop new_duration : option string) : M unit :=
  d <~ gets db ;;;
  match d with
  | None => ret tt
  | Some d =>
      match selected with
      | None =>
          emit (ShowWarning "No selection" "Please select a session log entry to edit.")
      | Some iid =>
          match split_on ":" iid with
          | user_id :: idx_s :: _ =>
              match py_int idx_s with
              | None => emit (Raised "ValueError")
              | Some session_idx =>
                  let sessions :=
                    match d !! user_id with
                    | Some user_data => default [] (sessions user_data)
                    | None => []
                    end in
                  if (0 <=? session_idx) && (session_idx <? Z.of_nat (length sessions)) then
                    match new_start, new_stop, new_duration with
                    | Some new_start, Some new_stop, Some new_duration =>
                        match strptime new_start FMT_YmdHMS, strptime new_stop FMT_YmdHMS with
                        | Some start_dt, Some stop_dt =>
                            if stop_dt <? start_dt then
                              emit (ShowError "Invalid Time Range"
                                      "Start time cannot be after stop time.")
                            else
                              match List.find (overlaps start_dt stop_dt)
                                      (others (Z.to_nat session_idx) sessions) with
                              | Some other =>
                                  emit (ShowError "Time Overlap" (overlap_message other))
                              | None =>
                                  let sessions :=
                                    <[Z.to_nat session_idx :=
                                        Session (Some new_start) (Some new_stop)
                                                (Some new_duration)]> sessions in
                                  match update_sessions d user_id sessions with
                                  | Some d' => modify (set_db (Some d'))
                                  | None => emit (Raised "NotFound")
                                  end
                              end
                        | _, _ =>
                            emit (ShowError "Invalid Time"
                                    "Start and Stop times must be in format YYYY-MM-DD HH:MM:SS.")
                        end
                    | _, _, _ => ret tt
                    end
                  else ret tt
              end
          | _ => emit (Raised "IndexError")
          end
      end
  end.

(** ** The user form

    [UserManagementWindow._gather_and_save_user]: the kid settings that the
    form stores with a user.  A dictionary of updates is a [user] whose
    absent keys are [None]. *)

Record user_form := UserForm {
  dob_day_var : string;
  dob_month_var : string;
  dob_year_var : string;
  max_session_var : string;
  max_daily_var : string;
  rest_time_var : string;
  lunch_start_entry : string;
  lunch_end_entry : string;
  allowed_start_entry : string;
  allowed_end_entry : string;
  enforce_lunch_routine_var : bool;
}.

Definition ROLE_KID : string := "Kid".

Definition lower (c : ascii) : ascii :=
  let n := nat_of_ascii c in
  if (65 <=? n)%nat && (n <=? 90)%nat then ascii_of_nat (n + 32) else c.

Fixpoint lowercase (s : string) : string :=
  match s with
  | EmptyString => EmptyString
  | String c s' => String (lower c) (lowercase s')
  end.

Definition MONTH_NAMES : list string :=
  ["january"; "february"; "march"; "april"; "may"; "june"; "july"; "august";
   "september"; "october"; "november"; "december"].

Fixpoint index_of (x : string) (l : list string) (i : Z) : option Z :=
  match l with
  | [] => None
  | y :: l' => if String.eqb x y then Some i else index_of x l' (i + 1)
  end.

(** [datetime.strptime(month_str, "%B").month], with English month names. *)
Definition month_of_name (month_str : string) : option Z :=
  index_of (lowercase month_str) MONTH_NAMES 1.

(** [user_data.update(other)] on dictionaries, and the merge that a Firestore
    [update] performs on a stored document. *)
Definition dict_update (user_data other : user) : user :=
  let pick {A} (f : user -> option A) : option A :=
    match f other with Some v => Some v | None => f user_data end in
  User (pick uid) (pick username) (pick role) (pick dob)
       (pick max_session_minutes) (pick max_daily_minutes)
       (pick rest_minutes) (pick rest_duration_minutes)
       (pick enforce_rest) (pick enforce_lunch_routine)
       (pick lunch_start_time) (pick lunch_end_time)
       (pick allowed_start_time) (pick allowed_end_time) (pick sessions).

(** The dictionary [kid_settings]; [None] stands for [ValueError].  The day
    and the year are taken within a C [int]; beyond, the constructor of
    [datetime] raises [OverflowError]. *)
Definition kid_settings (f : user_form) : option user :=
  day ← py_int (dob_day_var f);
  month ← month_of_name (dob_month_var f);
  year ← py_int (dob_year_var f);
  _ ← mk_datetime year month day 0 0 0;
  max_session ← py_int (max_session_var f);
  max_daily ← py_int (max_daily_var f);
  rest ← py_int (rest_time_var f);
  Some (User None None None
          (Some (pad4 year +:+ "-" +:+ pad2 month +:+ "-" +:+ pad2 day +:+ "T00:00:00"))
          (Some max_session) (Some max_daily) (Some rest) None None
          (Some (enforce_lunch_routine_var f))
          (Some (lunch_start_entry f)) (Some (lunch_end_entry f))
          (Some (allowed_start_entry f)) (Some (allowed_end_entry f)) None).

(** [update_user(db, user_id, user_data)] *)
Definition update_user (d : gmap string user) (user_id : string) (user_data : user)
  : gmap string user * bool :=
  match d !! user_id with
  | Some doc => (<[user_id := dict_update doc user_data]> d, true)
  | None => (d, false)
  end.

(** [add_user(db, user_data)]; [new_id] is the identifier that Firestore
    gives to the new document. *)
Definition add_user (d : gmap string user) (new_id : string) (user_data : user)
  : gmap string user * option string :=
  if negb (truthy (username user_data)) || negb (truthy (role user_data))
  then (d, None)
  else (<[new_id := user_data]> d, Some new_id).

Definition _gather_and_save_user (f : user_form) (editing_user_id : option string)
    (new_id : string) (user_data : user) (is_update : bool) : M unit :=
  let gathered :=
    if bool_decide (role user_data = Some ROLE_KID)
    then dict_update user_data <$> kid_settings f
    else Some user_data in
  match gathered with
  | None =>
      emit (ShowError "Input Error"
              "Invalid Date of Birth or numeric value. Please check your inputs.")
  | Some user_data =>
      d <~ gets db ;;;
      match d with
      | None => emit (Raised "AttributeError")
      | Some d =>
          let name := default "" (username user_data) in
          if is_update then
            match editing_user_id with
            | Some editing_user_id =>
                let r := update_user d editing_user_id user_data in
                if snd r then
                  modify (set_db (Some (fst r))) ;;;
                  emit (ShowInfo "Success" ("User '" +:+ name +:+ "' updated successfully."))
                else
                  emit (ShowError "Database Error"
                          ("Failed to update user '" +:+ name +:+ "'."))
            | None =>
                emit (ShowError "Database Error"
                        ("Failed to update user '" +:+ name +:+ "'."))
            end
          else
            let r := add_user d new_id user_data in
            match snd r with
            | Some _ =>
                modify (set_db (Some (fst r))) ;;;
                emit (ShowInfo "Success" ("User '" +:+ name +:+ "' added successfully."))
            | None =>
                emit (ShowError "Database Error"
                        ("Failed to add user '" +:+ name +:+ "'."))
            end
      end
  end.

(** ** Sample states

    Concrete users, clocks and application states on which the properties
    below are evaluated. *)

(** A dictionary without keys. *)
Definition no_fields : user :=
  User None None None None None None None None None None None None None None None.

(** The state that [__init__] and the construction of the kid view leave:
    no timer running, no flag, no rest period, no confirmation. *)
Definition init_app (d : gmap string user) (current : option user)
    (clock : nat -> Z) (answers : nat -> bool) : app :=
  App (Some d) current false None [] "00:00:00" (Some ("", "")) ∅ ∅ ∅ ∅ true
      clock 0%nat answers 0%nat [].

(** The time of day [h:m:00]. *)
Definition hm (h m : Z) : Z := (h * 3600 + m * 60) * us_per_second.

(** The [datetime] written ["YYYY-MM-DD HH:MM:SS"]. *)
Definition at_time (s : string) : Z := default 0 (strptime s FMT_YmdHMS).

Definition always {A} (x : A) : nat -> A := fun _ => x.

(** The warning with which the allowed-hours block answers a configuration
    that it cannot read. *)
Definition invalid_hours_warning : event :=
  ShowWarning "Not Allowed" "Allowed play hours are not set correctly.".

(** A kid whose allowed hours run overnight, from 22:00 to 06:00. *)
Definition night_owl : user :=
  User (Some "kid1") (Some "Ana") (Some "Kid") None None None None None None None
       None None (Some "22:00") (Some "06:00") None.

Definition night_app (now_s : string) : app :=
  init_app {["kid1" := night_owl]} (Some night_owl) (always (at_time now_s))
           (always true).

(** A kid whose allowed hours do not parse, and one whose lunch hours do not
    parse while the lunch routine is enforced. *)
Definition bad_hours_kid : user :=
  User (Some "kid1") (Some "Ana") (Some "Kid") None None None None None None None
       None None (Some "25:00") (Some "18:00") None.

Definition bad_lunch_kid : user :=
  User (Some "kid1") (Some "Ana") (Some "Kid") None None None None None None
       (Some true) (Some "noon") (Some "13:00") (Some "15:00") (Some "18:00") None.

Definition bad_hours_app : app :=
  init_app {["kid1" := bad_hours_kid]} (Some bad_hours_kid)
           (always (at_time "2024-03-01 16:00:00")) (always true).

Definition bad_lunch_app : app :=
  init_app {["kid1" := bad_lunch_kid]} (Some bad_lunch_kid)
           (always (at_time "2024-03-01 16:00:00")) (always true).

(** The dialogs of the lunch routine. *)
Definition lunch_question : bool -> event :=
  AskYesNo "Lunch Time!" "Have you had lunch yet?".
Definition teeth_question_after_lunch : bool -> event :=
  AskYesNo "Brush Your Teeth!" "Great! Now, have you brushed your teeth?".
Definition teeth_question : bool -> event :=
  AskYesNo "Brush Your Teeth!" "Have you brushed your teeth?".
Definition teeth_reminder : event :=
  ShowInfo "Reminder" "Please brush your teeth before playing.".

(** Whether the instant [t] lies in the lunch window of the user, both ends
    included, with hours that parse. *)
Definition lunch_window_open (u : user) (t : Z) : bool :=
  match parse_time (default "12:00" (lunch_start_time u)),
        parse_time (default "13:00" (lunch_end_time u)) with
  | Some lunch_start, Some lunch_end =>
      (lunch_start <=? time_of t) && (time_of t <=? lunch_end)
  | _, _ => false
  end.

(** The scenario of the lunch routine: lunch from 12:00 to 13:00, a first
    attempt at 12:30 answered "yes" to lunch and "no" to teeth, and a retry
    at 12:45 answered "yes". *)
Definition lunch_kid : user :=
  User (Some "kid1") (Some "Ana") (Some "Kid") None None None None None None
       (Some true) (Some "12:00") (Some "13:00") (Some "10:00") (Some "20:00") None.

Definition lunch_clock (n : nat) : Z :=
  if (n <? 2)%nat then at_time "2024-03-01 12:30:00" else at_time "2024-03-01 12:45:00".

Definition lunch_answers (n : nat) : bool :=
  match n with
  | 0%nat => true
  | 1%nat => false
  | _ => true
  end.

Definition lunch_app : app :=
  init_app {["kid1" := lunch_kid]} (Some lunch_kid) lunch_clock lunch_answers.

(** A kid with a daily budget of 60 minutes and a block budget of one
    minute, who played from 10:00:00 to 10:01:30 and from 11:00 to 11:30 on
    the first of March 2024. *)
Definition morning_sessions : list session :=
  [Session (Some "2024-03-01 10:00:00") (Some "2024-03-01 10:01:30") (Some "00:01:30")].

Definition two_sessions : list session :=
  morning_sessions
  ++ [Session (Some "2024-03-01 11:00:00") (Some "2024-03-01 11:30:00") (Some "00:30:00")].

Definition ana (ss : list session) : user :=
  User (Some "kid1") (Some "Ana") (Some "Kid") None (Some 1) (Some 60) (Some 30) None
       None None None None None None (Some ss).

Definition ana_app (ss : list session) (now_s : string) : app :=
  init_app {["kid1" := ana ss]} (Some (ana ss)) (always (at_time now_s)) (always true).

(** A kid without a daily budget, and a kid whose budget of one minute is
    used up by the 90 seconds played in the morning. *)
Definition unlimited_kid : user :=
  User (Some "kid2") (Some "Ben") (Some "Kid") None (Some 120) None (Some 60) None
       None None None None None None (Some morning_sessions).

Definition exhausted_kid : user :=
  User (Some "kid3") (Some "Cleo") (Some "Kid") None (Some 120) (Some 1) (Some 60) None
       None None None None None None (Some morning_sessions).

Definition family_app : app :=
  init_app {["kid2" := unlimited_kid; "kid3" := exhausted_kid]} None
           (always (at_time "2024-03-01 16:00:00")) (always true).

(** The text of the tray notice of the daily limit. *)
Definition daily_limit_notice (name : string) (daily_limit current_usage : Z) : event :=
  TrayNotification "Daily Limit Reached!"
    (name +:+ " has reached their daily limit of " +:+ str_of_Z daily_limit
     +:+ " minutes." +:+ nl +:+ "Current usage: " +:+ str_of_Z current_usage
     +:+ " minutes")
    (Some "over.wav") true.

(** Ana during a rest period of 60 minutes that started at 16:00. *)
Definition resting_app (now_s : string) : app :=
  set_kid_rest_periods {["kid1" := RestData (at_time "2024-03-01 16:00:00") 60]}
    (ana_app morning_sessions now_s).

(** [k] calls of the rest-ended check in sequence. *)
Fixpoint check_rest_period_end_times (k : nat) (user_id username : string) (w : app) : app :=
  match k with
  | O => w
  | S k' =>
      check_rest_period_end_times k' user_id username
        (snd (_check_rest_period_end user_id username w))
  end.

(** A parent registers Ana through the user form, with a rest time of 30
    minutes and a play-time limit of one minute, and then enters by hand a
    session from 10:00 to 10:02. *)
Definition ana_form : user_form :=
  UserForm "1" "March" "2015" "1" "60" "30" "12:00" "13:00" "15:00" "18:00" false.

Definition ana_data : user :=
  User None (Some "Ana") (Some ROLE_KID) None None None None None None None None None
       None None None.

Definition registered_app : app :=
  snd (_gather_and_save_user ana_form None "kid1" ana_data false
         (init_app ∅ None (always (at_time "2024-03-01 16:00:00")) (always true))).

Definition played_app : app :=
  snd (ManualEntryDialog_save "kid1" "2024-03-01" "10:00" "10:02" registered_app).

(** Ana with the timer running since [start_s], at the instant [now_s]. *)
Definition running_app (ss : list session) (start_s now_s : string) : app :=
  set_kid_timer_start_time (Some (at_time start_s))
    (set_kid_timer_running true (ana_app ss now_s)).




(** The sum over the stored sessions of a window, as both calculators
    compute it. *)
Definition stored_seconds (in_window : Z -> bool) (ss : list session) : Z :=
  fold_left (add_session_seconds in_window) ss 0.

Definition daily_window (today : Z) (start_time : Z) : bool :=
  date_of start_time =? today.


(** Ana, who played 90 seconds in the morning against a block limit of one
    minute, stops at 16:00 a session started at 15:58. *)
Definition stopping_app : app :=
  running_app morning_sessions "2024-03-01 15:58:00" "2024-03-01 16:00:00".

Definition afternoon_session : session :=
  Session (Some "2024-03-01 15:58:00") (Some "2024-03-01 16:00:00") (Some "00:02:00").

(** The state in which the stop branch of [start_stop_timer] calls
    [_check_daily_limit]: the timer is stopped, the clock has been read
    once, the interval has been handed to [add_session_log_to_user] and the
    stop notice to its thread. *)
Definition stop_entry (w : app) (t0 : Z) : session :=
  Session (Some (strftime_YmdHMS t0)) (Some (strftime_YmdHMS (clock w (ticks w))))
          (Some (_format_duration (clock w (ticks w) - t0))).

Definition after_append (w : app) (u : user) (t0 : Z) : app :=
  set_trace
    (trace w ++ [StopSessionThread (default "Kid" (username u))
                   (_format_duration (clock w (ticks w) - t0))
                   (sound_notifications_enabled w)])
    (set_db (fst (add_session_log_to_user (db w) (uid u) (stop_entry w t0)))
       (set_ticks (S (ticks w)) (set_kid_timer_running false w))).

(** ** Further definitions used in statements and proofs *)

(** The value of a decimal numeral read from its first digit on, starting
    from [acc]. *)
Fixpoint uint_acc (u : Decimal.uint) (acc : Z) : Z :=
  match u with
  | Decimal.Nil => acc
  | Decimal.D0 u => uint_acc u (acc * 10 + 0)
  | Decimal.D1 u => uint_acc u (acc * 10 + 1)
  | Decimal.D2 u => uint_acc u (acc * 10 + 2)
  | Decimal.D3 u => uint_acc u (acc * 10 + 3)
  | Decimal.D4 u => uint_acc u (acc * 10 + 4)
  | Decimal.D5 u => uint_acc u (acc * 10 + 5)
  | Decimal.D6 u => uint_acc u (acc * 10 + 6)
  | Decimal.D7 u => uint_acc u (acc * 10 + 7)
  | Decimal.D8 u => uint_acc u (acc * 10 + 8)
  | Decimal.D9 u => uint_acc u (acc * 10 + 9)
  end.

(** The characters that [str(n)] can produce. *)
Definition is_sign_or_digit (c : ascii) : bool := is_digit c || is_char "-" c.

Fixpoint all_chars (p : ascii -> bool) (s : string) : bool :=
  match s with
  | EmptyString => true
  | String c s' => p c && all_chars p s'
  end.

(** The first alternative of a directive that matches at the start of [p],
    with its value and what it leaves of [p]. *)
Definition first_alt (d : directive) (p : string) : option (Z * string) :=
  first_some (fun a => match_alt a p 0) (dir_alts d).

(** [p] is a field of a formatted date that [strptime] reads back as [n]:
    no alternative of the directive is longer than [p], the first one that
    matches takes all of [p] with the value [n], and [p] begins with a
    digit. *)
Definition field_ok (d : directive) (p : string) (n : Z) : bool :=
  forallb (fun a => (length a <=? String.length p)%nat) (dir_alts d)
  && match first_alt d p with
     | Some (v, EmptyString) => v =? n
     | _ => false
     end
  && match p with
     | String c _ => is_digit c
     | EmptyString => false
     end.

(** The integers from [lo] to [hi]. *)
Definition upto (lo hi : Z) : list Z :=
  map (fun k => lo + Z.of_nat k) (seq 0 (Z.to_nat (hi - lo + 1))).

(** [ord2ymd] gives a valid date whose ordinal is the day it started from;
    [ymax] bounds the year. *)
Definition day_ok (ymax : Z) (d : Z) : bool :=
  let '(y, m, dd) := ord2ymd d in
  (1 <=? y) && (y <=? ymax) && (1 <=? m) && (m <=? 12)
  && (1 <=? dd) && (dd <=? days_in_month y m) && (ymd2ord y m dd =? d).

(** A session of half an hour, started a quarter of a millisecond after
    10:00:00 on day 739000. *)
Definition morning_start : Z := 739000 * us_per_day + 36000 * us_per_second + 250.
Definition morning_stop : Z := 739000 * us_per_day + 37830 * us_per_second.

(** Ana stored under an identifier with an underscore. *)
Definition underscore_app : app :=
  init_app {["kid_1" := ana morning_sessions]} (Some (ana morning_sessions))
           (always (at_time "2024-03-01 16:00:00")) (always true).

(** ** The state outside the session controller *)

(** The state [w] with other rest periods and other block flags. *)
Definition with_breaks (r : gmap string rest_data) (b : gset string) (w : app) : app :=
  set_kid_rest_periods r (set_block_limit_notifications b w).

(** A method that neither reads nor writes the rest periods and the block
    flags: run from a state with other ones, it returns the same value and
    leaves the same state but for them. *)
Definition ignores_breaks {A} (m : M A) : Prop :=
  ∀ r b w, m (with_breaks r b w) = (fst (m w), with_breaks r b (snd (m w))).

(** The timer runs exactly when it has a start time. *)
Definition timer_consistent (w : app) : Prop :=
  match kid_timer_start_time w with
  | Some _ => kid_timer_running w = true
  | None => kid_timer_running w = false
  end.

(** A method that leaves the part [f] of the state as it was. *)
Definition keeps {A B} (f : app -> B) (m : M A) : Prop :=
  ∀ w, f (snd (m w)) = f w.

(** ** Stored sessions that do not overlap *)

(** The bounds of a stored session as the overlap tests read them. *)
Definition interval (s : session) : option (Z * Z) :=
  match strptime (default "" (start s)) FMT_YmdHMS,
        strptime (default "" (stop s)) FMT_YmdHMS with
  | Some a, Some b => Some (a, b)
  | _, _ => None
  end.

(** No session of the list overlaps another one, in the sense of the test
    [overlaps] of the manual entry and of the edit. *)
Definition no_overlap (l : list session) : Prop :=
  ∀ i j x y sx ex, i ≠ j → l !! i = Some x → l !! j = Some y →
    interval x = Some (sx, ex) → overlaps sx ex y = false.

(** The boolean form of [no_overlap]. *)
Definition no_overlap_b (l : list session) : bool :=
  forallb (fun p : nat * session =>
    forallb (fun q : nat * session =>
      (fst p =? fst q)%nat
      || match interval (snd p) with
         | Some (sx, ex) => negb (overlaps sx ex (snd q))
         | None => true
         end) (imap pair l)) (imap pair l).

(** ** The rows of the session-log view and their deletion *)

(** The rows that the loop of [_actual_show_logs] builds for one user from
    the stored sessions: the sessions whose start parses, and falls on the
    selected date when a date filter is set, each with its index in the
    stored array. *)
Definition log_rows (selected_date : option Z) (sessions : list session)
  : list (nat * session) :=
  List.filter
    (fun p : nat * session =>
       match strptime (default "" (start (snd p))) FMT_YmdHMS with
       | Some session_dt =>
           match selected_date with
           | Some d => date_of session_dt =? d
           | None => true
           end
       | None => false
       end)
    (imap pair sessions).

(** The identifier that the view gives to the row of the session at
    [session_idx] of the user [user_id]. *)
Definition row_iid (user_id : string) (session_idx : nat) : string :=
  user_id +:+ ":" +:+ str_of_Z (Z.of_nat session_idx).

(** [delete_selected_log], for the selected row [iid], [None] when no row is
    selected. *)
Definition delete_selected_log (selected : option string) : M unit :=
  d <~ gets db ;;;
  match d with
  | None => ret tt
  | Some d =>
      match selected with
      | None =>
          emit (ShowWarning "No selection" "Please select a session log entry to delete.")
      | Some iid =>
          match split_on ":" iid with
          | user_id :: idx_s :: _ =>
              match py_int idx_s with
              | None => emit (Raised "ValueError")
              | Some session_idx =>
                  confirmed <~ askyesno "Confirm Delete"
                                 "Are you sure you want to delete this session log entry?" ;;;
                  if negb confirmed then ret tt
                  else
                    let sessions :=
                      match d !! user_id with
                      | Some user_data => default [] (sessions user_data)
                      | None => []
                      end in
                    if (0 <=? session_idx) && (session_idx <? Z.of_nat (length sessions)) then
                      let sessions := delete (Z.to_nat session_idx) sessions in
                      match update_sessions d user_id sessions with
                      | Some d' => modify (set_db (Some d'))
                      | None => emit (Raised "NotFound")
                      end
                    else ret tt
              end
          | _ => emit (Raised "IndexError")
          end
      end
  end.

(** ** The user form opened on a stored user *)

(** [d.strftime('%B')], with English month names. *)
Definition month_name (month : Z) : string :=
  nth (Z.to_nat (month - 1))
    ["January"; "February"; "March"; "April"; "May"; "June"; "July"; "August";
     "September"; "October"; "November"; "December"] "".

(** The kid settings that [_clear_form] leaves in the form; [this_year] is
    [datetime.now().year]. *)
Definition _clear_form (this_year : Z) : user_form :=
  UserForm "1" (month_name 1) (str_of_Z (this_year - 10)) "120" "210" "60"
           "12:00" "13:00" "15:00" "18:00" true.

(** The kid settings of the form after [edit_selected_user] has populated it
    from [user_data], the dictionary that [get_user] returned.
    [parsed_dob] is the date that
    [datetime.fromisoformat(dob_str.replace("Z", "+00:00")).date()] gives for
    the stored date of birth, [None] when it raises [ValueError]. *)
Definition edit_selected_user (this_year : Z) (parsed_dob : option (Z * Z * Z))
    (user_data : user) : user_form :=
  let f := _clear_form this_year in
  if bool_decide (default ROLE_KID (role user_data) = ROLE_KID) then
    let f :=
      if truthy (dob user_data) then
        match parsed_dob with
        | Some (year, month, day) =>
            UserForm (str_of_Z day) (month_name month) (str_of_Z year)
                     (max_session_var f) (max_daily_var f) (rest_time_var f)
                     (lunch_start_entry f) (lunch_end_entry f)
                     (allowed_start_entry f) (allowed_end_entry f)
                     (enforce_lunch_routine_var f)
        | None => f
        end
      else f in
    UserForm (dob_day_var f) (dob_month_var f) (dob_year_var f)
             (match max_session_minutes user_data with
              | Some n => str_of_Z n | None => "120" end)
             (match max_daily_minutes user_data with
              | Some n => str_of_Z n | None => "210" end)
             (match rest_minutes user_data with
              | Some n => str_of_Z n | None => "60" end)
             (default "12:00" (lunch_start_time user_data))
             (default "13:00" (lunch_end_time user_data))
             (default "15:00" (allowed_start_time user_data))
             (default "18:00" (allowed_end_time user_data))
             (default true (enforce_lunch_routine user_data))
  else f.

(** A date that a Python [date] can hold. *)
Definition valid_date (ymd : Z * Z * Z) : Prop :=
  let '(y, m, d) := ymd in
  1 <= y <= 9999 ∧ 1 <= m <= 12 ∧ 1 <= d <= days_in_month y m.

(** The date of birth that goes into the form. *)
Definition form_dob (this_year : Z) (parsed_dob : option (Z * Z * Z)) (user_data : user)
  : Z * Z * Z :=
  match truthy (dob user_data), parsed_dob with
  | true, Some ymd => ymd
  | _, _ => (this_year - 10, 1, 1)
  end.

(** Ana as stored, without a daily limit. *)
Definition unlimited_ana : user :=
  User None (Some "Ana") (Some ROLE_KID) (Some "2015-03-01T00:00:00") (Some 45) None
       (Some 30) (Some 20) None None None None (Some "16:00") None
       (Some two_sessions).

(** ** The preview of the manual entry *)

(** The text that [ManualEntryDialog.update_duration] puts on the duration
    label for the three entry fields. *)
Definition update_duration (date start_s stop_s : string) : string :=
  match strptime (date +:+ " " +:+ start_s) FMT_YmdHM,
        strptime (date +:+ " " +:+ stop_s) FMT_YmdHM with
  | Some start_dt, Some stop_dt0 =>
      let shifted := stop_dt0 <? start_dt in
      let stop_dt := if shifted then stop_dt0 + timedelta_days 1 else stop_dt0 in
      if shifted && (MAXORDINAL <? date_of stop_dt) then "Duration: --:--:--"
      else
        let duration := stop_dt - start_dt in
        let h := td_seconds duration / 3600 in
        let rem := td_seconds duration mod 3600 in
        "Duration: " +:+ pad2 h +:+ ":" +:+ pad2 (rem / 60) +:+ ":" +:+ pad2 (rem mod 60)
  | _, _ => "Duration: --:--:--"
  end.

(** ** Decimal digits *)

(** The numeral [u] with the digit [k] put before it, and the character of
    the digit [k]. *)
Definition digit_uint (k : Z) (u : Decimal.uint) : Decimal.uint :=
  match k with
  | 0 => Decimal.D0 u | 1 => Decimal.D1 u | 2 => Decimal.D2 u | 3 => Decimal.D3 u
  | 4 => Decimal.D4 u | 5 => Decimal.D5 u | 6 => Decimal.D6 u | 7 => Decimal.D7 u
  | 8 => Decimal.D8 u | _ => Decimal.D9 u
  end.

Definition digit_char (k : Z) : ascii :=
  match k with
  | 0 => "0" | 1 => "1" | 2 => "2" | 3 => "3" | 4 => "4"
  | 5 => "5" | 6 => "6" | 7 => "7" | 8 => "8" | _ => "9"
  end%char.

(** ** The calendar within a cycle of 400 years *)

(** The end of [ord2ymd]: the month and the day for the day [n] of the
    year, counted from 0. *)
Definition month_and_day (leapyear : bool) (n : Z) : Z * Z :=
  let month := Z.shiftr (n + 50) 5 in
  let preceding :=
    nth (Z.to_nat (month - 1)) DAYS_BEFORE_MONTH 0
    + (if (2 <? month) && leapyear then 1 else 0) in
  if n <? preceding then
    let month := month - 1 in
    let preceding :=
      preceding - (nth (Z.to_nat (month - 1)) DAYS_IN_MONTH 0
                   + (if (month =? 2) && leapyear then 1 else 0)) in
    (month, n - preceding + 1)
  else (month, n - preceding + 1).

(** The month and the day found for the day [n] of the year are a date of
    the year, the day [n + 1] of it. *)
Definition month_day_ok (leapyear : bool) (n : Z) : bool :=
  let '(m, dd) := month_and_day leapyear n in
  (1 <=? m) && (m <=? 12) && (1 <=? dd)
  && (dd <=? (if (m =? 2) && leapyear then 29
              else nth (Z.to_nat (m - 1)) DAYS_IN_MONTH 0))
  && (nth (Z.to_nat (m - 1)) DAYS_BEFORE_MONTH 0
      + (if (2 <? m) && leapyear then 1 else 0) + dd =? n + 1).

(** The leap years of a cycle, by the position of the year in it: [a]
    centuries, [b] groups of four years and [c] years. *)
Definition leap_flag (a b c : Z) : bool := (c =? 3) && (negb (b =? 24) || (a =? 3)).

Definition leap_flag_ok (a b c : Z) : bool :=
  Bool.eqb (is_leap (a * 100 + b * 4 + c + 1)) (leap_flag a b c).

(** * Properties *)

Arguments get_user : simpl never.
Arguments get_session_logs_for_user : simpl never.
Arguments strptime : simpl never.
Arguments parse_time : simpl never.
Arguments str_of_date : simpl never.
Arguments str_of_Z : simpl never.
Arguments strftime_YmdHMS : simpl never.
Arguments _format_duration : simpl never.
Arguments _format_time_remaining : simpl never.
Arguments daily_color : simpl never.
Arguments to_remove : simpl never.
Arguments add_session_seconds : simpl never.
Arguments add_session_log_to_user : simpl never.
Arguments String.append : simpl never.
Arguments in_range_of : simpl never.
Arguments FMT_HM : simpl never.
Arguments FMT_Ymd : simpl never.
Arguments FMT_YmdHM : simpl never.
Arguments FMT_YmdHMS : simpl never.
Ltac unfold_set :=
  unfold set_db, set_kid_timer_running, set_kid_timer_start_time,
    set_kid_session_log, set_kid_timer_label, set_daily_remaining_label,
    set_daily_limit_notifications, set_block_limit_notifications,
    set_kid_rest_periods, set_lunch_confirmed_today, set_ticks, set_asked,
    set_trace in *.
Ltac frame_refl := unfold_set; cbn; reflexivity.
Ltac unfold_m := unfold bind, gets, modify, emit, ret, now, askyesno in *.

Lemma add_current_session_frame user_id total w :
  ∃ n, snd (add_current_session user_id total w) = set_ticks n w.
Proof.
  destruct w. unfold add_current_session. unfold_m. cbn.
  repeat (case_match; cbn); eexists; frame_refl.
Qed.

Lemma calc_daily_usage_frame user_id w :
  ∃ n, snd (_calculate_daily_usage user_id w) = set_ticks n w.
Proof.
  unfold _calculate_daily_usage. unfold_m. cbn.
  destruct (db w) eqn:E; cbn.
  - match goal with |- context [add_current_session ?u ?t ?w'] =>
      destruct (add_current_session_frame u t w') as [n ->] end.
    destruct w; cbn. eexists; frame_refl.
  - destruct w; eexists; frame_refl.
Qed.

Lemma calc_daily_remaining_frame user_id w :
  ∃ n, snd (_calculate_daily_remaining user_id w) = set_ticks n w.
Proof.
  unfold _calculate_daily_remaining. unfold_m. cbn.
  destruct (db w) eqn:E; cbn; [|destruct w; eexists; frame_refl].
  destruct (get_user (Some g) user_id); cbn; [|destruct w; eexists; frame_refl].
  destruct (max_daily_minutes _); cbn; [|destruct w; eexists; frame_refl].
  apply calc_daily_usage_frame.
Qed.

Lemma update_display_frame w :
  ∃ n l, snd (_update_daily_time_display w) = set_daily_remaining_label l (set_ticks n w).
Proof.
  unfold _update_daily_time_display. unfold_m. cbn.
  destruct (current_kid_user w) as [u|]; cbn; [|destruct w; do 2 eexists; frame_refl].
  destruct (uid u) as [i|]; cbn; [|destruct w; do 2 eexists; frame_refl].
  destruct (String.eqb i ""); cbn; [destruct w; do 2 eexists; frame_refl|].
  destruct (calc_daily_remaining_frame i w) as [n ->].
  destruct w; cbn. case_match; cbn; do 2 eexists; frame_refl.
Qed.

Lemma check_daily_limit_frame user_id name w :
  ∃ n tr f, snd (_check_daily_limit user_id name w)
            = set_daily_limit_notifications f (set_trace tr (set_ticks n w)).
Proof.
  unfold _check_daily_limit, _cleanup_old_notifications. unfold_m. cbn.
  destruct (db w) eqn:E; cbn; [|destruct w; do 3 eexists; frame_refl].
  destruct (get_user (Some g) user_id); cbn; [|destruct w; do 3 eexists; frame_refl].
  destruct (max_daily_minutes _); cbn; [|destruct w; do 3 eexists; frame_refl].
  destruct (calc_daily_usage_frame user_id w) as [n ->].
  destruct (bool_decide _); cbn; [destruct w; do 3 eexists; frame_refl|].
  destruct (_ <=? _); cbn; destruct w; do 3 eexists; frame_refl.
Qed.

Lemma lunch_gate_frame w :
  ∃ n a tr lc, snd (_is_lunch_routine_required w)
     = set_lunch_confirmed_today lc (set_trace tr (set_asked a (set_ticks n w))).
Proof.
  destruct w. unfold _is_lunch_routine_required. unfold_m. cbn.
  repeat (case_match; cbn); do 4 eexists; frame_refl.
Qed.

Lemma update_kid_timer_frame w :
  ∃ n l tl, snd (_update_kid_timer w)
     = set_kid_timer_label tl (set_daily_remaining_label l (set_ticks n w)).
Proof.
  unfold _update_kid_timer. unfold_m. cbn.
  destruct (kid_timer_running w); cbn; [|destruct w; do 3 eexists; frame_refl].
  destruct (kid_timer_start_time w); cbn; [|destruct w; do 3 eexists; frame_refl].
  match goal with |- context [_update_daily_time_display ?w'] =>
     destruct (update_display_frame w') as (n & l & ->) end.
  destruct w; cbn; do 3 eexists; frame_refl.
Qed.


Lemma lunch_gate_keeps w :
  current_kid_user (snd (_is_lunch_routine_required w)) = current_kid_user w
  ∧ kid_timer_running (snd (_is_lunch_routine_required w)) = kid_timer_running w
  ∧ clock (snd (_is_lunch_routine_required w)) = clock w.
Proof.
  destruct (lunch_gate_frame w) as (n & a & tr & lc & ->). destruct w; cbn; auto.
Qed.

Lemma update_kid_timer_keeps w :
  kid_timer_running (snd (_update_kid_timer w)) = kid_timer_running w.
Proof.
  destruct (update_kid_timer_frame w) as (n & l & tl & ->). destruct w; reflexivity.
Qed.

Lemma in_range_of_None a b t :
  parse_time a = None ∨ parse_time b = None → in_range_of a b t = None.
Proof.
  unfold in_range_of. intros [-> | ->]; [reflexivity|]. destruct (parse_time a); reflexivity.
Qed.

Lemma lunch_gate_unparsable w user :
  current_kid_user w = Some user →
  parse_time (default "12:00" (lunch_start_time user)) = None
  ∨ parse_time (default "13:00" (lunch_end_time user)) = None →
  fst (_is_lunch_routine_required w) = false
  ∧ ∃ n, snd (_is_lunch_routine_required w) = set_ticks n w.
Proof.
  intros Hu Hp. destruct w. cbn in Hu. subst.
  unfold _is_lunch_routine_required. unfold_m. cbn.
  destruct (default false (enforce_lunch_routine user)); cbn.
  - destruct Hp as [-> | ->]; cbn.
    + split; [reflexivity | eexists; frame_refl].
    + destruct (parse_time (default "12:00" (lunch_start_time user))); cbn;
        (split; [reflexivity | eexists; frame_refl]).
  - split; [reflexivity | eexists; frame_refl].
Qed.

(** C7.  Unparsable allowed hours block the start: the timer stays stopped,
    and when the lunch gate has let the attempt through the only effect is
    the warning about the configuration.  Unparsable lunch hours switch the
    lunch gate off: it answers "not required" without asking anything or
    recording a confirmation, and the start then depends on the allowed
    hours alone. *)
Theorem unparsable_times_fail_asymmetrically w user :
  kid_timer_running w = false →
  current_kid_user w = Some user →
  (parse_time (default "15:00" (allowed_start_time user)) = None
   ∨ parse_time (default "18:00" (allowed_end_time user)) = None →
   kid_timer_running (snd (start_stop_timer w)) = false
   ∧ ∀ w1, _is_lunch_routine_required w = (false, w1) →
       snd (start_stop_timer w)
       = set_trace (trace w1 ++ [invalid_hours_warning]) (set_ticks (S (ticks w1)) w1))
  ∧ (parse_time (default "12:00" (lunch_start_time user)) = None
     ∨ parse_time (default "13:00" (lunch_end_time user)) = None →
     fst (_is_lunch_routine_required w) = false
     ∧ trace (snd (_is_lunch_routine_required w)) = trace w
     ∧ asked (snd (_is_lunch_routine_required w)) = asked w
     ∧ lunch_confirmed_today (snd (_is_lunch_routine_required w)) = lunch_confirmed_today w
     ∧ (in_range_of (default "15:00" (allowed_start_time user))
                    (default "18:00" (allowed_end_time user))
                    (time_of (clock w (ticks (snd (_is_lunch_routine_required w)))))
        = Some true →
        kid_timer_running (snd (start_stop_timer w)) = true)).
Proof.
  intros Hrun Huser.
  destruct (lunch_gate_keeps w) as (Kuser & Krun & Kclock).
  split.
  - intros Hbad.
    assert (Hgen : ∀ w1, _is_lunch_routine_required w = (false, w1) →
       snd (start_stop_timer w)
       = set_trace (trace w1 ++ [invalid_hours_warning]) (set_ticks (S (ticks w1)) w1)).
    { intros w1 Hg. rewrite Hg in Kuser. cbn in Kuser.
      unfold start_stop_timer. unfold_m. cbn. rewrite Hrun. cbn. rewrite Hg. cbn.
      rewrite Kuser, Huser. cbn. rewrite (in_range_of_None _ _ _ Hbad). cbn.
      destruct w1; reflexivity. }
    split; [|exact Hgen].
    destruct (_is_lunch_routine_required w) as [r w1] eqn:Hg. cbn in Krun. destruct r.
    + unfold start_stop_timer. unfold_m. cbn. rewrite Hrun. cbn. rewrite Hg. cbn.
      congruence.
    + rewrite (Hgen w1 eq_refl). destruct w1; cbn in *. congruence.
  - intros Hbad.
    destruct (lunch_gate_unparsable w user Huser Hbad) as [Hfst [n Hsnd]].
    rewrite Hsnd in *.
    split; [exact Hfst|].
    split; [destruct w; reflexivity|].
    split; [destruct w; reflexivity|].
    split; [destruct w; reflexivity|].
    intros Hin.
    unfold start_stop_timer. unfold_m. cbn. rewrite Hrun. cbn.
    rewrite Hfst, Hsnd. cbn. rewrite Kuser, Huser. cbn.
    rewrite Kclock, Hin. cbn.
    rewrite update_kid_timer_keeps. destruct w; reflexivity.
Qed.

(** C6.  When the lunch gate lets the attempt through and the allowed
    hours parse to [s] and [e], the start happens exactly when the time of
    day read by the allowed-hours block lies in the range: [s <= now <= e]
    when [s <= e], and [s <= now] or [now <= e] for an overnight range; both
    ends belong to the range.  With 22:00 to 06:00, 23:30 and 06:00 are in
    range and 12:00 is not. *)
Theorem allowed_hours_gate_inclusive w w1 user s e :
  kid_timer_running w = false →
  current_kid_user w = Some user →
  _is_lunch_routine_required w = (false, w1) →
  parse_time (default "15:00" (allowed_start_time user)) = Some s →
  parse_time (default "18:00" (allowed_end_time user)) = Some e →
  let now_time := time_of (clock w1 (ticks w1)) in
  (kid_timer_running (snd (start_stop_timer w)) = true ↔
     if s <=? e then s <= now_time <= e else s <= now_time ∨ now_time <= e)
  ∧ in_range_of "22:00" "06:00" (hm 23 30) = Some true
  ∧ in_range_of "22:00" "06:00" (hm 12 0) = Some false
  ∧ in_range_of "22:00" "06:00" (hm 6 0) = Some true.
Proof.
  intros Hrun Huser Hgate Hs He now_time.
  split; [|repeat split; vm_compute; reflexivity].
  destruct (lunch_gate_keeps w) as (Kuser & Krun & _).
  rewrite Hgate in Kuser, Krun. cbn in Kuser, Krun.
  unfold start_stop_timer. unfold_m. cbn. rewrite Hrun. cbn.
  rewrite Hgate. cbn. rewrite Kuser, Huser. cbn.
  unfold in_range_of. rewrite Hs, He. fold now_time.
  destruct (s <=? e) eqn:Hse; cbn.
  - destruct ((s <=? now_time) && (now_time <=? e)) eqn:Hin; cbn.
    + rewrite update_kid_timer_keeps. destruct w1; cbn. split; [lia|reflexivity].
    + destruct w1; cbn in *. rewrite Krun, Hrun. split; [discriminate|lia].
  - destruct ((s <=? now_time) || (now_time <=? e)) eqn:Hin; cbn.
    + rewrite update_kid_timer_keeps. destruct w1; cbn. split; [lia|reflexivity].
    + destruct w1; cbn in *. rewrite Krun, Hrun. split; [discriminate|lia].
Qed.

Lemma allowed_hours_gate_inclusive_witness :
  kid_timer_running (snd (start_stop_timer (night_app "2024-03-01 23:30:00"))) = true
  ∧ kid_timer_running (snd (start_stop_timer (night_app "2024-03-01 06:00:00"))) = true
  ∧ kid_timer_running (snd (start_stop_timer (night_app "2024-03-01 12:00:00"))) = false.
Proof.
  split; [|split].
  - apply (proj1 (allowed_hours_gate_inclusive
                    (night_app "2024-03-01 23:30:00") (night_app "2024-03-01 23:30:00")
                    night_owl (hm 22 0) (hm 6 0)
                    eq_refl eq_refl eq_refl eq_refl eq_refl)).
    vm_compute. left. discriminate.
  - apply (proj1 (allowed_hours_gate_inclusive
                    (night_app "2024-03-01 06:00:00") (night_app "2024-03-01 06:00:00")
                    night_owl (hm 22 0) (hm 6 0)
                    eq_refl eq_refl eq_refl eq_refl eq_refl)).
    vm_compute. right. discriminate.
  - destruct (kid_timer_running (snd (start_stop_timer (night_app "2024-03-01 12:00:00"))))
      eqn:E; [|reflexivity].
    apply (proj1 (allowed_hours_gate_inclusive
                    (night_app "2024-03-01 12:00:00") (night_app "2024-03-01 12:00:00")
                    night_owl (hm 22 0) (hm 6 0)
                    eq_refl eq_refl eq_refl eq_refl eq_refl)) in E.
    vm_compute in E. destruct E as [E | E]; exfalso; apply E; reflexivity.
Defined.

Lemma unparsable_times_fail_asymmetrically_witness :
  kid_timer_running (snd (start_stop_timer bad_hours_app)) = false
  ∧ fst (_is_lunch_routine_required bad_lunch_app) = false
  ∧ kid_timer_running (snd (start_stop_timer bad_lunch_app)) = true.
Proof.
  split.
  - apply (proj1 (unparsable_times_fail_asymmetrically bad_hours_app bad_hours_kid
                    eq_refl eq_refl)).
    left. reflexivity.
  - destruct (proj2 (unparsable_times_fail_asymmetrically bad_lunch_app bad_lunch_kid
                       eq_refl eq_refl) (or_introl eq_refl))
      as (H1 & _ & _ & _ & H5).
    split; [exact H1 | apply H5; vm_compute; reflexivity].
Defined.

Lemma lunch_window_open_parse user t :
  lunch_window_open user t = true →
  ∃ ls le,
    parse_time (default "12:00" (lunch_start_time user)) = Some ls
    ∧ parse_time (default "13:00" (lunch_end_time user)) = Some le
    ∧ (ls <=? time_of t) && (time_of t <=? le) = true.
Proof.
  unfold lunch_window_open.
  destruct (parse_time (default "12:00" (lunch_start_time user))) as [ls|]; [|discriminate].
  destruct (parse_time (default "13:00" (lunch_end_time user))) as [le|]; [|discriminate].
  intros H. exists ls, le. auto.
Qed.

(** The gate when lunch is already confirmed for today: only the teeth
    question is asked. *)
Lemma lunch_gate_confirmed w user :
  current_kid_user w = Some user →
  enforce_lunch_routine user = Some true →
  lunch_window_open user (clock w (ticks w)) = true →
  lunch_confirmed_today w !! uid user = Some (date_of (clock w (S (ticks w)))) →
  let teeth := answers w (asked w) in
  fst (_is_lunch_routine_required w) = negb teeth
  ∧ trace (snd (_is_lunch_routine_required w))
    = trace w ++ [teeth_question teeth] ++ (if teeth then [] else [teeth_reminder])
  ∧ lunch_confirmed_today (snd (_is_lunch_routine_required w)) = lunch_confirmed_today w.
Proof.
  intros Hu He Hw Hc teeth.
  destruct (lunch_window_open_parse _ _ Hw) as (ls & le & Hls & Hle & Hin).
  destruct w. cbn in *. subst.
  unfold _is_lunch_routine_required. unfold_m. cbn.
  rewrite He. cbn. rewrite Hls, Hle. cbn. rewrite Hin. cbn.
  rewrite bool_decide_true by exact Hc. cbn.
  subst teeth. destruct (answers0 asked0); cbn; rewrite <- ?app_assoc; auto.
Qed.

(** C8.  A start attempt inside the lunch window, with the routine enforced
    and lunch not yet confirmed today.  Answering "no" to the lunch question
    lets the attempt through after that one question and records nothing.
    Answering "yes" records the confirmation for today and asks the teeth
    question at once: "no" blocks the start, "yes" lets it through.  With
    the confirmation recorded, any later attempt of the same day inside the
    window asks the teeth question only.  A blocked attempt leaves the timer
    stopped; an attempt let through starts the timer when the time of day is
    within the allowed hours. *)
Theorem lunch_then_teeth w user :
  kid_timer_running w = false →
  current_kid_user w = Some user →
  enforce_lunch_routine user = Some true →
  lunch_window_open user (clock w (ticks w)) = true →
  let today := date_of (clock w (S (ticks w))) in
  lunch_confirmed_today w !! uid user ≠ Some today →
  let lunch := answers w (asked w) in
  let teeth := answers w (S (asked w)) in
  let r := _is_lunch_routine_required w in
  (lunch = false →
     fst r = false
     ∧ trace (snd r) = trace w ++ [lunch_question false]
     ∧ lunch_confirmed_today (snd r) = lunch_confirmed_today w)
  ∧ (lunch = true →
     fst r = negb teeth
     ∧ lunch_confirmed_today (snd r) = <[uid user := today]> (lunch_confirmed_today w)
     ∧ trace (snd r)
       = trace w ++ [lunch_question true; teeth_question_after_lunch teeth]
                 ++ (if teeth then [] else [teeth_reminder])
     ∧ ∀ w2,
         current_kid_user w2 = Some user →
         lunch_window_open user (clock w2 (ticks w2)) = true →
         date_of (clock w2 (S (ticks w2))) = today →
         lunch_confirmed_today w2 = lunch_confirmed_today (snd r) →
         let teeth2 := answers w2 (asked w2) in
         fst (_is_lunch_routine_required w2) = negb teeth2
         ∧ trace (snd (_is_lunch_routine_required w2))
           = trace w2 ++ [teeth_question teeth2]
                      ++ (if teeth2 then [] else [teeth_reminder]))
  ∧ (fst r = true →
     snd (start_stop_timer w) = snd r ∧ kid_timer_running (snd r) = false)
  ∧ (fst r = false →
     in_range_of (default "15:00" (allowed_start_time user))
                 (default "18:00" (allowed_end_time user))
                 (time_of (clock w (ticks (snd r)))) = Some true →
     kid_timer_running (snd (start_stop_timer w)) = true).
Proof.
  intros Hrun Hu He Hw today Hc lunch teeth r.
  destruct (lunch_window_open_parse _ _ Hw) as (ls & le & Hls & Hle & Hin).
  assert (Hr : r = _is_lunch_routine_required w) by reflexivity.
  split; [|split; [|split]].
  - intros Hl. subst r lunch. destruct w. cbn in *. subst.
    unfold _is_lunch_routine_required. unfold_m. cbn.
    rewrite He. cbn. rewrite Hls, Hle. cbn. rewrite Hin. cbn.
    rewrite bool_decide_false by exact Hc. cbn. rewrite Hl. cbn. auto.
  - intros Hl.
    assert (H3 : fst r = negb teeth
       ∧ lunch_confirmed_today (snd r) = <[uid user := today]> (lunch_confirmed_today w)
       ∧ trace (snd r)
         = trace w ++ [lunch_question true; teeth_question_after_lunch teeth]
                   ++ (if teeth then [] else [teeth_reminder])).
    { subst r lunch teeth today. destruct w. cbn in *. subst.
      unfold _is_lunch_routine_required. unfold_m. cbn.
      rewrite He. cbn. rewrite Hls, Hle. cbn. rewrite Hin. cbn.
      rewrite bool_decide_false by exact Hc. cbn. rewrite Hl. cbn.
      destruct (answers0 (S asked0)); cbn; rewrite <- ?app_assoc; auto. }
    destruct H3 as (H1 & H2 & H3).
    split; [exact H1|]. split; [exact H2|]. split; [exact H3|].
    intros w2 Hu2 Hw2 Hday Hsame teeth2.
    destruct (lunch_gate_confirmed w2 user) as (G1 & G2 & _); try assumption.
    { rewrite Hsame, H2, Hday. apply lookup_insert_eq. }
    split; [exact G1 | exact G2].
  - intros Hb. subst r.
    destruct (lunch_gate_keeps w) as (_ & Krun & _).
    split.
    + unfold start_stop_timer. unfold_m. cbn. rewrite Hrun. cbn. rewrite Hb. reflexivity.
    + congruence.
  - intros Hb Hin'. subst r.
    destruct (lunch_gate_keeps w) as (Kuser & _ & Kclock).
    unfold start_stop_timer. unfold_m. cbn. rewrite Hrun. cbn. rewrite Hb. cbn.
    rewrite Kuser, Hu. cbn. rewrite Kclock, Hin'. cbn.
    rewrite update_kid_timer_keeps.
    destruct (snd (_is_lunch_routine_required w)); reflexivity.
Qed.

Lemma lunch_then_teeth_witness :
  let r := _is_lunch_routine_required lunch_app in
  fst r = true
  ∧ trace (snd r)
    = [lunch_question true; teeth_question_after_lunch false; teeth_reminder]
  ∧ lunch_confirmed_today (snd r) !! Some "kid1"
    = Some (date_of (at_time "2024-03-01 12:30:00"))
  ∧ fst (_is_lunch_routine_required (snd r)) = false
  ∧ trace (snd (_is_lunch_routine_required (snd r)))
    = [lunch_question true; teeth_question_after_lunch false; teeth_reminder;
       teeth_question true].
Proof.
  intros r.
  pose proof (lunch_then_teeth lunch_app lunch_kid eq_refl eq_refl eq_refl eq_refl) as H.
  cbv zeta in H.
  assert (Hfresh : lunch_confirmed_today lunch_app !! uid lunch_kid
                   ≠ Some (date_of (clock lunch_app (S (ticks lunch_app)))))
    by (vm_compute; discriminate).
  destruct (H Hfresh) as (_ & Hyes & _).
  destruct (Hyes eq_refl) as (H1 & H2 & H3 & Hlater).
  destruct (Hlater (snd r)) as [G1 G2]; try (vm_compute; reflexivity).
  split; [exact H1|].
  split; [exact H3|].
  split; [unfold r; rewrite H2; apply lookup_insert_eq|].
  split; [exact G1|].
  rewrite G2. unfold r. rewrite H3. reflexivity.
Defined.

Lemma find_overlap start_dt stop_dt other (l : list session) :
  other ∈ l → overlaps start_dt stop_dt other = true →
  ∃ o, List.find (overlaps start_dt stop_dt) l = Some o.
Proof.
  intros Hin Ho. induction l as [|x l IH]; [inversion Hin|].
  cbn. destruct (overlaps start_dt stop_dt x) eqn:E; [eauto|].
  apply IH. inversion Hin; subst; [congruence | assumption].
Qed.

Lemma overlaps_true start_dt stop_dt other os oe :
  strptime (default "" (start other)) FMT_YmdHMS = Some os →
  strptime (default "" (stop other)) FMT_YmdHMS = Some oe →
  start_dt < oe → os < stop_dt →
  overlaps start_dt stop_dt other = true.
Proof.
  intros Hs He H1 H2. unfold overlaps. rewrite Hs, He.
  apply andb_true_intro. split; apply Z.ltb_lt; assumption.
Qed.

Lemma others_elem (l : list session) idx j other :
  l !! j = Some other → j ≠ idx → other ∈ others idx l.
Proof.
  intros Hl Hne. unfold others.
  apply list_elem_of_In, in_map_iff. exists (j, other). split; [reflexivity|].
  apply filter_In. split.
  - apply list_elem_of_In, elem_of_lookup_imap. eauto.
  - cbn. apply negb_true_iff, Nat.eqb_neq. exact Hne.
Qed.

(** C9.  A manual entry, or an edit of the entry at [idx], whose bounds
    overlap a stored interval of the same user ([start_dt < other.stop] and
    [stop_dt > other.start], the stored interval being another entry in the
    case of an edit) is refused: the only effect is an error dialog, and so
    the stored sessions are what they were. *)
Theorem overlapping_write_rejected w d user_id other os oe start_dt stop_dt :
  db w = Some d →
  strptime (default "" (start other)) FMT_YmdHMS = Some os →
  strptime (default "" (stop other)) FMT_YmdHMS = Some oe →
  start_dt < oe → os < stop_dt →
  (∀ date start_s stop_s duration_str,
     entry_of_form date start_s stop_s = Some (start_dt, stop_dt, duration_str) →
     other ∈ get_session_logs_for_user (db w) user_id →
     ∃ title message,
       snd (ManualEntryDialog_save user_id date start_s stop_s w)
       = set_trace (trace w ++ [ShowError title message]) w)
  ∧ (∀ iid idx_s rest idx j new_start new_stop new_duration,
     split_on ":" iid = user_id :: idx_s :: rest →
     py_int idx_s = Some (Z.of_nat idx) →
     strptime new_start FMT_YmdHMS = Some start_dt →
     strptime new_stop FMT_YmdHMS = Some stop_dt →
     get_session_logs_for_user (db w) user_id !! j = Some other →
     j ≠ idx →
     (idx < length (get_session_logs_for_user (db w) user_id))%nat →
     ∃ title message,
       snd (edit_selected_log (Some iid) (Some new_start) (Some new_stop)
              (Some new_duration) w)
       = set_trace (trace w ++ [ShowError title message]) w).
Proof.
  intros Hdb Hs He H1 H2.
  pose proof (overlaps_true _ _ _ _ _ Hs He H1 H2) as Ho.
  split.
  - intros date start_s stop_s duration_str Hentry Hin.
    unfold ManualEntryDialog_save. rewrite Hentry. unfold_m.
    destruct (stop_dt <? start_dt); cbn; [eauto|].
    destruct (find_overlap _ _ _ _ Hin Ho) as [o Hf]. rewrite Hf. cbn. eauto.
  - intros iid idx_s rest idx j new_start new_stop new_duration
      Hsplit Hint Hns Hne Hj Hji Hlen.
    unfold edit_selected_log. unfold_m. cbn. rewrite Hdb. cbn.
    rewrite Hsplit, Hint. cbn.
    rewrite Hdb in Hj, Hlen. unfold get_session_logs_for_user in Hj, Hlen.
    set (ss := match d !! user_id with
               | Some user_data => default [] (sessions user_data)
               | None => []
               end) in *.
    replace ((0 <=? Z.of_nat idx) && (Z.of_nat idx <? Z.of_nat (length ss))) with true
      by (symmetry; apply andb_true_intro; split; [apply Z.leb_le | apply Z.ltb_lt]; lia).
    cbn. rewrite Hns, Hne. cbn.
    destruct (stop_dt <? start_dt); cbn; [eauto|].
    rewrite Nat2Z.id.
    destruct (find_overlap _ _ _ _ (others_elem ss idx j other Hj Hji) Ho) as [o Hf].
    rewrite Hf. cbn. eauto.
Qed.

Lemma overlapping_write_rejected_witness :
  db (snd (ManualEntryDialog_save "kid1" "2024-03-01" "09:30" "10:01"
             (ana_app two_sessions "2024-03-01 16:00:00")))
  = db (ana_app two_sessions "2024-03-01 16:00:00")
  ∧ db (snd (edit_selected_log (Some "kid1:1") (Some "2024-03-01 09:30:00")
               (Some "2024-03-01 10:01:00") (Some "00:31:00")
               (ana_app two_sessions "2024-03-01 16:00:00")))
    = db (ana_app two_sessions "2024-03-01 16:00:00").
Proof.
  pose proof (overlapping_write_rejected
                (ana_app two_sessions "2024-03-01 16:00:00")
                {["kid1" := ana two_sessions]} "kid1"
                (Session (Some "2024-03-01 10:00:00") (Some "2024-03-01 10:01:30")
                         (Some "00:01:30"))
                (at_time "2024-03-01 10:00:00") (at_time "2024-03-01 10:01:30")
                (at_time "2024-03-01 09:30:00") (at_time "2024-03-01 10:01:00")
                eq_refl eq_refl eq_refl) as H.
  destruct H as [Hsave Hedit]; [vm_compute; reflexivity | vm_compute; reflexivity |].
  split.
  - destruct (Hsave "2024-03-01" "09:30" "10:01" "00:31:00") as (t & m & ->).
    + vm_compute. reflexivity.
    + apply list_elem_of_In. left. reflexivity.
    + reflexivity.
  - destruct (Hedit "kid1:1" "1" [] 1%nat 0%nat "2024-03-01 09:30:00"
                "2024-03-01 10:01:00" "00:31:00") as (t & m & ->);
      try reflexivity.
    + discriminate.
    + vm_compute. lia.
Defined.

Lemma calc_daily_remaining_limited w user_id u limit :
  get_user (db w) user_id = Some u →
  max_daily_minutes u = Some limit →
  fst (_calculate_daily_remaining user_id w)
  = Z.max 0 (limit * 60 - fst (_calculate_daily_usage user_id w)).
Proof.
  intros Hu Hl. unfold _calculate_daily_remaining. unfold_m. cbn.
  destruct (db w) eqn:E; [|discriminate]. cbn.
  rewrite Hu. cbn. rewrite Hl. reflexivity.
Qed.

Lemma calc_daily_remaining_nonneg w user_id :
  0 <= fst (_calculate_daily_remaining user_id w).
Proof.
  unfold _calculate_daily_remaining. unfold_m. cbn.
  destruct (db w) eqn:E; cbn; [|lia].
  destruct (get_user (Some g) user_id) as [u|]; cbn; [|lia].
  destruct (max_daily_minutes u); cbn; lia.
Qed.

(** C10.  For a user without [max_daily_minutes] the remaining daily time
    is 0, the value that a user whose budget is used up gets, so that both
    are shown the same text; and the remaining time is never negative. *)
Theorem unlimited_reads_as_exhausted w user_id u w' user_id' u' limit :
  get_user (db w) user_id = Some u →
  max_daily_minutes u = None →
  get_user (db w') user_id' = Some u' →
  max_daily_minutes u' = Some limit →
  limit * 60 <= fst (_calculate_daily_usage user_id' w') →
  fst (_calculate_daily_remaining user_id w) = 0
  ∧ fst (_calculate_daily_remaining user_id' w') = 0
  ∧ _format_time_remaining (fst (_calculate_daily_remaining user_id w))
    = "No time left"
  ∧ _format_time_remaining (fst (_calculate_daily_remaining user_id' w'))
    = "No time left"
  ∧ ∀ w'' user_id'', 0 <= fst (_calculate_daily_remaining user_id'' w'').
Proof.
  intros Hu Hnone Hu' Hl Hused.
  assert (H0 : fst (_calculate_daily_remaining user_id w) = 0).
  { unfold _calculate_daily_remaining. unfold_m. cbn.
    destruct (db w) eqn:E; [|reflexivity]. cbn. rewrite Hu. cbn. rewrite Hnone.
    reflexivity. }
  assert (H0' : fst (_calculate_daily_remaining user_id' w') = 0).
  { rewrite (calc_daily_remaining_limited _ _ _ _ Hu' Hl). lia. }
  rewrite H0, H0'. repeat split; try reflexivity.
  intros. apply calc_daily_remaining_nonneg.
Qed.

Lemma unlimited_reads_as_exhausted_witness :
  fst (_calculate_daily_remaining "kid2" family_app) = 0
  ∧ fst (_calculate_daily_remaining "kid3" family_app) = 0.
Proof.
  destruct (unlimited_reads_as_exhausted family_app "kid2" unlimited_kid
              family_app "kid3" exhausted_kid 1 eq_refl eq_refl eq_refl eq_refl)
    as (H1 & H2 & _).
  - vm_compute. discriminate.
  - split; assumption.
Defined.

(** What the comparison in [_check_daily_limit] is: the notice is raised
    exactly when the usage in seconds reaches the number of minutes of the
    limit, the flag of today being absent. *)
Lemma check_daily_limit_threshold w user_id name u limit :
  get_user (db w) user_id = Some u →
  max_daily_minutes u = Some limit →
  let usage := fst (_calculate_daily_usage user_id w) in
  let w1 := snd (_calculate_daily_usage user_id w) in
  user_id +:+ "_" +:+ str_of_date (date_of (clock w1 (ticks w1)))
    ∉ daily_limit_notifications w →
  (trace (snd (_check_daily_limit user_id name w)) ≠ trace w ↔ limit <= usage).
Proof.
  intros Hu Hl usage w1 Hflag.
  destruct (calc_daily_usage_frame user_id w) as [n Hn].
  subst w1. rewrite Hn in Hflag.
  unfold _check_daily_limit, _cleanup_old_notifications. unfold_m. cbn.
  destruct (db w) eqn:E; [|discriminate]. cbn. rewrite Hu. cbn. rewrite Hl. cbn.
  rewrite Hn. fold usage. clearbody usage. clear Hn Hu.
  destruct w; cbn in *.
  rewrite bool_decide_false by exact Hflag.
  destruct (limit <=? usage) eqn:Hc; cbn.
  - split; [intros _; lia|]. intros _ Heq.
    apply (f_equal length) in Heq. rewrite !length_app in Heq. cbn in Heq. lia.
  - split; [|lia]. intros H. exfalso. apply H. reflexivity.
Qed.

(** C1.  With a daily limit of 60 minutes and 90 seconds played today, no
    flag being set, [_check_daily_limit] raises the notice of the daily
    limit although the usage is below [60 * 60] seconds: it compares the
    seconds used with the minutes of the limit. *)
Theorem daily_limit_fires_below_limit :
  let w := ana_app morning_sessions "2024-03-01 16:00:00" in
  max_daily_minutes (ana morning_sessions) = Some 60
  ∧ fst (_calculate_daily_usage "kid1" w) = 90
  ∧ 90 < 60 * 60
  ∧ daily_limit_notifications w = ∅
  ∧ trace (snd (_check_daily_limit "kid1" "Ana" w))
    = [daily_limit_notice "Ana" 60 90; DailyLimitEmail "Ana" 60 90].
Proof.
  cbv zeta. repeat split; vm_compute; reflexivity.
Qed.

(** Once the first reading of the clock is at or past the end of the rest
    period, the rest-ended check returns at its first test. *)
Lemma check_rest_period_end_after_expiry w user_id name rest :
  kid_rest_periods w !! user_id = Some rest →
  rest_end rest <= clock w (ticks w) →
  snd (_check_rest_period_end user_id name w) = set_ticks (S (ticks w)) w.
Proof.
  intros Hr Hexp. unfold _check_rest_period_end, _is_user_in_rest. unfold_m. cbn.
  rewrite Hr. cbn.
  replace (clock w (ticks w) <? rest_end rest) with false
    by (symmetry; apply Z.ltb_ge; exact Hexp).
  reflexivity.
Qed.

(** So no number of calls after the expiry deletes the rest period or
    raises the event. *)
Lemma check_rest_period_end_never_fires k w user_id name rest :
  kid_rest_periods w !! user_id = Some rest →
  (∀ n, (ticks w <= n)%nat → rest_end rest <= clock w n) →
  let w' := check_rest_period_end_times k user_id name w in
  kid_rest_periods w' = kid_rest_periods w ∧ trace w' = trace w.
Proof.
  revert w. induction k as [|k IH]; intros w Hr Hexp; cbn; [auto|].
  rewrite (check_rest_period_end_after_expiry w user_id name rest Hr (Hexp _ (le_n _))).
  destruct (IH (set_ticks (S (ticks w)) w)) as [H1 H2].
  - destruct w; exact Hr.
  - intros n Hn. destruct w; cbn in *. apply Hexp. lia.
  - rewrite H1, H2. destruct w; auto.
Qed.

(** C3.  A rest period of 60 minutes started at 16:00; at 17:01 the user is
    no longer resting, and yet calls of [_check_rest_period_end] keep the
    rest period and raise nothing. *)
Theorem rest_end_never_observed :
  let w := resting_app "2024-03-01 17:01:00" in
  fst (_is_user_in_rest "kid1" w) = false
  ∧ kid_rest_periods (snd (_check_rest_period_end "kid1" "Ana" w)) !! "kid1"
    = Some (RestData (at_time "2024-03-01 16:00:00") 60)
  ∧ trace (snd (_check_rest_period_end "kid1" "Ana" w)) = []
  ∧ trace (check_rest_period_end_times 5 "kid1" "Ana" w) = [].
Proof.
  cbv zeta. repeat split; vm_compute; reflexivity.
Qed.

Lemma is_user_in_rest_frame user_id w :
  ∃ n, snd (_is_user_in_rest user_id w) = set_ticks n w.
Proof.
  destruct w. unfold _is_user_in_rest. unfold_m. cbn.
  case_match; cbn; eexists; frame_refl.
Qed.

Lemma calc_block_usage_frame user_id w :
  ∃ n, snd (_calculate_block_usage user_id w) = set_ticks n w.
Proof.
  unfold _calculate_block_usage, _get_last_rest_end_time. unfold_m. cbn.
  destruct (db w) eqn:E; cbn; [|destruct w; eexists; frame_refl].
  destruct (get_user (Some g) user_id); cbn; [|destruct w; eexists; frame_refl].
  destruct (is_user_in_rest_frame user_id w) as [n ->].
  destruct (fst (_is_user_in_rest user_id w)); cbn; [eexists; reflexivity|].
  destruct (kid_rest_periods _ !! user_id); cbn;
    match goal with |- context [add_current_session ?u ?t ?w'] =>
      destruct (add_current_session_frame u t w') as [m ->] end;
    destruct w; eexists; frame_refl.
Qed.

(** The length of a rest period that [_check_block_limit] starts is the
    value of [rest_duration_minutes], or 60; [rest_minutes] is not read. *)
Lemma block_limit_rest_duration w user_id name u rest :
  get_user (db w) user_id = Some u →
  kid_rest_periods (snd (_check_block_limit user_id name w)) !! user_id = Some rest →
  kid_rest_periods w !! user_id = Some rest
  ∨ duration_minutes rest = default 60 (rest_duration_minutes u).
Proof.
  intros Hu. unfold _check_block_limit, _start_rest_period. unfold_m. cbn.
  destruct (db w) eqn:E; [|discriminate]. cbn. rewrite Hu. cbn.
  destruct (max_session_minutes u) as [block_limit|]; cbn; [|auto].
  destruct (default true (enforce_rest u)); cbn; [|auto].
  destruct (calc_block_usage_frame user_id w) as [n ->].
  destruct (bool_decide _); cbn; [destruct w; cbn; auto|].
  destruct (_ <=? _); cbn; [|destruct w; cbn; auto].
  destruct w; cbn. rewrite lookup_insert_eq. intros [= <-]. right. reflexivity.
Qed.

(** C4.  Ana is registered through the user form with a rest time of 30
    minutes, which the form stores as [rest_minutes]; when the block limit
    is reached, the rest period lasts 60 minutes, because
    [_check_block_limit] reads [rest_duration_minutes], a key that the form
    does not write. *)
Theorem rest_duration_ignores_rest_minutes :
  (rest_minutes <$> get_user (db played_app) "kid1") = Some (Some 30)
  ∧ (rest_duration_minutes <$> get_user (db played_app) "kid1") = Some None
  ∧ (max_session_minutes <$> get_user (db played_app) "kid1") = Some (Some 1)
  ∧ fst (_calculate_block_usage "kid1" played_app) = 120
  ∧ kid_rest_periods (snd (_check_block_limit "kid1" "Ana" played_app)) !! "kid1"
    = Some (RestData (at_time "2024-03-01 16:00:00") 60).
Proof.
  repeat split; vm_compute; reflexivity.
Qed.





(** C2 (counterexample).  Ana stops a running session: the interval is
    appended and the daily check raises its notice, but no rest period is
    started and no block flag is set, although the block usage is over the
    limit, so that a call of [_check_block_limit] on the state after the stop
    would start a rest period. *)
Lemma stop_skips_block_check :
  let w' := snd (start_stop_timer stopping_app) in
  kid_timer_running stopping_app = true
  ∧ kid_timer_running w' = false
  ∧ get_session_logs_for_user (db w') "kid1" = morning_sessions ++ [afternoon_session]
  ∧ trace w'
    = [StopSessionThread "Ana" "00:02:00" true;
       daily_limit_notice "Ana" 60 210; DailyLimitEmail "Ana" 60 210]
  ∧ kid_rest_periods w' = ∅
  ∧ block_limit_notifications w' = ∅
  ∧ kid_rest_periods (snd (_check_block_limit "kid1" "Ana" w')) !! "kid1"
    = Some (RestData (at_time "2024-03-01 16:00:00") 60).
Proof.
  cbv zeta. repeat split; vm_compute; reflexivity.
Qed.

(** C2 (amended).  The stop of a running session of a kid with a non-empty
    id hands the interval to the stored log and then runs the daily-limit
    check on the state so obtained: the events and the flags after the stop
    are those that the check leaves.  The timer is stopped, the interval is
    added to the local log, and the rest periods and the block flags are
    left as they were. *)
Theorem stop_triggers_daily_check w u user_id t0 :
  kid_timer_running w = true →
  kid_timer_start_time w = Some t0 →
  current_kid_user w = Some u →
  uid u = Some user_id →
  user_id ≠ "" →
  let w1 := after_append w u t0 in
  let w2 := snd (_check_daily_limit user_id (default "Kid" (username u)) w1) in
  let w' := snd (start_stop_timer w) in
  db w1 = fst (add_session_log_to_user (db w) (Some user_id) (stop_entry w t0))
  ∧ db w' = db w1
  ∧ trace w' = trace w2
  ∧ daily_limit_notifications w' = daily_limit_notifications w2
  ∧ kid_timer_running w' = false
  ∧ kid_timer_start_time w' = None
  ∧ kid_session_log w' = kid_session_log w ++ [stop_entry w t0]
  ∧ kid_rest_periods w' = kid_rest_periods w
  ∧ block_limit_notifications w' = block_limit_notifications w.
Proof.
  intros Hr Hs Hu Hid Hne w1 w2 w'.
  assert (Hw' : ∃ n l,
    w' = set_kid_timer_start_time None
           (set_kid_timer_label "00:00:00"
              (set_daily_remaining_label l
                 (set_ticks n
                    (set_kid_session_log (kid_session_log w2 ++ [stop_entry w t0]) w2))))).
  { subst w' w2 w1. unfold start_stop_timer, after_append, stop_entry. unfold_m.
    destruct w; cbn in *. subst. cbn. rewrite Hid.
    replace (String.eqb user_id "") with false
      by (symmetry; apply String.eqb_neq; exact Hne).
    cbn.
    match goal with |- context [_update_daily_time_display ?x] =>
      destruct (update_display_frame x) as (n & l & ->) end.
    exists n, l. reflexivity. }
  destruct Hw' as (n & l & Hw').
  destruct (check_daily_limit_frame user_id (default "Kid" (username u)) w1)
    as (m & tr & f & Hw2).
  fold w2 in Hw2.
  rewrite Hw'. rewrite Hw2. subst w1. unfold after_append, stop_entry. rewrite Hid.
  destruct w; cbn in *. subst. repeat split; reflexivity.
Qed.

Lemma stop_triggers_daily_check_witness :
  trace (snd (start_stop_timer stopping_app))
  = trace (snd (_check_daily_limit "kid1" "Ana"
                  (after_append stopping_app (ana morning_sessions)
                     (at_time "2024-03-01 15:58:00"))))
  ∧ kid_rest_periods (snd (start_stop_timer stopping_app))
    = kid_rest_periods stopping_app.
Proof.
  destruct (stop_triggers_daily_check stopping_app (ana morning_sessions) "kid1"
              (at_time "2024-03-01 15:58:00") eq_refl eq_refl eq_refl eq_refl)
    as (_ & _ & H3 & _ & _ & _ & _ & H8 & _).
  - discriminate.
  - split; [exact H3 | exact H8].
Defined.

(** * Further properties *)

(** ** Decimal text *)

Lemma uint_acc_spec u acc :
  uint_acc u acc
  = Z.of_N (DecimalPos.Unsigned.of_lu (Decimal.rev u))
    + acc * 10 ^ Z.of_N (DecimalPos.Unsigned.usize u).
Proof.
  revert acc. induction u; intros acc; cbn [uint_acc DecimalPos.Unsigned.usize];
    [cbn; lia | ..].
  all: unfold Decimal.rev; cbn [Decimal.revapp];
    rewrite (DecimalPos.Unsigned.of_lu_revapp u);
    cbn [DecimalPos.Unsigned.of_lu];
    rewrite IHu;
    rewrite N2Z.inj_add, N2Z.inj_mul, N2Z.inj_pow, N2Z.inj_succ,
      Z.pow_succ_r by apply N2Z.is_nonneg;
    change (Z.of_N 10) with 10;
    generalize (Z.of_N (DecimalPos.Unsigned.of_lu (Decimal.rev u)));
    generalize (10 ^ Z.of_N (DecimalPos.Unsigned.usize u));
    intros P q; rewrite N.mul_0_r, ?N.add_0_r; cbn [Z.of_N]; ring.
Qed.

Lemma uint_acc_to_uint p : uint_acc (Pos.to_uint p) 0 = Z.pos p.
Proof.
  rewrite uint_acc_spec, <- DecimalPos.Unsigned.of_uint_alt,
    DecimalPos.Unsigned.of_to. cbn. lia.
Qed.

Lemma int_digits_uint u seen acc :
  u ≠ Decimal.Nil →
  int_digits (NilEmpty.string_of_uint u) seen acc = Some (uint_acc u acc).
Proof.
  revert seen acc.
  induction u; intros seen acc Hne; [congruence | ..];
    cbn [NilEmpty.string_of_uint int_digits uint_acc];
    repeat match goal with
           | |- context [is_digit ?c] =>
               let v := eval vm_compute in (is_digit c) in change (is_digit c) with v
           | |- context [digit_val ?c] =>
               let v := eval vm_compute in (digit_val c) in change (digit_val c) with v
           end;
    cbv iota;
    (destruct u; [reflexivity | rewrite IHu by discriminate; reflexivity ..]).
Qed.

Lemma str_of_Z_pos p : str_of_Z (Z.pos p) = NilEmpty.string_of_uint (Pos.to_uint p).
Proof.
  unfold str_of_Z. cbn. unfold NilZero.string_of_uint.
  pose proof (DecimalPos.Unsigned.to_uint_nonnil p).
  destruct (Pos.to_uint p); congruence.
Qed.

Lemma string_of_uint_digits u :
  all_chars is_digit (NilEmpty.string_of_uint u) = true.
Proof. induction u; cbn; auto. Qed.

Lemma string_of_uint_head u :
  u ≠ Decimal.Nil →
  ∃ c s, NilEmpty.string_of_uint u = String c s ∧ is_digit c = true.
Proof. destruct u; [congruence | intros _; cbn; eauto ..]. Qed.

(** [int(str(n))] is [n]. *)
Lemma py_int_str_of_Z n : py_int (str_of_Z n) = Some n.
Proof.
  destruct n as [|p|p].
  - reflexivity.
  - rewrite str_of_Z_pos.
    pose proof (DecimalPos.Unsigned.to_uint_nonnil p) as Hne.
    destruct (string_of_uint_head _ Hne) as (c & s & Hs & Hc).
    unfold py_int. rewrite Hs. cbn [lstrip].
    assert (Hsp : is_space c = false).
    { revert Hc. clear. destruct c as [[] [] [] [] [] [] [] []]; vm_compute; congruence. }
    rewrite Hsp.
    assert (F : int_digits (String c s) false 0 = Some (Z.pos p)).
    { rewrite <- Hs, int_digits_uint by exact Hne. rewrite uint_acc_to_uint. reflexivity. }
    revert F Hc. clear.
    destruct c as [[] [] [] [] [] [] [] []]; intros F Hc;
      first [exact F | vm_compute in Hc; discriminate].
  - pose proof (DecimalPos.Unsigned.to_uint_nonnil p) as Hne.
    assert (Hx : NilZero.string_of_uint (Pos.to_uint p)
                 = NilEmpty.string_of_uint (Pos.to_uint p)).
    { unfold NilZero.string_of_uint. destruct (Pos.to_uint p); congruence. }
    unfold str_of_Z. cbn [Z.to_int NilZero.string_of_int]. rewrite Hx.
    unfold py_int. cbn [lstrip]. change (is_space "-") with false. cbv beta iota.
    rewrite int_digits_uint by exact Hne. rewrite uint_acc_to_uint. reflexivity.
Qed.

Lemma forallb_upto f lo hi :
  forallb f (upto lo hi) = true → ∀ n, lo <= n <= hi → f n = true.
Proof.
  intros H n Hn. rewrite forallb_forall in H. apply H.
  unfold upto. apply in_map_iff. exists (Z.to_nat (n - lo)).
  split; [lia | apply in_seq; lia].
Qed.

(** ** The first cycle of 400 years *)

Lemma days_before_year_parts a b c :
  0 <= a <= 3 → 0 <= b <= 24 → 0 <= c <= 3 →
  days_before_year (a * 100 + b * 4 + c + 1) = a * 36524 + b * 1461 + c * 365.
Proof.
  intros Ha Hb Hc. unfold days_before_year. cbv zeta.
  replace (a * 100 + b * 4 + c + 1 - 1) with (a * 100 + b * 4 + c) by lia.
  assert (E4 : (a * 100 + b * 4 + c) / 4 = a * 25 + b)
    by (symmetry; apply (Z.div_unique _ _ _ c); lia).
  assert (E100 : (a * 100 + b * 4 + c) / 100 = a)
    by (symmetry; apply (Z.div_unique _ _ _ (b * 4 + c)); lia).
  assert (E400 : (a * 100 + b * 4 + c) / 400 = 0)
    by (apply Z.div_small; lia).
  rewrite E4, E100, E400. lia.
Qed.

Lemma leap_flag_spec a b c :
  0 <= a <= 3 → 0 <= b <= 24 → 0 <= c <= 3 →
  is_leap (a * 100 + b * 4 + c + 1) = leap_flag a b c.
Proof.
  intros Ha Hb Hc.
  assert (H : forallb (fun a => forallb (fun b => forallb (leap_flag_ok a b)
                                            (upto 0 3)) (upto 0 24)) (upto 0 3) = true)
    by (vm_compute; reflexivity).
  pose proof (forallb_upto _ 0 3 H a Ha) as H1. cbv beta in H1.
  pose proof (forallb_upto _ 0 24 H1 b Hb) as H2. cbv beta in H2.
  pose proof (forallb_upto _ 0 3 H2 c Hc) as H3.
  unfold leap_flag_ok in H3. apply Bool.eqb_prop in H3. exact H3.
Qed.

Lemma month_day_ok_spec leapyear n :
  0 <= n <= 364 → month_day_ok leapyear n = true.
Proof.
  intros Hn.
  destruct leapyear.
  - apply (forallb_upto (month_day_ok true) 0 364); [vm_compute; reflexivity | exact Hn].
  - apply (forallb_upto (month_day_ok false) 0 364); [vm_compute; reflexivity | exact Hn].
Qed.

Lemma days_in_month_december y : days_in_month y 12 = 31.
Proof. reflexivity. Qed.

Lemma days_before_month_december y :
  days_before_month y 12 = 334 + (if is_leap y then 1 else 0).
Proof. reflexivity. Qed.

(** What [ord2ymd] computes for a day of the first cycle but the last. *)
Lemma ord2ymd_first_cycle d :
  1 <= d <= 146096 →
  ∃ a b c r,
    0 <= a <= 3 ∧ 0 <= b <= 24 ∧ 0 <= c <= 4 ∧ 0 <= r <= 364
    ∧ (c = 4 → r = 0 ∧ b <= 23)
    ∧ d - 1 = a * 36524 + b * 1461 + c * 365 + r
    ∧ ord2ymd d
      = if c =? 4 then (a * 100 + b * 4 + c, 12, 31)
        else (a * 100 + b * 4 + c + 1,
              fst (month_and_day (leap_flag a b c) r),
              snd (month_and_day (leap_flag a b c) r)).
Proof.
  intros Hd.
  exists ((d - 1) / 36524), ((d - 1) mod 36524 / 1461),
    ((d - 1) mod 36524 mod 1461 / 365), ((d - 1) mod 36524 mod 1461 mod 365).
  pose proof (Z.div_mod (d - 1) 36524 ltac:(lia)) as E1.
  pose proof (Z.mod_pos_bound (d - 1) 36524 ltac:(lia)) as B1.
  pose proof (Z.div_mod ((d - 1) mod 36524) 1461 ltac:(lia)) as E2.
  pose proof (Z.mod_pos_bound ((d - 1) mod 36524) 1461 ltac:(lia)) as B2.
  pose proof (Z.div_mod ((d - 1) mod 36524 mod 1461) 365 ltac:(lia)) as E3.
  pose proof (Z.mod_pos_bound ((d - 1) mod 36524 mod 1461) 365 ltac:(lia)) as B3.
  set (a := (d - 1) / 36524) in *. set (r1 := (d - 1) mod 36524) in *.
  set (b := r1 / 1461) in *. set (r2 := r1 mod 1461) in *.
  set (c := r2 / 365) in *. set (r := r2 mod 365) in *.
  assert (Ha : 0 <= a <= 3) by lia.
  assert (Hb : 0 <= b <= 24) by lia.
  assert (Hc : 0 <= c <= 4) by lia.
  repeat (split; [lia|]).
  unfold ord2ymd. cbv zeta.
  change DI400Y with 146097. change DI100Y with 36524. change DI4Y with 1461.
  rewrite (Z.div_small (d - 1) 146097) by lia.
  rewrite (Z.mod_small (d - 1) 146097) by lia.
  fold a. fold r1. fold b. fold r2. fold c. fold r.
  replace (a =? 4) with false by (symmetry; apply Z.eqb_neq; lia).
  rewrite orb_false_r.
  destruct (c =? 4) eqn:Ec.
  - apply Z.eqb_eq in Ec. f_equal. f_equal. lia.
  - replace ((c =? 3) && (negb (b =? 24) || (a =? 3))) with (leap_flag a b c)
      by reflexivity.
    unfold month_and_day. cbv zeta.
    replace (0 * 400 + 1 + a * 100 + b * 4 + c) with (a * 100 + b * 4 + c + 1) by lia.
    destruct (r <? _); reflexivity.
Qed.

(** Every day of the first cycle of 400 years. *)
Lemma first_cycle_day_ok d : 1 <= d <= 146097 → day_ok 400 d = true.
Proof.
  intros Hd. destruct (Z.eq_dec d 146097) as [-> | Hlast]; [reflexivity|].
  destruct (ord2ymd_first_cycle d ltac:(lia))
    as (a & b & c & r & Ha & Hb & Hc & Hr & H4 & Ed & E).
  unfold day_ok. rewrite E.
  destruct (c =? 4) eqn:Ec.
  - apply Z.eqb_eq in Ec. destruct (H4 Ec) as [-> Hb']. subst c.
    replace (a * 100 + b * 4 + 4) with (a * 100 + b * 4 + 3 + 1) by lia.
    rewrite days_in_month_december. unfold ymd2ord.
    rewrite days_before_month_december.
    rewrite (leap_flag_spec a b 3), (days_before_year_parts a b 3) by lia.
    unfold leap_flag. rewrite Z.eqb_refl.
    replace (b =? 24) with false by (symmetry; apply Z.eqb_neq; lia).
    cbn [negb orb andb].
    repeat (apply andb_true_intro; split);
      first [apply Z.leb_le; lia | apply Z.eqb_eq; lia].
  - apply Z.eqb_neq in Ec.
    pose proof (month_day_ok_spec (leap_flag a b c) r Hr) as Hm.
    unfold month_day_ok in Hm.
    destruct (month_and_day (leap_flag a b c) r) as [m dd]. cbn [fst snd].
    repeat (apply andb_prop in Hm as [Hm ?]).
    unfold ymd2ord, days_in_month, days_before_month.
    rewrite (leap_flag_spec a b c), (days_before_year_parts a b c) by lia.
    repeat match goal with
           | H : (_ <=? _) = true |- _ => apply Z.leb_le in H
           | H : (_ =? _) = true |- _ => apply Z.eqb_eq in H
           end.
    repeat (apply andb_true_intro; split);
      first [apply Z.leb_le; lia | apply Z.eqb_eq; lia].
Qed.

(** ** The cycles of 400 years *)

Lemma is_leap_cycle y k : is_leap (y + 400 * k) = is_leap y.
Proof.
  unfold is_leap.
  replace ((y + 400 * k) mod 4) with (y mod 4)
    by (replace (y + 400 * k) with (y + (100 * k) * 4) by ring;
        symmetry; apply Z_mod_plus_full).
  replace ((y + 400 * k) mod 100) with (y mod 100)
    by (replace (y + 400 * k) with (y + (4 * k) * 100) by ring;
        symmetry; apply Z_mod_plus_full).
  replace ((y + 400 * k) mod 400) with (y mod 400)
    by (replace (y + 400 * k) with (y + k * 400) by ring;
        symmetry; apply Z_mod_plus_full).
  reflexivity.
Qed.

Lemma days_before_year_cycle y k :
  days_before_year (y + 400 * k) = days_before_year y + 146097 * k.
Proof.
  unfold days_before_year. cbv zeta.
  replace (y + 400 * k - 1) with (y - 1 + 400 * k) by ring.
  replace ((y - 1 + 400 * k) / 4) with ((y - 1) / 4 + 100 * k)
    by (replace (y - 1 + 400 * k) with (y - 1 + (100 * k) * 4) by ring;
        symmetry; apply Z_div_plus_full; lia).
  replace ((y - 1 + 400 * k) / 100) with ((y - 1) / 100 + 4 * k)
    by (replace (y - 1 + 400 * k) with (y - 1 + (4 * k) * 100) by ring;
        symmetry; apply Z_div_plus_full; lia).
  replace ((y - 1 + 400 * k) / 400) with ((y - 1) / 400 + k)
    by (replace (y - 1 + 400 * k) with (y - 1 + k * 400) by ring;
        symmetry; apply Z_div_plus_full; lia).
  ring.
Qed.

Lemma ymd2ord_cycle y m dd k :
  ymd2ord (y + 400 * k) m dd = ymd2ord y m dd + 146097 * k.
Proof.
  unfold ymd2ord, days_before_month.
  rewrite days_before_year_cycle, is_leap_cycle. ring.
Qed.

Lemma days_in_month_cycle y m k : days_in_month (y + 400 * k) m = days_in_month y m.
Proof. unfold days_in_month. rewrite is_leap_cycle. reflexivity. Qed.

Lemma ord2ymd_cycle d :
  ord2ymd d
  = let '(y, m, dd) := ord2ymd ((d - 1) mod 146097 + 1) in
    (y + 400 * ((d - 1) / 146097), m, dd).
Proof.
  unfold ord2ymd. cbv zeta.
  change DI400Y with 146097.
  replace ((d - 1) mod 146097 + 1 - 1) with ((d - 1) mod 146097) by ring.
  rewrite Z.mod_mod by lia.
  replace ((d - 1) mod 146097 / 146097) with 0
    by (symmetry; apply Z.div_small; apply Z.mod_pos_bound; lia).
  set (n := (d - 1) mod 146097).
  set (k := (d - 1) / 146097).
  repeat match goal with
         | |- context [if ?c then _ else _] => destruct c
         end; f_equal; try f_equal; ring.
Qed.

Lemma day_ok_spec d : 1 <= d <= MAXORDINAL → day_ok 9999 d = true.
Proof.
  intros Hd. unfold MAXORDINAL in Hd.
  assert (Hr : 1 <= (d - 1) mod 146097 + 1 < 1 + 146097)
    by (pose proof (Z.mod_pos_bound (d - 1) 146097); lia).
  pose proof (first_cycle_day_ok ((d - 1) mod 146097 + 1) ltac:(lia)) as Hc.
  assert (Hk : 0 <= (d - 1) / 146097 <= 24).
  { split; [apply Z.div_pos; lia |].
    assert ((d - 1) / 146097 < 25) by (apply Z.div_lt_upper_bound; lia). lia. }
  assert (Hd' : d = (d - 1) mod 146097 + 1 + 146097 * ((d - 1) / 146097)).
  { pose proof (Z.div_mod (d - 1) 146097). lia. }
  unfold day_ok in *. rewrite ord2ymd_cycle.
  set (k := (d - 1) / 146097) in *.
  destruct (ord2ymd ((d - 1) mod 146097 + 1)) as [[y m] dd].
  repeat (apply andb_prop in Hc as [Hc ?]).
  rewrite ymd2ord_cycle, days_in_month_cycle.
  assert (Hy : y + 400 * k <= 9999).
  { destruct (Z_le_gt_dec (y + 400 * k) 9999) as [|Hgt]; [assumption | exfalso].
    assert (y = 400 ∧ k = 24) as [-> ->] by lia.
    assert (Hb : 3652059 + 1 <= ymd2ord (400 + 400 * 24) m dd).
    { unfold ymd2ord, days_before_month.
      change (days_before_year (400 + 400 * 24)) with 3652059.
      assert (0 <= nth (Z.to_nat (m - 1)) DAYS_BEFORE_MONTH 0).
      { assert (Hm : 1 <= m <= 12) by lia. clear - Hm.
        assert (m = 1 ∨ m = 2 ∨ m = 3 ∨ m = 4 ∨ m = 5 ∨ m = 6 ∨ m = 7 ∨ m = 8
                ∨ m = 9 ∨ m = 10 ∨ m = 11 ∨ m = 12) as Hcases by lia.
        repeat destruct Hcases as [-> | Hcases]; try subst m; vm_compute; congruence. }
      destruct ((2 <? m) && is_leap (400 + 400 * 24)); lia. }
    rewrite ymd2ord_cycle in Hb. lia. }
  repeat (apply andb_true_intro; split); try assumption; lia.
Qed.

(** ** Text that [strptime] reads back *)

Lemma append_assoc (a b c : string) : (a +:+ b) +:+ c = a +:+ (b +:+ c).
Proof.
  induction a as [|x a IH]; [reflexivity|].
  change (String x ((a +:+ b) +:+ c) = String x (a +:+ (b +:+ c))).
  rewrite IH. reflexivity.
Qed.

Lemma append_cons c (p r : string) : String c p +:+ r = String c (p +:+ r).
Proof. reflexivity. Qed.

Lemma append_nil (r : string) : "" +:+ r = r.
Proof. reflexivity. Qed.

Lemma match_alt_app a p rest acc :
  (length a <= String.length p)%nat →
  match_alt a (p +:+ rest) acc
  = match match_alt a p acc with
    | Some (v, r) => Some (v, r +:+ rest)
    | None => None
    end.
Proof.
  revert p acc. induction a as [|cl a IH]; intros p acc Hl; cbn [match_alt].
  - reflexivity.
  - destruct p as [|c p]; cbn in Hl; [lia|].
    rewrite append_cons. destruct (cl c); [apply IH; lia | reflexivity].
Qed.

Lemma match_items_dir d p n fmt rest fs r :
  field_ok d p n = true →
  match_items fmt rest = Some (fs, r) →
  match_items (FDir d :: fmt) (p +:+ rest) = Some ((d, n) :: fs, r).
Proof.
  unfold field_ok, first_alt. intros H Hk.
  apply andb_prop in H as [H _]. apply andb_prop in H as [Hlen Hfirst].
  cbn [match_items]. revert Hlen Hfirst.
  induction (dir_alts d) as [|a l IH]; cbn [forallb first_some]; intros Hlen Hfirst.
  - discriminate.
  - apply andb_prop in Hlen as [Ha Hl]. apply Nat.leb_le in Ha.
    rewrite (match_alt_app a p rest 0 Ha).
    destruct (match_alt a p 0) as [[v r0]|].
    + destruct r0; [|discriminate]. apply Z.eqb_eq in Hfirst. subst v.
      rewrite append_nil, Hk. reflexivity.
    + apply IH; assumption.
Qed.

Lemma match_items_lit c fmt rest :
  match_items (FLit c :: fmt) (String c EmptyString +:+ rest) = match_items fmt rest.
Proof. rewrite append_cons, append_nil. cbn [match_items]. rewrite Ascii.eqb_refl. reflexivity. Qed.

Lemma field_ok_head d p n rest :
  field_ok d p n = true → ∃ c s, p +:+ rest = String c s ∧ is_digit c = true.
Proof.
  unfold field_ok. intros H. apply andb_prop in H as [_ H].
  destruct p as [|c p]; [discriminate|]. rewrite append_cons. eauto.
Qed.

Lemma match_items_space fmt c s :
  is_digit c = true →
  match_items (FSpace :: fmt) (" " +:+ String c s) = match_items fmt (String c s).
Proof.
  intros Hc. rewrite append_cons, append_nil. cbn [match_items after_spaces].
  change (is_space " ") with true. cbv iota.
  assert (Hsp : is_space c = false).
  { revert Hc. clear. destruct c as [[] [] [] [] [] [] [] []]; vm_compute; congruence. }
  cbn [after_spaces]. rewrite Hsp. cbn [List.app first_some].
  destruct (match_items fmt (String c s)); reflexivity.
Qed.

(** ** The digits of a year *)

Ltac digit_cases k H :=
  let C := fresh in
  assert (C : k = 0 ∨ k = 1 ∨ k = 2 ∨ k = 3 ∨ k = 4 ∨ k = 5 ∨ k = 6 ∨ k = 7
              ∨ k = 8 ∨ k = 9) by lia;
  clear H;
  repeat (destruct C as [-> | C]); [.. | subst k].

Lemma string_of_digit_uint k u :
  0 <= k <= 9 →
  NilEmpty.string_of_uint (digit_uint k u)
  = String (digit_char k) (NilEmpty.string_of_uint u).
Proof. intros H. digit_cases k H; reflexivity. Qed.

Lemma uint_acc_digit_uint k u acc :
  0 <= k <= 9 → uint_acc (digit_uint k u) acc = uint_acc u (acc * 10 + k).
Proof. intros H. digit_cases k H; reflexivity. Qed.

Lemma unorm_digit_uint k u :
  1 <= k <= 9 → Decimal.unorm (digit_uint k u) = digit_uint k u.
Proof.
  intros H.
  assert (C : k = 1 ∨ k = 2 ∨ k = 3 ∨ k = 4 ∨ k = 5 ∨ k = 6 ∨ k = 7 ∨ k = 8 ∨ k = 9)
    by lia.
  clear H. repeat (destruct C as [-> | C]); [.. | subst k]; reflexivity.
Qed.

Lemma digit_char_digit k :
  0 <= k <= 9 → is_digit (digit_char k) = true ∧ digit_val (digit_char k) = k.
Proof. intros H. digit_cases k H; split; reflexivity. Qed.

(** The text of a number written with a numeral without leading zeros. *)
Lemma str_of_Z_uint d :
  Decimal.unorm d = d → str_of_Z (uint_acc d 0) = NilEmpty.string_of_uint d.
Proof.
  intros Hn.
  assert (Hv : uint_acc d 0 = Z.of_N (Pos.of_uint d)).
  { rewrite uint_acc_spec, <- DecimalPos.Unsigned.of_uint_alt. lia. }
  pose proof (DecimalPos.Unsigned.to_of d) as Ht. rewrite Hn in Ht.
  rewrite Hv. unfold str_of_Z.
  destruct (Pos.of_uint d) as [|p]; cbn in *.
  - rewrite <- Ht. reflexivity.
  - rewrite Ht. unfold NilZero.string_of_uint.
    destruct d; [discriminate Hn | reflexivity ..].
Qed.

(** The year written with four digits. *)
Lemma pad4_digits a b c e :
  0 <= a <= 9 → 0 <= b <= 9 → 0 <= c <= 9 → 0 <= e <= 9 →
  1 <= ((a * 10 + b) * 10 + c) * 10 + e →
  pad4 (((a * 10 + b) * 10 + c) * 10 + e)
  = String (digit_char a) (String (digit_char b) (String (digit_char c)
      (String (digit_char e) EmptyString))).
Proof.
  intros Ha Hb Hc He Hy.
  set (y := ((a * 10 + b) * 10 + c) * 10 + e) in *.
  unfold pad4.
  assert (S1 : ∀ k, 1 <= k <= 9 →
               str_of_Z k = String (digit_char k) EmptyString).
  { intros k Hk.
    replace k with (uint_acc (digit_uint k Decimal.Nil) 0)
      by (rewrite uint_acc_digit_uint by lia; cbn; lia).
    rewrite str_of_Z_uint by (apply unorm_digit_uint; lia).
    rewrite uint_acc_digit_uint by lia. cbn [uint_acc].
    replace (0 * 10 + k) with k by lia.
    apply string_of_digit_uint. lia. }
  assert (S2 : ∀ k l, 1 <= k <= 9 → 0 <= l <= 9 →
               str_of_Z (k * 10 + l)
               = String (digit_char k) (String (digit_char l) EmptyString)).
  { intros k l Hk Hl.
    replace (k * 10 + l) with (uint_acc (digit_uint k (digit_uint l Decimal.Nil)) 0)
      by (rewrite !uint_acc_digit_uint by lia; cbn; lia).
    rewrite str_of_Z_uint by (apply unorm_digit_uint; lia).
    rewrite !string_of_digit_uint by lia. reflexivity. }
  assert (S3 : ∀ k l m, 1 <= k <= 9 → 0 <= l <= 9 → 0 <= m <= 9 →
               str_of_Z ((k * 10 + l) * 10 + m)
               = String (digit_char k) (String (digit_char l)
                   (String (digit_char m) EmptyString))).
  { intros k l m Hk Hl Hm.
    replace ((k * 10 + l) * 10 + m)
      with (uint_acc (digit_uint k (digit_uint l (digit_uint m Decimal.Nil))) 0)
      by (rewrite !uint_acc_digit_uint by lia; cbn; lia).
    rewrite str_of_Z_uint by (apply unorm_digit_uint; lia).
    rewrite !string_of_digit_uint by lia. reflexivity. }
  assert (S4 : ∀ k l m n, 1 <= k <= 9 → 0 <= l <= 9 → 0 <= m <= 9 → 0 <= n <= 9 →
               str_of_Z (((k * 10 + l) * 10 + m) * 10 + n)
               = String (digit_char k) (String (digit_char l)
                   (String (digit_char m) (String (digit_char n) EmptyString)))).
  { intros k l m n Hk Hl Hm Hn.
    replace (((k * 10 + l) * 10 + m) * 10 + n)
      with (uint_acc (digit_uint k (digit_uint l (digit_uint m
                        (digit_uint n Decimal.Nil)))) 0)
      by (rewrite !uint_acc_digit_uint by lia; cbn; lia).
    rewrite str_of_Z_uint by (apply unorm_digit_uint; lia).
    rewrite !string_of_digit_uint by lia. reflexivity. }
  replace (y <? 0) with false by (symmetry; apply Z.ltb_ge; lia).
  destruct (Z.eq_dec a 0) as [-> | Na].
  - replace (y <? 1000) with true by (symmetry; apply Z.ltb_lt; lia).
    destruct (Z.eq_dec b 0) as [-> | Nb].
    + replace (y <? 100) with true by (symmetry; apply Z.ltb_lt; lia).
      destruct (Z.eq_dec c 0) as [-> | Nc].
      * replace (y <? 10) with true by (symmetry; apply Z.ltb_lt; lia).
        replace y with e by lia. rewrite S1 by lia. reflexivity.
      * replace (y <? 10) with false by (symmetry; apply Z.ltb_ge; lia).
        replace y with (c * 10 + e) by lia. rewrite S2 by lia. reflexivity.
    + replace (y <? 100) with false by (symmetry; apply Z.ltb_ge; lia).
      replace (y <? 10) with false by (symmetry; apply Z.ltb_ge; lia).
      replace y with ((b * 10 + c) * 10 + e) by lia. rewrite S3 by lia. reflexivity.
  - replace (y <? 1000) with false by (symmetry; apply Z.ltb_ge; lia).
    replace (y <? 100) with false by (symmetry; apply Z.ltb_ge; lia).
    replace (y <? 10) with false by (symmetry; apply Z.ltb_ge; lia).
    subst y. rewrite S4 by lia. reflexivity.
Qed.

Lemma year_field y : 1 <= y <= 9999 → field_ok DY (pad4 y) y = true.
Proof.
  intros Hy.
  set (a := y / 1000). set (b := y / 100 mod 10).
  set (c := y / 10 mod 10). set (e := y mod 10).
  assert (Hd : 0 <= a <= 9 ∧ 0 <= b <= 9 ∧ 0 <= c <= 9 ∧ 0 <= e <= 9
               ∧ y = ((a * 10 + b) * 10 + c) * 10 + e).
  { subst a b c e.
    pose proof (Z.div_mod y 10 ltac:(lia)).
    pose proof (Z.mod_pos_bound y 10 ltac:(lia)).
    pose proof (Z.div_mod (y / 10) 10 ltac:(lia)).
    pose proof (Z.mod_pos_bound (y / 10) 10 ltac:(lia)).
    pose proof (Z.div_mod (y / 100) 10 ltac:(lia)).
    pose proof (Z.mod_pos_bound (y / 100) 10 ltac:(lia)).
    assert (y / 10 / 10 = y / 100) by (rewrite Z.div_div by lia; reflexivity).
    assert (y / 100 / 10 = y / 1000) by (rewrite Z.div_div by lia; reflexivity).
    assert (0 <= y / 1000) by (apply Z.div_pos; lia).
    assert (y / 1000 < 10) by (apply Z.div_lt_upper_bound; lia).
    lia. }
  destruct Hd as (Ha & Hb & Hc & He & Ey).
  clearbody a b c e. subst y.
  rewrite pad4_digits by lia.
  destruct (digit_char_digit a Ha) as [Da Va].
  destruct (digit_char_digit b Hb) as [Db Vb].
  destruct (digit_char_digit c Hc) as [Dc Vc].
  destruct (digit_char_digit e He) as [De Ve].
  unfold field_ok, first_alt. cbn [dir_alts forallb first_some length String.length].
  cbn [match_alt]. unfold digit. rewrite Da, Db, Dc, De, Va, Vb, Vc, Ve.
  cbn [Nat.leb andb].
  replace ((((0 * 10 + a) * 10 + b) * 10 + c) * 10 + e =? ((a * 10 + b) * 10 + c) * 10 + e)
    with true by (symmetry; apply Z.eqb_eq; lia).
  reflexivity.
Qed.

Lemma month_field m : 1 <= m <= 12 → field_ok Dm (pad2 m) m = true.
Proof.
  apply (forallb_upto (fun m => field_ok Dm (pad2 m) m) 1 12).
  vm_cast_no_check (eq_refl true).
Qed.

Lemma day_field dd : 1 <= dd <= 31 → field_ok Dd (pad2 dd) dd = true.
Proof.
  apply (forallb_upto (fun dd => field_ok Dd (pad2 dd) dd) 1 31).
  vm_cast_no_check (eq_refl true).
Qed.

Lemma hour_field h : 0 <= h <= 23 → field_ok DH (pad2 h) h = true.
Proof.
  apply (forallb_upto (fun h => field_ok DH (pad2 h) h) 0 23).
  vm_cast_no_check (eq_refl true).
Qed.

Lemma minute_field m : 0 <= m <= 59 → field_ok DM (pad2 m) m = true.
Proof.
  apply (forallb_upto (fun m => field_ok DM (pad2 m) m) 0 59).
  vm_cast_no_check (eq_refl true).
Qed.

Lemma second_field s : 0 <= s <= 59 → field_ok DS (pad2 s) s = true.
Proof.
  apply (forallb_upto (fun s => field_ok DS (pad2 s) s) 0 59).
  vm_cast_no_check (eq_refl true).
Qed.

Lemma days_in_month_le y m : days_in_month y m <= 31.
Proof.
  unfold days_in_month. destruct ((m =? 2) && is_leap y); [lia|].
  destruct (Z.to_nat (m - 1)) as [|[|[|[|[|[|[|[|[|[|[|[|[|k]]]]]]]]]]]]];
    cbn; lia.
Qed.

Lemma append_empty_r (a : string) : a +:+ "" = a.
Proof.
  induction a as [|x a IH]; [reflexivity|]. rewrite append_cons, IH. reflexivity.
Qed.

Lemma match_items_Ymd y m dd fmt rest fs r :
  field_ok DY (pad4 y) y = true →
  field_ok Dm (pad2 m) m = true →
  field_ok Dd (pad2 dd) dd = true →
  match_items fmt rest = Some (fs, r) →
  match_items (FMT_Ymd ++ fmt)
    ((pad4 y +:+ "-" +:+ pad2 m +:+ "-" +:+ pad2 dd) +:+ rest)
  = Some ((DY, y) :: (Dm, m) :: (Dd, dd) :: fs, r).
Proof.
  intros Hy Hm Hdd Hk. unfold FMT_Ymd. cbn [List.app].
  rewrite !append_assoc.
  apply match_items_dir; [exact Hy|]. rewrite match_items_lit.
  apply match_items_dir; [exact Hm|]. rewrite match_items_lit.
  apply match_items_dir; [exact Hdd|]. exact Hk.
Qed.

Lemma mk_datetime_valid y m dd h mi s :
  1 <= y <= 9999 → 1 <= m <= 12 → 1 <= dd <= days_in_month y m →
  0 <= h <= 23 → 0 <= mi <= 59 → 0 <= s <= 59 →
  mk_datetime y m dd h mi s
  = Some (ymd2ord y m dd * us_per_day + (h * 3600 + mi * 60 + s) * us_per_second).
Proof.
  intros. unfold mk_datetime.
  replace ((1 <=? y) && (y <=? 9999) && (1 <=? m) && (m <=? 12) && (1 <=? dd)
           && (dd <=? days_in_month y m) && (0 <=? h) && (h <=? 23) && (0 <=? mi)
           && (mi <=? 59) && (0 <=? s) && (s <=? 59)) with true; [reflexivity|].
  symmetry. repeat (apply andb_true_intro; split); apply Z.leb_le; lia.
Qed.

Lemma day_ok_fields d y m dd :
  1 <= d <= MAXORDINAL → ord2ymd d = (y, m, dd) →
  1 <= y <= 9999 ∧ 1 <= m <= 12 ∧ 1 <= dd <= days_in_month y m
  ∧ ymd2ord y m dd = d.
Proof.
  intros Hd E. pose proof (day_ok_spec d Hd) as Hok.
  unfold day_ok in Hok. rewrite E in Hok.
  repeat (apply andb_prop in Hok as [Hok ?]).
  repeat match goal with
         | H : (_ <=? _) = true |- _ => apply Z.leb_le in H
         | H : (_ =? _) = true |- _ => apply Z.eqb_eq in H
         end.
  lia.
Qed.

(** The text of a date reads back as that date. *)
Lemma strptime_str_of_date d :
  1 <= d <= MAXORDINAL →
  strptime (str_of_date d) FMT_Ymd = Some (d * us_per_day).
Proof.
  intros Hd. unfold str_of_date.
  destruct (ord2ymd d) as [[y m] dd] eqn:E.
  destruct (day_ok_fields d y m dd Hd E) as (Hy & Hm & Hdd & Ho).
  pose proof (days_in_month_le y m).
  unfold strptime.
  rewrite <- (append_empty_r (pad4 y +:+ "-" +:+ pad2 m +:+ "-" +:+ pad2 dd)).
  rewrite <- (app_nil_r FMT_Ymd).
  rewrite (match_items_Ymd y m dd [] "" [] "");
    [ | apply year_field; lia | apply month_field; lia | apply day_field; lia
      | reflexivity ].
  change (field DY 1900 _) with y. change (field Dm 1 _) with m.
  change (field Dd 1 _) with dd. change (field DH 0 _) with 0.
  change (field DM 0 _) with 0. change (field DS 0 _) with 0.
  rewrite mk_datetime_valid by lia. rewrite Ho. f_equal. lia.
Qed.

(** The text of a date and time reads back as that instant, cut to the
    whole second. *)
Lemma strptime_strftime dt :
  1 <= date_of dt <= MAXORDINAL →
  strptime (strftime_YmdHMS dt) FMT_YmdHMS = Some (dt - dt mod us_per_second).
Proof.
  intros Hd. unfold strftime_YmdHMS, str_of_date.
  destruct (ord2ymd (date_of dt)) as [[y m] dd] eqn:E.
  destruct (day_ok_fields _ y m dd Hd E) as (Hy & Hm & Hdd & Ho).
  pose proof (days_in_month_le y m).
  set (t := time_of dt / us_per_second).
  assert (Ht : 0 <= t < 86400).
  { unfold t, time_of, us_per_day, us_per_second.
    pose proof (Z.mod_pos_bound dt (86400 * 1000000) ltac:(lia)).
    split; [apply Z.div_pos; lia | apply Z.div_lt_upper_bound; lia]. }
  assert (Hh : 0 <= t / 3600 <= 23).
  { split; [apply Z.div_pos; lia|].
    assert (t / 3600 < 24) by (apply Z.div_lt_upper_bound; lia). lia. }
  assert (Hmi : 0 <= t mod 3600 / 60 <= 59).
  { pose proof (Z.mod_pos_bound t 3600 ltac:(lia)).
    split; [apply Z.div_pos; lia|].
    assert (t mod 3600 / 60 < 60) by (apply Z.div_lt_upper_bound; lia). lia. }
  assert (Hs : 0 <= t mod 60 <= 59).
  { pose proof (Z.mod_pos_bound t 60 ltac:(lia)). lia. }
  unfold strptime, FMT_YmdHMS, FMT_YmdHM. rewrite <- !app_assoc.
  pose proof (hour_field _ Hh) as Fh.
  destruct (field_ok_head DH _ _
              (":" +:+ pad2 (t mod 3600 / 60) +:+ ":" +:+ pad2 (t mod 60)) Fh)
    as (c & s & Ec & Hc).
  rewrite (match_items_Ymd y m dd _ _
             [(DH, t / 3600); (DM, t mod 3600 / 60); (DS, t mod 60)] "");
    [ | apply year_field; lia | apply month_field; lia | apply day_field; lia | ].
  2:{ cbn [List.app]. rewrite Ec.
      rewrite (match_items_space _ c s Hc). rewrite <- Ec. unfold FMT_HM.
      cbn [List.app].
      apply match_items_dir; [exact Fh|]. rewrite match_items_lit.
      apply match_items_dir; [apply minute_field; exact Hmi|].
      rewrite match_items_lit.
      rewrite <- (append_empty_r (pad2 (t mod 60))).
      apply match_items_dir; [apply second_field; exact Hs|]. reflexivity. }
  change (field DY 1900 _) with y. change (field Dm 1 _) with m.
  change (field Dd 1 _) with dd. change (field DH 0 _) with (t / 3600).
  change (field DM 0 _) with (t mod 3600 / 60).
  change (field DS 0 _) with (t mod 60).
  rewrite mk_datetime_valid by lia. rewrite Ho. f_equal.
  assert (E1 : t / 3600 * 3600 + t mod 3600 / 60 * 60 + t mod 60 = t).
  { pose proof (Z.div_mod t 3600 ltac:(lia)).
    pose proof (Z.div_mod (t mod 3600) 60 ltac:(lia)).
    assert (t mod 60 = (t mod 3600) mod 60).
    { symmetry. apply Z.mod_mod_divide. exists 60. reflexivity. }
    lia. }
  rewrite E1. unfold t, time_of, date_of, us_per_day, us_per_second in *.
  pose proof (Z.div_mod dt (86400 * 1000000) ltac:(lia)).
  pose proof (Z.div_mod (dt mod (86400 * 1000000)) 1000000 ltac:(lia)).
  assert (dt mod 1000000 = (dt mod (86400 * 1000000)) mod 1000000).
  { symmetry. apply Z.mod_mod_divide. exists 86400. reflexivity. }
  lia.
Qed.

(** ** Durations written and read back *)

Lemma sign_or_digit_not_colon c :
  is_sign_or_digit c = true → Ascii.eqb c ":" = false.
Proof. destruct c as [[] [] [] [] [] [] [] []]; vm_compute; congruence. Qed.

Lemma all_chars_impl (p q : ascii → bool) s :
  (∀ c, p c = true → q c = true) → all_chars p s = true → all_chars q s = true.
Proof.
  intros Hpq. induction s as [|c s IH]; cbn; [reflexivity|].
  intros H. apply andb_prop in H as [Hc Hs]. rewrite (Hpq c Hc), (IH Hs). reflexivity.
Qed.

Lemma all_chars_app p a b :
  all_chars p (a +:+ b) = all_chars p a && all_chars p b.
Proof.
  induction a as [|c a IH]; [reflexivity|].
  rewrite append_cons. cbn. rewrite IH, andb_assoc. reflexivity.
Qed.

Lemma str_of_Z_chars n : all_chars is_sign_or_digit (str_of_Z n) = true.
Proof.
  assert (D : ∀ u, all_chars is_sign_or_digit (NilEmpty.string_of_uint u) = true).
  { intros u. apply (all_chars_impl is_digit); [|apply string_of_uint_digits].
    intros c Hc. unfold is_sign_or_digit. rewrite Hc. reflexivity. }
  assert (D0 : ∀ u, all_chars is_sign_or_digit (NilZero.string_of_uint u) = true).
  { intros u. unfold NilZero.string_of_uint. destruct u; try apply D. reflexivity. }
  unfold str_of_Z, NilZero.string_of_int.
  destruct (Z.to_int n) as [u|u]; [apply D0|].
  cbn. apply D0.
Qed.

Lemma pad2_chars n : all_chars is_sign_or_digit (pad2 n) = true.
Proof.
  unfold pad2. destruct ((0 <=? n) && (n <? 10)); [|apply str_of_Z_chars].
  rewrite all_chars_app, str_of_Z_chars. reflexivity.
Qed.

Lemma split_on_nosep sep a :
  all_chars (fun c => negb (Ascii.eqb c sep)) a = true → split_on sep a = [a].
Proof.
  induction a as [|c a IH]; cbn; [reflexivity|].
  intros H. apply andb_prop in H as [Hc Ha].
  apply negb_true_iff in Hc. rewrite Hc, (IH Ha). reflexivity.
Qed.

Lemma split_on_app sep a b :
  all_chars (fun c => negb (Ascii.eqb c sep)) a = true →
  split_on sep (a +:+ String sep b) = a :: split_on sep b.
Proof.
  induction a as [|c a IH]; intros H.
  - rewrite append_nil. cbn. rewrite Ascii.eqb_refl. reflexivity.
  - cbn in H. apply andb_prop in H as [Hc Ha]. apply negb_true_iff in Hc.
    rewrite append_cons. cbn [split_on]. rewrite Hc, (IH Ha). reflexivity.
Qed.

Lemma pad2_nocolon n :
  all_chars (fun c => negb (Ascii.eqb c ":")) (pad2 n) = true.
Proof.
  apply (all_chars_impl is_sign_or_digit); [|apply pad2_chars].
  intros c Hc. rewrite (sign_or_digit_not_colon c Hc). reflexivity.
Qed.

Lemma split_hms a b c :
  split_on ":" (pad2 a +:+ ":" +:+ pad2 b +:+ ":" +:+ pad2 c)
  = [pad2 a; pad2 b; pad2 c].
Proof.
  change (":" +:+ pad2 b +:+ ":" +:+ pad2 c)
    with (String ":" (pad2 b +:+ String ":" (pad2 c))).
  rewrite split_on_app by apply pad2_nocolon.
  rewrite split_on_app by apply pad2_nocolon.
  rewrite split_on_nosep by apply pad2_nocolon. reflexivity.
Qed.

Lemma py_int_pad2 n : py_int (pad2 n) = Some n.
Proof.
  destruct (decide (0 <= n <= 9)) as [Hn|Hn].
  - pose proof (forallb_upto (fun n => bool_decide (py_int (pad2 n) = Some n)) 0 9
                  eq_refl n Hn) as H.
    apply bool_decide_eq_true in H. exact H.
  - unfold pad2. replace ((0 <=? n) && (n <? 10)) with false; [apply py_int_str_of_Z|].
    symmetry. apply andb_false_iff.
    destruct (decide (0 <= n)); [right; apply Z.ltb_ge | left; apply Z.leb_gt]; lia.
Qed.

Lemma hms_sum s : s / 3600 * 3600 + s mod 3600 / 60 * 60 + s mod 60 = s.
Proof.
  pose proof (Z.div_mod s 3600 ltac:(lia)).
  pose proof (Z.div_mod (s mod 3600) 60 ltac:(lia)).
  assert (s mod 60 = (s mod 3600) mod 60)
    by (symmetry; apply Z.mod_mod_divide; exists 60; reflexivity).
  lia.
Qed.

(** The text of a duration splits into three fields that add up to the
    duration in whole seconds, also when it is negative. *)
Lemma duration_read_back dur :
  split_on ":" (_format_duration dur)
  = [pad2 (int_total_seconds dur / 3600);
     pad2 (int_total_seconds dur mod 3600 / 60);
     pad2 (int_total_seconds dur mod 60)].
Proof. unfold _format_duration. cbv zeta. apply split_hms. Qed.

(** A session written with the texts of its start, its stop and its
    duration is read back by the loop of the usage calculators with the
    start cut to the whole second and the whole seconds of the duration. *)
Lemma written_session_read_back (in_window : Z → bool) (total st en : Z) :
  1 <= date_of st <= MAXORDINAL →
  add_session_seconds in_window total
    (Session (Some (strftime_YmdHMS st)) (Some (strftime_YmdHMS en))
             (Some (_format_duration (en - st))))
  = if in_window (st - st mod us_per_second)
    then total + int_total_seconds (en - st)
    else total.
Proof.
  intros Hst. unfold add_session_seconds. cbn [start duration default from_option id].
  rewrite (strptime_strftime st Hst).
  destruct (in_window _); [|reflexivity].
  rewrite duration_read_back, !py_int_pad2.
  f_equal. apply hms_sum.
Qed.

(** X1. A session as [start_stop_timer] writes it at a stop is read back by
    the loop of the usage calculators with the start cut to the whole second
    and with exactly the whole seconds between start and stop, for a span
    below [2 ^ 34] seconds (about 544 years): within it the float of
    [total_seconds()], which the source truncates to write the duration, has
    the whole seconds of the span. *)
Theorem stop_entry_read_back (in_window : Z → bool) (total st en : Z) :
  1 <= date_of st <= MAXORDINAL →
  Z.abs (en - st) < 2 ^ 34 * us_per_second →
  add_session_seconds in_window total
    (Session (Some (strftime_YmdHMS st)) (Some (strftime_YmdHMS en))
             (Some (_format_duration (en - st))))
  = if in_window (st - st mod us_per_second)
    then total + int_total_seconds (en - st)
    else total.
Proof. intros Hst _. apply written_session_read_back. exact Hst. Qed.

Lemma stop_entry_read_back_witness :
  1 <= date_of morning_start <= MAXORDINAL
  ∧ Z.abs (morning_stop - morning_start) < 2 ^ 34 * us_per_second
  ∧ add_session_seconds (fun t => date_of t =? 739000) 100
      (Session (Some (strftime_YmdHMS morning_start))
               (Some (strftime_YmdHMS morning_stop))
               (Some (_format_duration (morning_stop - morning_start))))
    = if date_of (morning_start - morning_start mod us_per_second) =? 739000
      then 100 + int_total_seconds (morning_stop - morning_start)
      else 100.
Proof.
  assert (H : 1 <= date_of morning_start <= MAXORDINAL)
    by (vm_compute; split; discriminate).
  assert (B : Z.abs (morning_stop - morning_start) < 2 ^ 34 * us_per_second)
    by (vm_compute; reflexivity).
  split; [exact H|]. split; [exact B|].
  exact (stop_entry_read_back (fun t => date_of t =? 739000) 100
           morning_start morning_stop H B).
Defined.

(** ** The flags of the daily notice *)

Lemma split_first_app_None sep a b :
  split_first sep a = None →
  split_first sep (a +:+ String sep b) = Some (a, b).
Proof.
  induction a as [|c a IH]; intros H.
  - rewrite append_nil. cbn. rewrite Ascii.eqb_refl. reflexivity.
  - rewrite append_cons. cbn in *. destruct (Ascii.eqb c sep); [discriminate|].
    destruct (split_first sep a) as [[x y]|]; [discriminate|].
    rewrite IH by reflexivity. reflexivity.
Qed.

Lemma split_first_app_Some sep a x y r :
  split_first sep a = Some (x, y) →
  split_first sep (a +:+ r) = Some (x, y +:+ r).
Proof.
  revert x. induction a as [|c a IH]; intros x H; [discriminate|].
  rewrite append_cons. cbn in *. destruct (Ascii.eqb c sep).
  - injection H as <- <-. reflexivity.
  - destruct (split_first sep a) as [[x' y']|]; [|discriminate].
    injection H as <- <-. rewrite (IH x') by reflexivity. reflexivity.
Qed.

Lemma date_of_day d : date_of (d * us_per_day) = d.
Proof. unfold date_of. apply Z.div_mul. discriminate. Qed.

(** The flag of day [d] of a user whose identifier has no underscore is
    taken for old exactly when [d] is more than one day before today. *)
Lemma to_remove_flag today user_id d :
  split_first "_" user_id = None → 1 <= d <= MAXORDINAL →
  to_remove today (user_id +:+ "_" +:+ str_of_date d) = (1 <? today - d).
Proof.
  intros Hid Hd. unfold to_remove.
  change ("_" +:+ str_of_date d) with (String "_" (str_of_date d)).
  rewrite (split_first_app_None _ _ _ Hid), (strptime_str_of_date d Hd), date_of_day.
  reflexivity.
Qed.

Lemma clock_set_ticks n w : clock (set_ticks n w) = clock w.
Proof. destruct w; reflexivity. Qed.

Lemma check_daily_limit_keeps user_id name w :
  db (snd (_check_daily_limit user_id name w)) = db w
  ∧ clock (snd (_check_daily_limit user_id name w)) = clock w
  ∧ kid_timer_running (snd (_check_daily_limit user_id name w)) = kid_timer_running w
  ∧ kid_timer_start_time (snd (_check_daily_limit user_id name w))
    = kid_timer_start_time w
  ∧ current_kid_user (snd (_check_daily_limit user_id name w)) = current_kid_user w
  ∧ kid_rest_periods (snd (_check_daily_limit user_id name w)) = kid_rest_periods w
  ∧ kid_session_log (snd (_check_daily_limit user_id name w)) = kid_session_log w.
Proof.
  destruct (check_daily_limit_frame user_id name w) as (n & tr & f & ->).
  destruct w; cbn; auto 10.
Qed.

(** What a call of [_check_daily_limit] leaves when every reading of the
    clock falls on day [D]: nothing new, or the two events of the notice
    and the flags of today cleaned. *)
Lemma check_daily_limit_same_day user_id name D w :
  (∀ n, date_of (clock w n) = D) →
  let key := user_id +:+ "_" +:+ str_of_date D in
  let w' := snd (_check_daily_limit user_id name w) in
  (trace w' = trace w ∧ daily_limit_notifications w' = daily_limit_notifications w)
  ∨ ((key ∉ daily_limit_notifications w)
     ∧ (∃ e1 e2, trace w' = trace w ++ [e1; e2])
     ∧ daily_limit_notifications w'
       = filter (fun k => to_remove D k = false)
           ({[key]} ∪ daily_limit_notifications w)
     ∧ ∃ u limit, get_user (db w) user_id = Some u
                  ∧ max_daily_minutes u = Some limit
                  ∧ limit <= fst (_calculate_daily_usage user_id w)).
Proof.
  intros Hday key w'. subst w'.
  unfold _check_daily_limit, _cleanup_old_notifications. unfold_m. cbn.
  destruct (db w) eqn:E; cbn; [|left; split; reflexivity].
  destruct (get_user (Some g) user_id) as [u|]; cbn; [|left; split; reflexivity].
  destruct (max_daily_minutes u) as [limit|] eqn:El; cbn; [|left; split; reflexivity].
  destruct (calc_daily_usage_frame user_id w) as [n ->].
  generalize (fst (_calculate_daily_usage user_id w)). intros usage.
  destruct w; cbn in *. rewrite !Hday. fold key.
  destruct (bool_decide (key ∈ _)) eqn:Hk; cbn; [left; split; reflexivity|].
  apply bool_decide_eq_false in Hk.
  destruct (limit <=? usage) eqn:Hc; cbn; [|left; split; reflexivity].
  right. split; [exact Hk|]. rewrite !Hday.
  split; [rewrite <- app_assoc; cbn; eauto|].
  split; [reflexivity|]. exists u, limit. apply Z.leb_le in Hc. auto.
Qed.

(** With the flag of today set, a call raises nothing. *)
Lemma check_daily_limit_flagged user_id name D w :
  (∀ n, date_of (clock w n) = D) →
  user_id +:+ "_" +:+ str_of_date D ∈ daily_limit_notifications w →
  trace (snd (_check_daily_limit user_id name w)) = trace w.
Proof.
  intros Hday Hk.
  destruct (check_daily_limit_same_day user_id name D w Hday) as [[H _]|[H _]];
    [exact H | contradiction].
Qed.


(** *** Text that [strptime] refuses *)

Lemma match_alt_excl x a s acc v r :
  forallb (fun cl : ascii → bool => negb (cl x)) a = true →
  match_alt a s acc = Some (v, r) →
  ∃ p, s = p +:+ r ∧ all_chars (fun c => negb (Ascii.eqb c x)) p = true.
Proof.
  revert s acc. induction a as [|cl a IH]; intros s acc Ha H; cbn in *.
  - injection H as _ <-. exists "". split; reflexivity.
  - apply andb_prop in Ha as [Hx Ha]. apply negb_true_iff in Hx.
    destruct s as [|c s]; [discriminate|].
    destruct (cl c) eqn:Hc; [|discriminate].
    destruct (IH _ _ Ha H) as (p & -> & Hp).
    exists (String c p). split; [reflexivity|]. cbn. rewrite Hp, andb_true_r.
    apply negb_true_iff. destruct (Ascii.eqb_spec c x); [congruence | reflexivity].
Qed.

Lemma first_some_inv {A B} (f : A → option B) l y :
  first_some f l = Some y → ∃ a, In a l ∧ f a = Some y.
Proof.
  induction l as [|a l IH]; cbn; [discriminate|].
  destruct (f a) eqn:E.
  - intros [= <-]. eauto.
  - intros H. destruct (IH H) as (a' & ? & ?). eauto.
Qed.

Lemma after_spaces_inv x s s' :
  is_space x = false → In s' (after_spaces s) →
  ∃ p, s = p +:+ s' ∧ all_chars (fun c => negb (Ascii.eqb c x)) p = true.
Proof.
  intros Hx. induction s as [|c s IH]; cbn; [tauto|].
  destruct (is_space c) eqn:Hc; [|cbn; tauto].
  assert (Hcx : negb (Ascii.eqb c x) = true).
  { apply negb_true_iff. destruct (Ascii.eqb_spec c x); [congruence | reflexivity]. }
  intros H. apply in_app_or in H as [H|[<-|[]]].
  - destruct (IH H) as (p & -> & Hp). exists (String c p).
    split; [reflexivity|]. cbn. rewrite Hcx, Hp. reflexivity.
  - exists (String c ""). split; [reflexivity|]. cbn. rewrite Hcx. reflexivity.
Qed.

Lemma dir_alts_excl_underscore d a :
  In a (dir_alts d) → forallb (fun cl : ascii → bool => negb (cl "_"%char)) a = true.
Proof.
  destruct d; cbn; intros H;
    repeat (destruct H as [<-|H]; [reflexivity|]); destruct H.
Qed.

Lemma match_items_excl fmt s fs r :
  forallb (fun it => match it with
                     | FLit c => negb (Ascii.eqb c "_")
                     | _ => true
                     end) fmt = true →
  match_items fmt s = Some (fs, r) →
  ∃ p, s = p +:+ r ∧ all_chars (fun c => negb (Ascii.eqb c "_")) p = true.
Proof.
  revert s fs r. induction fmt as [|it fmt IH]; intros s fs r Hf H.
  - cbn in H. injection H as _ <-. exists "". split; reflexivity.
  - cbn [forallb] in Hf. apply andb_prop in Hf as [Hit Hf].
    destruct it as [d|c|]; cbn [match_items] in H.
    + apply first_some_inv in H as (a & Ha & H).
      destruct (match_alt a s 0) as [[v s']|] eqn:Em; [|discriminate].
      destruct (match_items fmt s') as [[fs' r']|] eqn:Ei; [|discriminate].
      injection H as _ <-.
      destruct (match_alt_excl "_" a s 0 v s' (dir_alts_excl_underscore d a Ha) Em)
        as (p & -> & Hp).
      destruct (IH _ _ _ Hf Ei) as (q & -> & Hq).
      exists (p +:+ q). rewrite append_assoc, all_chars_app, Hp, Hq. auto.
    + destruct s as [|c' s]; [discriminate|].
      destruct (Ascii.eqb_spec c c') as [<-|]; [|discriminate].
      destruct (IH _ _ _ Hf H) as (q & -> & Hq).
      exists (String c q). split; [reflexivity|]. cbn. rewrite Hit, Hq. reflexivity.
    + apply first_some_inv in H as (s' & Hs' & H).
      destruct (after_spaces_inv "_" s s' eq_refl Hs') as (p & -> & Hp).
      destruct (IH _ _ _ Hf H) as (q & -> & Hq).
      exists (p +:+ q). rewrite append_assoc, all_chars_app, Hp, Hq. auto.
Qed.

(** A text with an underscore is no date. *)
Lemma strptime_Ymd_underscore a b : strptime (a +:+ String "_" b) FMT_Ymd = None.
Proof.
  unfold strptime.
  destruct (match_items FMT_Ymd _) as [[fs r]|] eqn:E; [|reflexivity].
  destruct r; [|reflexivity]. exfalso.
  apply match_items_excl in E as (p & E & Hp); [|reflexivity].
  rewrite append_empty_r in E. subst p.
  rewrite all_chars_app in Hp. cbn in Hp.
  rewrite andb_false_r in Hp. discriminate.
Qed.

(** The flag of a user whose identifier has an underscore is always taken
    for old. *)
Lemma to_remove_underscore today user_id a b d :
  split_first "_" user_id = Some (a, b) →
  to_remove today (user_id +:+ "_" +:+ str_of_date d) = true.
Proof.
  intros Hid. unfold to_remove.
  rewrite (split_first_app_Some _ _ _ _ _ Hid).
  change ("_" +:+ str_of_date d) with (String "_" (str_of_date d)).
  rewrite strptime_Ymd_underscore. reflexivity.
Qed.

(** With the timer stopped, the daily usage is the sum over the stored
    sessions of the day. *)
Lemma calc_daily_usage_stopped user_id D w :
  kid_timer_running w = false → db w ≠ None →
  (∀ n, date_of (clock w n) = D) →
  fst (_calculate_daily_usage user_id w)
  = stored_seconds (daily_window D) (get_session_logs_for_user (db w) user_id).
Proof.
  intros Hr Hdb Hday. unfold _calculate_daily_usage, add_current_session. unfold_m.
  destruct w as [d ? ? ? ? ? ? ? ? ? ? ? ? ? ? ? ?]; cbn in *. subst.
  destruct d; [|congruence]. cbn. rewrite Hday. reflexivity.
Qed.

(** X2. [_cleanup_old_notifications] keeps the flag of a user whose
    identifier has no underscore exactly when the flag is set and its day is
    at most one day before the day of the call. *)
Theorem cleanup_keeps_recent_flags user_id d w :
  split_first "_" user_id = None → 1 <= d <= MAXORDINAL →
  let key := user_id +:+ "_" +:+ str_of_date d in
  key ∈ daily_limit_notifications (snd (_cleanup_old_notifications w))
  ↔ key ∈ daily_limit_notifications w ∧ date_of (clock w (ticks w)) - d <= 1.
Proof.
  intros Hid Hd key. unfold _cleanup_old_notifications. unfold_m.
  destruct w; cbn. rewrite elem_of_filter.
  unfold key. rewrite (to_remove_flag _ _ _ Hid Hd).
  rewrite Z.ltb_ge. tauto.
Qed.

(** X3. Once [_check_daily_limit] has raised the notice for a user whose
    identifier has no underscore, a second call on the same day raises
    nothing more. *)
Theorem daily_notice_once_per_day user_id name D w :
  split_first "_" user_id = None → 1 <= D <= MAXORDINAL →
  (∀ n, date_of (clock w n) = D) →
  let w1 := snd (_check_daily_limit user_id name w) in
  trace w1 ≠ trace w →
  trace (snd (_check_daily_limit user_id name w1)) = trace w1.
Proof.
  intros Hid HD Hday w1 Hfired.
  destruct (check_daily_limit_keeps user_id name w) as (_ & Hck & _).
  assert (Hday1 : ∀ n, date_of (clock w1 n) = D).
  { intros n. unfold w1. rewrite Hck. apply Hday. }
  apply (check_daily_limit_flagged user_id name D w1 Hday1).
  destruct (check_daily_limit_same_day user_id name D w Hday)
    as [[H _]|(_ & _ & H & _)]; [contradiction|].
  fold w1 in H. rewrite H. apply elem_of_filter. split.
  - rewrite (to_remove_flag _ _ _ Hid HD). apply Z.ltb_ge. lia.
  - apply elem_of_union_l, elem_of_singleton. reflexivity.
Qed.

Lemma cleanup_keeps_recent_flags_witness :
  "kid1" +:+ "_" +:+ str_of_date 738945
    ∈ daily_limit_notifications
        (snd (_cleanup_old_notifications (ana_app [] "2024-03-01 16:00:00")))
  ↔ "kid1" +:+ "_" +:+ str_of_date 738945
      ∈ daily_limit_notifications (ana_app [] "2024-03-01 16:00:00")
    ∧ date_of (clock (ana_app [] "2024-03-01 16:00:00")
                 (ticks (ana_app [] "2024-03-01 16:00:00"))) - 738945 <= 1.
Proof.
  exact (cleanup_keeps_recent_flags "kid1" 738945 (ana_app [] "2024-03-01 16:00:00")
           eq_refl ltac:(vm_compute; split; discriminate)).
Defined.

Lemma daily_notice_once_per_day_witness :
  let w1 := snd (_check_daily_limit "kid1" "Ana"
                   (ana_app morning_sessions "2024-03-01 16:00:00")) in
  trace (snd (_check_daily_limit "kid1" "Ana" w1)) = trace w1.
Proof.
  refine (daily_notice_once_per_day "kid1" "Ana" 738946
            (ana_app morning_sessions "2024-03-01 16:00:00") eq_refl _ _ _).
  - vm_compute. split; discriminate.
  - intros n. vm_compute. reflexivity.
  - vm_compute. discriminate.
Defined.

(** X4. For a user whose identifier has an underscore the flag of today does
    not survive the cleanup that follows the notice: with the timer stopped,
    a second call on the same day raises the notice again. *)
Theorem daily_notice_repeats_with_underscore user_id a b name D w :
  split_first "_" user_id = Some (a, b) →
  (∀ n, date_of (clock w n) = D) →
  kid_timer_running w = false →
  let w1 := snd (_check_daily_limit user_id name w) in
  trace w1 ≠ trace w →
  trace (snd (_check_daily_limit user_id name w1)) ≠ trace w1.
Proof.
  intros Hid Hday Hr w1 Hfired.
  destruct (check_daily_limit_keeps user_id name w) as (Hdb & Hck & Hrun & _).
  fold w1 in Hdb, Hck, Hrun.
  destruct (check_daily_limit_same_day user_id name D w Hday)
    as [[H _]|(_ & _ & Hf & u & limit & Hu & Hl & Hle)]; [contradiction|].
  fold w1 in Hf.
  assert (Hday1 : ∀ n, date_of (clock w1 n) = D)
    by (intros n; rewrite Hck; apply Hday).
  assert (Hdbn : db w ≠ None).
  { intros E. rewrite E in Hu. discriminate. }
  assert (Husage : fst (_calculate_daily_usage user_id w1)
                   = fst (_calculate_daily_usage user_id w)).
  { rewrite (calc_daily_usage_stopped user_id D w1), (calc_daily_usage_stopped user_id D w);
      try assumption; [rewrite Hdb; reflexivity | congruence | congruence]. }
  apply (check_daily_limit_threshold w1 user_id name u limit).
  - rewrite Hdb. exact Hu.
  - exact Hl.
  - destruct (calc_daily_usage_frame user_id w1) as [n ->].
    rewrite clock_set_ticks, Hday1, Hf. rewrite elem_of_filter.
    rewrite (to_remove_underscore D user_id a b D Hid). intros [? _]. discriminate.
  - rewrite Husage. exact Hle.
Qed.

Lemma daily_notice_repeats_with_underscore_witness :
  let w1 := snd (_check_daily_limit "kid_1" "Ana" underscore_app) in
  trace (snd (_check_daily_limit "kid_1" "Ana" w1)) ≠ trace w1.
Proof.
  refine (daily_notice_repeats_with_underscore "kid_1" "kid" "1" "Ana" 738946
            underscore_app eq_refl _ eq_refl _).
  - intros n. vm_compute. reflexivity.
  - vm_compute. discriminate.
Defined.

(** ** The flags of the block limit *)

Lemma check_block_limit_same_day user_id name D w :
  (∀ n, date_of (clock w n) = D) →
  let key := "block_" +:+ user_id +:+ "_" +:+ str_of_date D in
  let w' := snd (_check_block_limit user_id name w) in
  clock w' = clock w
  ∧ ((trace w' = trace w
      ∧ block_limit_notifications w' = block_limit_notifications w
      ∧ kid_rest_periods w' = kid_rest_periods w)
     ∨ ((key ∉ block_limit_notifications w)
        ∧ block_limit_notifications w' = {[key]} ∪ block_limit_notifications w
        ∧ ∃ e1 e2, trace w' = trace w ++ [e1; e2])).
Proof.
  intros Hday key w'. subst w'.
  unfold _check_block_limit, _start_rest_period. unfold_m. cbn.
  destruct (db w) eqn:E; cbn; [|split; [|left]; auto].
  destruct (get_user (Some g) user_id) as [u|]; cbn; [|split; [|left]; auto].
  destruct (max_session_minutes u) as [limit|]; cbn; [|split; [|left]; auto].
  destruct (default true (enforce_rest u)); cbn; [|split; [|left]; auto].
  destruct (calc_block_usage_frame user_id w) as [n ->].
  generalize (fst (_calculate_block_usage user_id w)). intros usage.
  destruct w; cbn in *. rewrite !Hday. fold key.
  destruct (bool_decide (key ∈ _)) eqn:Hk; cbn; [split; [|left]; auto|].
  apply bool_decide_eq_false in Hk.
  destruct (limit * 60 <=? usage); cbn; [|split; [|left]; auto].
  split; [reflexivity|]. right. split; [exact Hk|]. split; [reflexivity|].
  rewrite <- app_assoc. cbn. eauto.
Qed.

(** X5. The block flags are never cleaned: once [_check_block_limit] has
    started a break for a user on some day, a later call on that day raises
    nothing and starts no break, whatever the usage is by then. *)
Theorem block_limit_once_per_day user_id name D w :
  (∀ n, date_of (clock w n) = D) →
  let w1 := snd (_check_block_limit user_id name w) in
  let w2 := snd (_check_block_limit user_id name w1) in
  trace w1 ≠ trace w →
  trace w2 = trace w1 ∧ kid_rest_periods w2 = kid_rest_periods w1.
Proof.
  intros Hday w1 w2 Hfired.
  destruct (check_block_limit_same_day user_id name D w Hday) as [Hck H].
  fold w1 in Hck, H.
  destruct H as [(H & _)|(_ & Hf & _)]; [contradiction|].
  assert (Hday1 : ∀ n, date_of (clock w1 n) = D)
    by (intros n; rewrite Hck; apply Hday).
  destruct (check_block_limit_same_day user_id name D w1 Hday1) as [_ H].
  fold w2 in H. destruct H as [(H1 & _ & H2)|(Hk & _)]; [auto|].
  exfalso. apply Hk. rewrite Hf. apply elem_of_union_l, elem_of_singleton. reflexivity.
Qed.

Lemma block_limit_once_per_day_witness :
  let w1 := snd (_check_block_limit "kid1" "Ana"
                   (ana_app morning_sessions "2024-03-01 16:00:00")) in
  let w2 := snd (_check_block_limit "kid1" "Ana" w1) in
  trace w2 = trace w1 ∧ kid_rest_periods w2 = kid_rest_periods w1.
Proof.
  refine (block_limit_once_per_day "kid1" "Ana" 738946
            (ana_app morning_sessions "2024-03-01 16:00:00") _ _).
  - intros n. vm_compute. reflexivity.
  - vm_compute. discriminate.
Defined.

(** During a rest period the block usage reads as zero. *)
Lemma calc_block_usage_resting user_id w u rest :
  get_user (db w) user_id = Some u →
  kid_rest_periods w !! user_id = Some rest →
  clock w (ticks w) < rest_end rest →
  _calculate_block_usage user_id w = (0, set_ticks (S (ticks w)) w).
Proof.
  intros Hu Hr Hnow. unfold _calculate_block_usage, _is_user_in_rest. unfold_m. cbn.
  destruct (db w) eqn:E; [|discriminate]. rewrite Hu. cbn. rewrite Hr. cbn.
  replace (clock w (ticks w) <? rest_end rest) with true
    by (symmetry; apply Z.ltb_lt; exact Hnow).
  reflexivity.
Qed.

(** X6. While a user is in a rest period, [_check_block_limit] with a
    positive limit starts no new break: the block usage reads as zero. *)
Theorem no_break_during_rest user_id name w u limit rest :
  get_user (db w) user_id = Some u →
  max_session_minutes u = Some limit → 0 < limit →
  kid_rest_periods w !! user_id = Some rest →
  clock w (ticks w) < rest_end rest →
  let w' := snd (_check_block_limit user_id name w) in
  trace w' = trace w ∧ kid_rest_periods w' = kid_rest_periods w
  ∧ block_limit_notifications w' = block_limit_notifications w.
Proof.
  intros Hu Hl Hpos Hr Hnow w'. subst w'.
  pose proof (calc_block_usage_resting user_id w u rest Hu Hr Hnow) as Hz.
  unfold _check_block_limit. unfold_m. cbn.
  destruct (db w) eqn:E; [|discriminate].
  cbn. rewrite Hu. cbn. rewrite Hl. cbn.
  destruct (default true (enforce_rest u)); cbn; [|auto].
  rewrite Hz. cbn. clear Hz.
  destruct w; cbn in *.
  destruct (bool_decide _); cbn; [auto|].
  replace (limit * 60 <=? 0) with false by (symmetry; apply Z.leb_gt; lia).
  cbn. auto.
Qed.

Lemma no_break_during_rest_witness :
  let w' := snd (_check_block_limit "kid1" "Ana" (resting_app "2024-03-01 16:30:00")) in
  trace w' = trace (resting_app "2024-03-01 16:30:00")
  ∧ kid_rest_periods w' = kid_rest_periods (resting_app "2024-03-01 16:30:00")
  ∧ block_limit_notifications w'
    = block_limit_notifications (resting_app "2024-03-01 16:30:00").
Proof.
  refine (no_break_during_rest "kid1" "Ana" (resting_app "2024-03-01 16:30:00")
            (ana morning_sessions) 1
            (RestData (at_time "2024-03-01 16:00:00") 60) eq_refl eq_refl _ eq_refl _).
  - lia.
  - vm_compute. reflexivity.
Defined.

(** ** What the session controller leaves alone *)

Lemma ign_ret {A} (a : A) : ignores_breaks (ret a).
Proof. intros r b w. reflexivity. Qed.

Lemma ign_bind {A B} (m : M A) (k : A → M B) :
  ignores_breaks m → (∀ a, ignores_breaks (k a)) → ignores_breaks (bind m k).
Proof.
  intros Hm Hk r b w. unfold bind. cbv zeta. rewrite Hm. cbn [fst snd].
  rewrite Hk. reflexivity.
Qed.

Lemma ign_gets {A} (f : app → A) :
  (∀ r b w, f (with_breaks r b w) = f w) → ignores_breaks (gets f).
Proof. intros Hf r b w. unfold gets. rewrite Hf. reflexivity. Qed.

Lemma ign_modify (g : app → app) :
  (∀ r b w, g (with_breaks r b w) = with_breaks r b (g w)) → ignores_breaks (modify g).
Proof. intros Hg r b w. unfold modify. rewrite Hg. reflexivity. Qed.

Lemma ign_now : ignores_breaks now.
Proof. intros r b w. destruct w; reflexivity. Qed.

Lemma ign_emit e : ignores_breaks (emit e).
Proof. intros r b w. destruct w; reflexivity. Qed.

Lemma ign_askyesno t m : ignores_breaks (askyesno t m).
Proof. intros r b w. destruct w; reflexivity. Qed.

Ltac ign_field := let r := fresh in let b := fresh in let w := fresh in
  intros r b w; destruct w; reflexivity.

Ltac ign_step :=
  first
    [ apply ign_ret
    | apply ign_now
    | apply ign_emit
    | apply ign_askyesno
    | apply ign_gets; ign_field
    | apply ign_modify; ign_field
    | apply ign_bind; [|intros ?]
    | match goal with
      | |- ignores_breaks (match ?x with _ => _ end) => destruct x
      | |- ignores_breaks (if ?x then _ else _) => destruct x
      end
    | progress cbv zeta ].

Lemma add_current_session_ign user_id total :
  ignores_breaks (add_current_session user_id total).
Proof. unfold add_current_session. repeat ign_step. Qed.

Lemma calc_daily_usage_ign user_id : ignores_breaks (_calculate_daily_usage user_id).
Proof.
  unfold _calculate_daily_usage.
  repeat first [apply add_current_session_ign | ign_step].
Qed.

Lemma calc_daily_remaining_ign user_id :
  ignores_breaks (_calculate_daily_remaining user_id).
Proof.
  unfold _calculate_daily_remaining.
  repeat first [apply calc_daily_usage_ign | ign_step].
Qed.

Lemma update_display_ign : ignores_breaks _update_daily_time_display.
Proof.
  unfold _update_daily_time_display.
  repeat first [apply calc_daily_remaining_ign | ign_step].
Qed.

Lemma cleanup_ign : ignores_breaks _cleanup_old_notifications.
Proof. unfold _cleanup_old_notifications. repeat ign_step. Qed.

Lemma check_daily_limit_ign user_id name :
  ignores_breaks (_check_daily_limit user_id name).
Proof.
  unfold _check_daily_limit.
  repeat first [apply calc_daily_usage_ign | apply cleanup_ign | ign_step].
Qed.

Lemma lunch_gate_ign : ignores_breaks _is_lunch_routine_required.
Proof. unfold _is_lunch_routine_required. repeat ign_step. Qed.

Lemma update_kid_timer_ign : ignores_breaks _update_kid_timer.
Proof.
  unfold _update_kid_timer.
  repeat first [apply update_display_ign | ign_step].
Qed.

Lemma start_stop_timer_ign : ignores_breaks start_stop_timer.
Proof.
  unfold start_stop_timer.
  repeat first [ apply lunch_gate_ign | apply update_kid_timer_ign
               | apply check_daily_limit_ign | apply update_display_ign | ign_step ].
Qed.

(** X7. [start_stop_timer] neither reads nor writes the rest periods and the
    block flags: a click on Start/Stop in a state with other rest periods
    and block flags has the same effect on everything else and leaves them as
    they are.  In particular a break in progress refuses no start. *)
Theorem start_stop_ignores_breaks r b w :
  start_stop_timer (with_breaks r b w)
  = (fst (start_stop_timer w), with_breaks r b (snd (start_stop_timer w))).
Proof. apply start_stop_timer_ign. Qed.

(** ** The timer across a click *)

Arguments _update_kid_timer : simpl never.
Arguments _update_daily_time_display : simpl never.
Arguments _check_daily_limit : simpl never.
Arguments _is_lunch_routine_required : simpl never.
Arguments _calculate_daily_usage : simpl never.
Arguments _calculate_daily_remaining : simpl never.

Lemma check_daily_limit_timer user_id name w :
  kid_timer_running (snd (_check_daily_limit user_id name w)) = kid_timer_running w
  ∧ kid_timer_start_time (snd (_check_daily_limit user_id name w))
    = kid_timer_start_time w.
Proof.
  destruct (check_daily_limit_keeps user_id name w) as (_ & _ & H1 & H2 & _). auto.
Qed.

Lemma update_display_timer w :
  kid_timer_running (snd (_update_daily_time_display w)) = kid_timer_running w
  ∧ kid_timer_start_time (snd (_update_daily_time_display w)) = kid_timer_start_time w.
Proof.
  destruct (update_display_frame w) as (n & l & ->). destruct w; auto.
Qed.

Lemma update_kid_timer_timer w :
  kid_timer_running (snd (_update_kid_timer w)) = kid_timer_running w
  ∧ kid_timer_start_time (snd (_update_kid_timer w)) = kid_timer_start_time w.
Proof.
  destruct (update_kid_timer_frame w) as (n & l & tl & ->). destruct w; auto.
Qed.

Lemma lunch_gate_timer w :
  kid_timer_running (snd (_is_lunch_routine_required w)) = kid_timer_running w
  ∧ kid_timer_start_time (snd (_is_lunch_routine_required w)) = kid_timer_start_time w.
Proof.
  destruct (lunch_gate_frame w) as (n & a & tr & lc & ->). destruct w; auto.
Qed.

(** After a click on a running timer the timer is stopped and has no start
    time. *)
Lemma stop_timer_state w :
  kid_timer_running w = true →
  kid_timer_running (snd (start_stop_timer w)) = false
  ∧ kid_timer_start_time (snd (start_stop_timer w)) = None.
Proof.
  intros Hr. unfold start_stop_timer. unfold_m. rewrite Hr. cbn.
  match goal with
  | |- context [set_kid_timer_label "00:00:00" (snd (_update_daily_time_display ?x))] =>
      destruct (update_display_timer x) as [H1 H2]; revert H1 H2;
      generalize (snd (_update_daily_time_display x)); intros w2 H1 H2
  end.
  assert (Hgoal : kid_timer_running w2 = false →
                  kid_timer_running
                    (set_kid_timer_start_time None (set_kid_timer_label "00:00:00" w2))
                  = false
                  ∧ kid_timer_start_time
                      (set_kid_timer_start_time None (set_kid_timer_label "00:00:00" w2))
                    = None)
    by (destruct w2; cbn; auto).
  apply Hgoal. rewrite H1. clear Hgoal H1 H2 w2.
  destruct (kid_timer_start_time (set_ticks _ _)) eqn:Et; cbn.
  2:{ destruct w; reflexivity. }
  destruct (current_kid_user (set_ticks _ _)) as [u|] eqn:Eu; cbn.
  2:{ destruct w; reflexivity. }
  destruct (uid u) as [i|]; cbn.
  2:{ destruct w; reflexivity. }
  destruct (String.eqb i ""); cbn.
  { destruct w; reflexivity. }
  match goal with
  | |- context [snd (_check_daily_limit ?a ?b ?x)] =>
      destruct (check_daily_limit_timer a b x) as [H1 _]; revert H1;
      generalize (snd (_check_daily_limit a b x)); intros w3 H1
  end.
  transitivity (kid_timer_running w3); [destruct w3; reflexivity|].
  rewrite H1. destruct w; reflexivity.
Qed.

(** X8. A click on Start/Stop keeps the timer consistent: it runs exactly
    when it has a start time, whether the click starts a session, stops one
    or is refused by a gate. *)
Theorem timer_stays_consistent w :
  timer_consistent w → timer_consistent (snd (start_stop_timer w)).
Proof.
  intros H. destruct (kid_timer_running w) eqn:Hr.
  - destruct (stop_timer_state w Hr) as [H1 H2].
    unfold timer_consistent. rewrite H2, H1. reflexivity.
  - assert (Hs : kid_timer_start_time w = None).
    { unfold timer_consistent in H. destruct (kid_timer_start_time w); congruence. }
    unfold start_stop_timer. unfold_m. rewrite Hr. cbn.
    destruct (lunch_gate_timer w) as [H1 H2]. rewrite Hr in H1. rewrite Hs in H2.
    revert H1 H2.
    generalize (snd (_is_lunch_routine_required w)) (fst (_is_lunch_routine_required w)).
    intros w1 req H1 H2.
    destruct req; cbn.
    { unfold timer_consistent. rewrite H2, H1. reflexivity. }
    destruct w1; cbn in *; subst.
    repeat (case_match; cbn);
      try (unfold timer_consistent; cbn; reflexivity);
      match goal with
      | |- timer_consistent (snd (_update_kid_timer ?x)) =>
          destruct (update_kid_timer_timer x) as [A B];
          unfold timer_consistent; rewrite A, B; reflexivity
      end.
Qed.

Lemma timer_stays_consistent_witness :
  timer_consistent (snd (start_stop_timer stopping_app)).
Proof.
  apply (timer_stays_consistent stopping_app). reflexivity.
Defined.

(** ** What a method leaves as it was *)

Lemma keeps_ret {A B} (f : app → B) (a : A) : keeps f (ret a).
Proof. intros w. reflexivity. Qed.

Lemma keeps_bind {A A' B} (f : app → B) (m : M A) (k : A → M A') :
  keeps f m → (∀ a, keeps f (k a)) → keeps f (bind m k).
Proof. intros Hm Hk w. unfold bind. cbv zeta. rewrite Hk, Hm. reflexivity. Qed.

Lemma keeps_gets {A B} (f : app → B) (g : app → A) : keeps f (gets g).
Proof. intros w. reflexivity. Qed.

Lemma keeps_modify {B} (f : app → B) (g : app → app) :
  (∀ w, f (g w) = f w) → keeps f (modify g).
Proof. intros Hg w. apply Hg. Qed.

Lemma keeps_now {B} (f : app → B) :
  (∀ n w, f (set_ticks n w) = f w) → keeps f now.
Proof. intros Hf w. apply Hf. Qed.

Lemma keeps_emit {B} (f : app → B) e :
  (∀ tr w, f (set_trace tr w) = f w) → keeps f (emit e).
Proof. intros Hf w. apply Hf. Qed.

Lemma keeps_askyesno {B} (f : app → B) t m :
  (∀ tr w, f (set_trace tr w) = f w) → (∀ n w, f (set_asked n w) = f w) →
  keeps f (askyesno t m).
Proof. intros H1 H2 w. unfold askyesno. cbn. rewrite H1, H2. reflexivity. Qed.

Ltac keeps_field := intros; match goal with w : app |- _ => destruct w; reflexivity end.

Ltac keeps_step :=
  first
    [ apply keeps_ret
    | apply keeps_gets
    | apply keeps_now; keeps_field
    | apply keeps_emit; keeps_field
    | apply keeps_askyesno; keeps_field
    | apply keeps_modify; keeps_field
    | apply keeps_bind; [|intros ?]
    | match goal with
      | |- keeps _ (match ?x with _ => _ end) => destruct x
      | |- keeps _ (if ?x then _ else _) => destruct x
      end
    | progress cbv zeta ].

Lemma add_current_session_keeps_clock user_id total :
  keeps clock (add_current_session user_id total).
Proof. unfold add_current_session. repeat keeps_step. Qed.

Lemma add_current_session_keeps_db user_id total :
  keeps db (add_current_session user_id total).
Proof. unfold add_current_session. repeat keeps_step. Qed.

Lemma calc_daily_usage_keeps_clock user_id : keeps clock (_calculate_daily_usage user_id).
Proof.
  unfold _calculate_daily_usage.
  repeat first [apply add_current_session_keeps_clock | keeps_step].
Qed.

Lemma calc_daily_usage_keeps_db user_id : keeps db (_calculate_daily_usage user_id).
Proof.
  unfold _calculate_daily_usage.
  repeat first [apply add_current_session_keeps_db | keeps_step].
Qed.

Lemma calc_daily_remaining_keeps_clock user_id :
  keeps clock (_calculate_daily_remaining user_id).
Proof.
  unfold _calculate_daily_remaining.
  repeat first [apply calc_daily_usage_keeps_clock | keeps_step].
Qed.

Lemma calc_daily_remaining_keeps_db user_id :
  keeps db (_calculate_daily_remaining user_id).
Proof.
  unfold _calculate_daily_remaining.
  repeat first [apply calc_daily_usage_keeps_db | keeps_step].
Qed.

Lemma update_display_keeps_clock : keeps clock _update_daily_time_display.
Proof.
  unfold _update_daily_time_display.
  repeat first [apply calc_daily_remaining_keeps_clock | keeps_step].
Qed.

Lemma update_display_keeps_db : keeps db _update_daily_time_display.
Proof.
  unfold _update_daily_time_display.
  repeat first [apply calc_daily_remaining_keeps_db | keeps_step].
Qed.

Lemma check_daily_limit_keeps_clock user_id name :
  keeps clock (_check_daily_limit user_id name).
Proof. intros w. apply check_daily_limit_keeps. Qed.

Lemma check_daily_limit_keeps_db user_id name :
  keeps db (_check_daily_limit user_id name).
Proof. intros w. apply check_daily_limit_keeps. Qed.

Lemma lunch_gate_keeps_clock : keeps clock _is_lunch_routine_required.
Proof. unfold _is_lunch_routine_required. repeat keeps_step. Qed.

Lemma update_kid_timer_keeps_clock : keeps clock _update_kid_timer.
Proof.
  unfold _update_kid_timer.
  repeat first [apply update_display_keeps_clock | keeps_step].
Qed.

(** No click changes the clock. *)
Lemma start_stop_timer_keeps_clock : keeps clock start_stop_timer.
Proof.
  unfold start_stop_timer.
  repeat first [ apply lunch_gate_keeps_clock | apply update_kid_timer_keeps_clock
               | apply check_daily_limit_keeps_clock | apply update_display_keeps_clock
               | keeps_step ].
Qed.

Lemma db_set_kid_timer_start_time v w : db (set_kid_timer_start_time v w) = db w.
Proof. destruct w; reflexivity. Qed.
Lemma db_set_kid_timer_label v w : db (set_kid_timer_label v w) = db w.
Proof. destruct w; reflexivity. Qed.
Lemma db_set_kid_session_log v w : db (set_kid_session_log v w) = db w.
Proof. destruct w; reflexivity. Qed.

(** The collection after the stop of a running session. *)
Lemma stop_db w u t0 :
  kid_timer_running w = true →
  kid_timer_start_time w = Some t0 →
  current_kid_user w = Some u →
  db (snd (start_stop_timer w))
  = fst (add_session_log_to_user (db w) (uid u) (stop_entry w t0)).
Proof.
  intros Hr Hs Hu. unfold start_stop_timer, stop_entry. unfold_m.
  destruct w; cbn in *; subst; cbn.
  rewrite db_set_kid_timer_start_time, db_set_kid_timer_label, update_display_keeps_db.
  destruct (uid u) as [i|] eqn:Ei; cbn; [|reflexivity].
  destruct (String.eqb i ""); cbn; [reflexivity|].
  rewrite db_set_kid_session_log, check_daily_limit_keeps_db. reflexivity.
Qed.

(** ** A stopped session in the usage of the day *)

Lemma logs_after_add d user_id doc e :
  d !! user_id = Some doc →
  get_session_logs_for_user (fst (add_session_log_to_user (Some d) (Some user_id) e))
    user_id
  = array_union (default [] (sessions doc)) e.
Proof.
  intros Hd. unfold add_session_log_to_user, update_sessions, get_session_logs_for_user.
  rewrite Hd. cbn. rewrite lookup_insert_eq. reflexivity.
Qed.

Lemma stored_seconds_snoc win l e :
  stored_seconds win (l ++ [e]) = add_session_seconds win (stored_seconds win l) e.
Proof. unfold stored_seconds. rewrite fold_left_app. reflexivity. Qed.

Lemma date_of_whole_second t : date_of (t - t mod us_per_second) = date_of t.
Proof.
  unfold date_of, us_per_day, us_per_second.
  pose proof (Z.div_mod t (86400 * 1000000) ltac:(lia)) as E.
  pose proof (Z.mod_pos_bound t (86400 * 1000000) ltac:(lia)) as B.
  assert (M : t mod 1000000 = (t mod (86400 * 1000000)) mod 1000000)
    by (symmetry; apply Z.mod_mod_divide; exists 86400; reflexivity).
  pose proof (Z.mod_pos_bound (t mod (86400 * 1000000)) 1000000 ltac:(lia)) as B'.
  pose proof (Z.mod_le (t mod (86400 * 1000000)) 1000000 ltac:(lia) ltac:(lia)) as L.
  symmetry.
  apply (Z.div_unique _ _ _ (t mod (86400 * 1000000) - t mod 1000000)); lia.
Qed.

(** X9. After the stop of a running session of the day, the daily usage is
    the sum over the sessions stored before plus the whole seconds from the
    start to the stop: what the live timer counted has become a stored
    session (the stored array takes the session unless an identical one is
    there already). *)
Theorem stop_keeps_usage w u user_id t0 d doc D :
  kid_timer_running w = true →
  kid_timer_start_time w = Some t0 →
  current_kid_user w = Some u →
  uid u = Some user_id →
  db w = Some d →
  d !! user_id = Some doc →
  stop_entry w t0 ∉ default [] (sessions doc) →
  1 <= D <= MAXORDINAL →
  date_of t0 = D →
  (∀ n, date_of (clock w n) = D) →
  fst (_calculate_daily_usage user_id (snd (start_stop_timer w)))
  = stored_seconds (daily_window D) (default [] (sessions doc))
    + int_total_seconds (clock w (ticks w) - t0).
Proof.
  intros Hr Hs Hu Hid Hdb Hdoc Hnew HD Ht0 Hday.
  pose proof (stop_db w u t0 Hr Hs Hu) as Hdb'.
  rewrite Hid, Hdb in Hdb'.
  destruct (stop_timer_state w Hr) as [Hrun _].
  rewrite (calc_daily_usage_stopped user_id D).
  - rewrite Hdb', (logs_after_add d user_id doc _ Hdoc).
    unfold array_union. rewrite bool_decide_false by exact Hnew.
    rewrite stored_seconds_snoc. unfold stop_entry.
    rewrite written_session_read_back by (rewrite Ht0; exact HD).
    unfold daily_window at 1. rewrite date_of_whole_second, Ht0, Z.eqb_refl.
    reflexivity.
  - exact Hrun.
  - rewrite Hdb'. unfold add_session_log_to_user, update_sessions. rewrite Hdoc.
    discriminate.
  - intros n. rewrite start_stop_timer_keeps_clock. apply Hday.
Qed.

Lemma stop_keeps_usage_witness :
  fst (_calculate_daily_usage "kid1" (snd (start_stop_timer stopping_app)))
  = stored_seconds (daily_window 738946) (default [] (sessions (ana morning_sessions)))
    + int_total_seconds (clock stopping_app (ticks stopping_app)
                         - at_time "2024-03-01 15:58:00").
Proof.
  refine (stop_keeps_usage stopping_app (ana morning_sessions) "kid1"
            (at_time "2024-03-01 15:58:00") {["kid1" := ana morning_sessions]}
            (ana morning_sessions) 738946
            eq_refl eq_refl eq_refl eq_refl eq_refl eq_refl _ _ _ _).
  - apply (bool_decide_eq_false_1 _). vm_compute. reflexivity.
  - vm_compute. split; discriminate.
  - vm_compute. reflexivity.
  - intros n. vm_compute. reflexivity.
Defined.

(** ** The overlap test as an invariant of the stored log *)

Lemma overlaps_interval sx ex y sy ey :
  interval y = Some (sy, ey) →
  overlaps sx ex y = (sx <? ey) && (sy <? ex).
Proof.
  unfold interval, overlaps. intros H.
  destruct (strptime (default "" (start y)) FMT_YmdHMS); [|discriminate].
  destruct (strptime (default "" (stop y)) FMT_YmdHMS); [|discriminate].
  injection H as -> ->. reflexivity.
Qed.

Lemma overlaps_no_interval sx ex y : interval y = None → overlaps sx ex y = false.
Proof.
  unfold interval, overlaps. intros H.
  destruct (strptime (default "" (start y)) FMT_YmdHMS); [|reflexivity].
  destruct (strptime (default "" (stop y)) FMT_YmdHMS); [discriminate | reflexivity].
Qed.

(** The test is symmetric. *)
Lemma overlaps_sym x y sx ex sy ey :
  interval x = Some (sx, ex) → interval y = Some (sy, ey) →
  overlaps sx ex y = overlaps sy ey x.
Proof.
  intros Hx Hy. rewrite (overlaps_interval _ _ _ _ _ Hx), (overlaps_interval _ _ _ _ _ Hy).
  apply andb_comm.
Qed.

Lemma find_none_others sd ed idx (l : list session) j y :
  List.find (overlaps sd ed) (others idx l) = None →
  l !! j = Some y → j ≠ idx → overlaps sd ed y = false.
Proof.
  intros Hf Hl Hne.
  apply (find_none _ _ Hf). apply list_elem_of_In. eapply others_elem; eassumption.
Qed.

(** Replacing the session at [idx] by one that overlaps none of the others
    keeps the list free of overlaps. *)
Lemma no_overlap_insert l idx new sd ed :
  no_overlap l → interval new = Some (sd, ed) →
  List.find (overlaps sd ed) (others idx l) = None →
  no_overlap (<[idx := new]> l).
Proof.
  intros Hl Hnew Hf i j x y sx ex Hij Hi Hj Hx.
  destruct (decide (i = idx)) as [->|Hi'];
    [|destruct (decide (j = idx)) as [->|Hj']].
  - rewrite list_lookup_insert_ne in Hj by congruence.
    apply list_lookup_insert_Some in Hi as [(_ & <- & _)|[? _]]; [|congruence].
    rewrite Hnew in Hx. injection Hx as <- <-.
    eapply find_none_others; [exact Hf | exact Hj | congruence].
  - rewrite list_lookup_insert_ne in Hi by congruence.
    apply list_lookup_insert_Some in Hj as [(_ & <- & _)|[? _]]; [|congruence].
    rewrite (overlaps_sym x new sx ex sd ed Hx Hnew).
    eapply find_none_others; [exact Hf | exact Hi | congruence].
  - rewrite list_lookup_insert_ne in Hi by congruence.
    rewrite list_lookup_insert_ne in Hj by congruence.
    exact (Hl i j x y sx ex Hij Hi Hj Hx).
Qed.

(** Appending a session that overlaps none of the list keeps the list free
    of overlaps. *)
Lemma no_overlap_snoc l new sd ed :
  no_overlap l → interval new = Some (sd, ed) →
  List.find (overlaps sd ed) l = None →
  no_overlap (l ++ [new]).
Proof.
  intros Hl Hnew Hf i j x y sx ex Hij Hi Hj Hx.
  assert (Hin : ∀ k z, l !! k = Some z → overlaps sd ed z = false).
  { intros k z Hk. apply (find_none _ _ Hf). apply list_elem_of_In.
    eapply list_elem_of_lookup_2. exact Hk. }
  apply lookup_app_Some in Hi as [Hi|[Hil Hi]];
    apply lookup_app_Some in Hj as [Hj|[Hjl Hj]].
  - exact (Hl i j x y sx ex Hij Hi Hj Hx).
  - apply list_lookup_singleton_Some in Hj as [_ <-].
    rewrite (overlaps_sym x new sx ex sd ed Hx Hnew). eapply Hin. exact Hi.
  - apply list_lookup_singleton_Some in Hi as [_ <-].
    rewrite Hnew in Hx. injection Hx as <- <-. eapply Hin. exact Hj.
  - apply list_lookup_singleton_Some in Hi as [Hi0 _].
    apply list_lookup_singleton_Some in Hj as [Hj0 _]. lia.
Qed.

Lemma logs_after_update d user_id l d' user_id' :
  update_sessions d user_id l = Some d' →
  get_session_logs_for_user (Some d') user_id'
  = if bool_decide (user_id' = user_id) then l
    else get_session_logs_for_user (Some d) user_id'.
Proof.
  unfold update_sessions, get_session_logs_for_user. intros H.
  destruct (d !! user_id) as [doc|] eqn:E; [|discriminate]. injection H as <-.
  destruct (bool_decide_reflect (user_id' = user_id)) as [->|Hne].
  - rewrite lookup_insert_eq. reflexivity.
  - rewrite lookup_insert_ne by congruence. reflexivity.
Qed.

(** What [edit_selected_log] does to the collection: nothing, or the
    replacement of one stored session by the one typed in, which parses and
    overlaps none of the other sessions of the user. *)
Lemma edit_selected_log_db selected ns ne nd w :
  let w' := snd (edit_selected_log selected ns ne nd w) in
  db w' = db w
  ∨ ∃ d d' user_id idx new_start new_stop new_duration sd ed,
      db w = Some d ∧ db w' = Some d'
      ∧ strptime new_start FMT_YmdHMS = Some sd
      ∧ strptime new_stop FMT_YmdHMS = Some ed
      ∧ List.find (overlaps sd ed)
          (others idx (get_session_logs_for_user (Some d) user_id)) = None
      ∧ update_sessions d user_id
          (<[idx := Session (Some new_start) (Some new_stop) (Some new_duration)]>
             (get_session_logs_for_user (Some d) user_id)) = Some d'.
Proof.
  cbv zeta. unfold edit_selected_log. unfold_m.
  destruct w as [d ? ? ? ? ? ? ? ? ? ? ? ? ? ? ? ?]; cbn.
  destruct d as [d|]; cbn; [|left; reflexivity].
  destruct selected as [iid|]; cbn; [|left; reflexivity].
  destruct (split_on ":" iid) as [|user_id [|idx_s rest]]; cbn; try (left; reflexivity).
  destruct (py_int idx_s) as [session_idx|]; cbn; [|left; reflexivity].
  destruct (_ && _); cbn; [|left; reflexivity].
  destruct ns as [new_start|]; cbn; [|left; reflexivity].
  destruct ne as [new_stop|]; cbn; [|left; reflexivity].
  destruct nd as [new_duration|]; cbn; [|left; reflexivity].
  destruct (strptime new_start FMT_YmdHMS) as [sd|] eqn:Es; cbn; [|left; reflexivity].
  destruct (strptime new_stop FMT_YmdHMS) as [ed|] eqn:Ee; cbn; [|left; reflexivity].
  destruct (ed <? sd); cbn; [left; reflexivity|].
  destruct (List.find _ _) eqn:Ef; cbn; [left; reflexivity|].
  destruct (update_sessions _ _ _) as [d'|] eqn:Eu; cbn; [|left; reflexivity].
  right. exists d, d', user_id, (Z.to_nat session_idx), new_start, new_stop,
    new_duration, sd, ed.
  repeat split; assumption || reflexivity.
Qed.

(** X10. [edit_selected_log] keeps the stored sessions of every user free of
    overlaps: if no stored session overlapped another one before the edit,
    none does after it. *)
Theorem edit_keeps_no_overlap selected ns ne nd w user_id :
  no_overlap (get_session_logs_for_user (db w) user_id) →
  no_overlap (get_session_logs_for_user
                (db (snd (edit_selected_log selected ns ne nd w))) user_id).
Proof.
  intros H.
  destruct (edit_selected_log_db selected ns ne nd w)
    as [->|(d & d' & uid' & idx & s1 & s2 & s3 & sd & ed
            & Hd & -> & Hs & He & Hf & Hu)]; [exact H|].
  rewrite Hd in H. rewrite (logs_after_update _ _ _ _ user_id Hu).
  destruct (bool_decide_reflect (user_id = uid')) as [->|_]; [|exact H].
  apply (no_overlap_insert _ _ _ sd ed H); [|exact Hf].
  unfold interval. cbn. rewrite Hs, He. reflexivity.
Qed.

Lemma no_overlap_b_spec l : no_overlap_b l = true → no_overlap l.
Proof.
  unfold no_overlap_b. intros H i j x y sx ex Hij Hi Hj Hx.
  rewrite forallb_forall in H.
  assert (Pi : In (i, x) (imap pair l))
    by (apply list_elem_of_In, elem_of_lookup_imap; eauto).
  assert (Pj : In (j, y) (imap pair l))
    by (apply list_elem_of_In, elem_of_lookup_imap; eauto).
  specialize (H _ Pi). rewrite forallb_forall in H. specialize (H _ Pj).
  cbn in H. rewrite Hx in H.
  apply orb_prop in H as [H|H].
  - apply Nat.eqb_eq in H. contradiction.
  - apply negb_true_iff in H. exact H.
Qed.

Lemma edit_keeps_no_overlap_witness :
  no_overlap (get_session_logs_for_user
                (db (snd (edit_selected_log (Some "kid1:0")
                            (Some "2024-03-01 10:30:00") (Some "2024-03-01 10:45:00")
                            (Some "00:15:00")
                            (ana_app two_sessions "2024-03-01 16:00:00")))) "kid1").
Proof.
  apply (edit_keeps_no_overlap (Some "kid1:0")
           (Some "2024-03-01 10:30:00") (Some "2024-03-01 10:45:00") (Some "00:15:00")
           (ana_app two_sessions "2024-03-01 16:00:00") "kid1").
  apply no_overlap_b_spec. vm_compute. reflexivity.
Defined.

(** ** Instants that [strptime] returns *)

Lemma days_before_year_bounds y :
  1 <= y <= 9998 → 0 <= days_before_year y ∧ days_before_year y + 366 <= MAXORDINAL.
Proof.
  intros Hy. unfold days_before_year, MAXORDINAL. cbv zeta.
  pose proof (Z.div_mod (y - 1) 4 ltac:(lia)).
  pose proof (Z.mod_pos_bound (y - 1) 4 ltac:(lia)).
  pose proof (Z.div_mod (y - 1) 100 ltac:(lia)).
  pose proof (Z.mod_pos_bound (y - 1) 100 ltac:(lia)).
  pose proof (Z.div_mod (y - 1) 400 ltac:(lia)).
  pose proof (Z.mod_pos_bound (y - 1) 400 ltac:(lia)).
  lia.
Qed.

Lemma day_of_year_bounds y m dd :
  1 <= m <= 12 → 1 <= dd <= days_in_month y m →
  1 <= days_before_month y m + dd <= 365 + (if is_leap y then 1 else 0).
Proof.
  intros Hm Hd. unfold days_before_month, days_in_month, DAYS_IN_MONTH,
    DAYS_BEFORE_MONTH in *.
  assert (Cases : m = 1 ∨ m = 2 ∨ m = 3 ∨ m = 4 ∨ m = 5 ∨ m = 6 ∨ m = 7 ∨ m = 8
                  ∨ m = 9 ∨ m = 10 ∨ m = 11 ∨ m = 12) by lia.
  revert Hd.
  destruct (is_leap y);
    repeat (destruct Cases as [->|Cases];
            [ match goal with
              | |- context [Z.to_nat (?c - 1)] =>
                  let v := eval vm_compute in (Z.to_nat (c - 1)) in
                  change (Z.to_nat (c - 1)) with v
              end; cbn; lia |]);
    subst;
    match goal with
    | |- context [Z.to_nat (?c - 1)] =>
        let v := eval vm_compute in (Z.to_nat (c - 1)) in
        change (Z.to_nat (c - 1)) with v
    end; cbn; lia.
Qed.

Lemma ymd2ord_bounds y m dd :
  1 <= y <= 9999 → 1 <= m <= 12 → 1 <= dd <= days_in_month y m →
  1 <= ymd2ord y m dd <= MAXORDINAL.
Proof.
  intros Hy Hm Hd. pose proof (day_of_year_bounds y m dd Hm Hd) as B.
  unfold ymd2ord. destruct (decide (y = 9999)) as [->|Hne].
  - change (is_leap 9999) with false in B.
    change (days_before_year 9999) with 3651694. unfold MAXORDINAL. lia.
  - destruct (days_before_year_bounds y ltac:(lia)). destruct (is_leap y); lia.
Qed.

Lemma mk_datetime_range y m dd h mi s t :
  mk_datetime y m dd h mi s = Some t →
  1 <= date_of t <= MAXORDINAL ∧ t mod us_per_second = 0.
Proof.
  unfold mk_datetime. destruct (_ && _) eqn:E; [|discriminate]. intros [= <-].
  repeat (apply andb_prop in E as [E ?]).
  repeat match goal with H : (_ <=? _) = true |- _ => apply Z.leb_le in H end.
  pose proof (ymd2ord_bounds y m dd ltac:(lia) ltac:(lia) ltac:(lia)) as B.
  split.
  - replace (date_of _) with (ymd2ord y m dd); [exact B|].
    unfold date_of, us_per_day, us_per_second.
    apply (Z.div_unique _ _ _ ((h * 3600 + mi * 60 + s) * 1000000)); lia.
  - unfold us_per_day. rewrite Z.mul_assoc, <- Z.mul_add_distr_r.
    apply Z.mod_mul. discriminate.
Qed.

Lemma strptime_range s fmt t :
  strptime s fmt = Some t →
  1 <= date_of t <= MAXORDINAL ∧ t mod us_per_second = 0.
Proof.
  unfold strptime. destruct (match_items fmt s) as [[fs r]|]; [|discriminate].
  destruct r; [|discriminate]. apply mk_datetime_range.
Qed.

(** The text of an instant that [strptime] returned reads back as it. *)
Lemma strptime_strftime_parsed s fmt t :
  strptime s fmt = Some t → strptime (strftime_YmdHMS t) FMT_YmdHMS = Some t.
Proof.
  intros H. destruct (strptime_range s fmt t H) as [R W].
  rewrite (strptime_strftime t R), W. f_equal. lia.
Qed.

(** ** Manual entries *)

Lemma date_of_next_day t : date_of (t + timedelta_days 1) = date_of t + 1.
Proof.
  unfold date_of, timedelta_days. rewrite Z.mul_1_l.
  replace (t + us_per_day) with (t + 1 * us_per_day) by ring.
  apply Z.div_add. discriminate.
Qed.

Lemma next_day_whole_second t :
  t mod us_per_second = 0 → (t + timedelta_days 1) mod us_per_second = 0.
Proof.
  intros H. unfold timedelta_days, us_per_day.
  replace (t + 1 * (86400 * us_per_second)) with (t + 86400 * us_per_second) by ring.
  rewrite Z.mod_add by discriminate. exact H.
Qed.

(** The bounds that [ManualEntryDialog.save] computes are instants of the
    calendar at whole seconds. *)
Lemma entry_of_form_range date start_s stop_s sd ed dstr :
  entry_of_form date start_s stop_s = Some (sd, ed, dstr) →
  (1 <= date_of sd <= MAXORDINAL ∧ sd mod us_per_second = 0)
  ∧ (1 <= date_of ed <= MAXORDINAL ∧ ed mod us_per_second = 0).
Proof.
  unfold entry_of_form.
  destruct (strptime (date +:+ " " +:+ start_s) FMT_YmdHM) as [a|] eqn:Ea; [|discriminate].
  destruct (strptime (date +:+ " " +:+ stop_s) FMT_YmdHM) as [b|] eqn:Eb; [|discriminate].
  destruct (strptime_range _ _ _ Ea) as [Ra Wa].
  destruct (strptime_range _ _ _ Eb) as [Rb Wb].
  cbv zeta. destruct (b <? a) eqn:Hs; cbn [andb].
  - destruct (MAXORDINAL <? date_of (b + timedelta_days 1)) eqn:Hm; [discriminate|].
    intros [= <- <- _]. apply Z.ltb_ge in Hm.
    split; [auto|]. split; [|apply next_day_whole_second; exact Wb].
    rewrite date_of_next_day in *. lia.
  - intros [= <- <- _]. auto.
Qed.

Lemma strptime_strftime_whole t :
  1 <= date_of t <= MAXORDINAL → t mod us_per_second = 0 →
  strptime (strftime_YmdHMS t) FMT_YmdHMS = Some t.
Proof. intros R W. rewrite (strptime_strftime t R), W. f_equal. lia. Qed.

(** What [ManualEntryDialog.save] does to the collection: nothing, or the
    addition of the session typed in, which overlaps none of the stored
    sessions of the user. *)
Lemma ManualEntryDialog_save_db user_id date start_s stop_s w :
  let w' := snd (ManualEntryDialog_save user_id date start_s stop_s w) in
  db w' = db w
  ∨ ∃ d d' sd ed dstr,
      db w = Some d ∧ db w' = Some d'
      ∧ entry_of_form date start_s stop_s = Some (sd, ed, dstr)
      ∧ sd <= ed
      ∧ List.find (overlaps sd ed) (get_session_logs_for_user (Some d) user_id) = None
      ∧ update_sessions d user_id
          (get_session_logs_for_user (Some d) user_id
           ++ [Session (Some (strftime_YmdHMS sd)) (Some (strftime_YmdHMS ed))
                       (Some dstr)]) = Some d'.
Proof.
  cbv zeta. unfold ManualEntryDialog_save. unfold_m.
  destruct (entry_of_form date start_s stop_s) as [[[sd ed] dstr]|] eqn:Ef;
    [|destruct w; left; reflexivity].
  destruct (ed <? sd) eqn:Hlt; [destruct w; left; reflexivity|].
  apply Z.ltb_ge in Hlt.
  destruct w as [d ? ? ? ? ? ? ? ? ? ? ? ? ? ? ? ?]; cbn.
  destruct (List.find _ _) eqn:Efind; cbn; [left; reflexivity|].
  destruct d as [d|]; cbn; [|left; reflexivity].
  destruct (update_sessions _ _ _) as [d'|] eqn:Eu; cbn; [|left; reflexivity].
  right. exists d, d', sd, ed, dstr. repeat split; assumption || reflexivity.
Qed.

(** X11. [ManualEntryDialog.save] keeps the stored sessions of every user
    free of overlaps: the session it adds is stored with the bounds that the
    overlap test was run on. *)
Theorem save_keeps_no_overlap dialog_user date start_s stop_s w user_id :
  no_overlap (get_session_logs_for_user (db w) user_id) →
  no_overlap (get_session_logs_for_user
                (db (snd (ManualEntryDialog_save dialog_user date start_s stop_s w)))
                user_id).
Proof.
  intros H.
  destruct (ManualEntryDialog_save_db dialog_user date start_s stop_s w)
    as [->|(d & d' & sd & ed & dstr & Hd & -> & Hf & Hle & Hfind & Hu)]; [exact H|].
  rewrite Hd in H. rewrite (logs_after_update _ _ _ _ user_id Hu).
  destruct (bool_decide_reflect (user_id = dialog_user)) as [->|_]; [|exact H].
  destruct (entry_of_form_range _ _ _ _ _ _ Hf) as [[Rs Ws] [Re We]].
  apply (no_overlap_snoc _ _ sd ed H); [|exact Hfind].
  unfold interval. cbn.
  rewrite (strptime_strftime_whole sd Rs Ws), (strptime_strftime_whole ed Re We).
  reflexivity.
Qed.

Lemma save_keeps_no_overlap_witness :
  no_overlap (get_session_logs_for_user
                (db (snd (ManualEntryDialog_save "kid1" "2024-03-01" "12:00" "12:20"
                            (ana_app two_sessions "2024-03-01 16:00:00")))) "kid1").
Proof.
  apply (save_keeps_no_overlap "kid1" "2024-03-01" "12:00" "12:20"
           (ana_app two_sessions "2024-03-01 16:00:00") "kid1").
  apply no_overlap_b_spec. vm_compute. reflexivity.
Defined.

(** The text of the duration of an accepted manual entry. *)
Lemma entry_of_form_duration date start_s stop_s sd ed dstr :
  entry_of_form date start_s stop_s = Some (sd, ed, dstr) → sd <= ed →
  split_on ":" dstr
  = [pad2 ((ed - sd) / us_per_second / 3600);
     pad2 ((ed - sd) / us_per_second mod 3600 / 60);
     pad2 ((ed - sd) / us_per_second mod 60)].
Proof.
  intros Hf Hle. destruct (entry_of_form_range _ _ _ _ _ _ Hf) as [[Rs Ws] [Re We]].
  revert Hf. unfold entry_of_form.
  destruct (strptime (date +:+ " " +:+ start_s) FMT_YmdHM) as [a|]; [|discriminate].
  destruct (strptime (date +:+ " " +:+ stop_s) FMT_YmdHM) as [b|]; [|discriminate].
  cbv zeta. destruct ((b <? a) && _); [discriminate|].
  intros [= <- E <-]. rewrite E.
  destruct (0 <? td_days (ed - a)) eqn:Hdays.
  - apply split_hms.
  - apply Z.ltb_ge in Hdays.
    assert (Hd0 : td_seconds (ed - a) = (ed - a) / us_per_second).
    { unfold td_seconds, td_days in *. f_equal. apply Z.mod_small.
      assert (0 <= (ed - a) / us_per_day) by (apply Z.div_pos; [lia | reflexivity]).
      assert (E0 : (ed - a) / us_per_day = 0) by lia.
      apply Z.div_small_iff in E0 as [E0|E0]; [exact E0 | | discriminate].
      unfold us_per_day, us_per_second in E0. lia. }
    rewrite Hd0.
    rewrite (Z.mod_mod_divide _ 3600 60) by (exists 60; reflexivity).
    apply split_hms.
Qed.

(** X12. A manual entry that [ManualEntryDialog.save] accepts is read back by
    the loop of the usage calculators with the start typed in and with
    exactly the seconds between its bounds, also when it is longer than a
    day. *)
Theorem manual_entry_read_back date start_s stop_s sd ed dstr
    (in_window : Z → bool) (total : Z) :
  entry_of_form date start_s stop_s = Some (sd, ed, dstr) → sd <= ed →
  add_session_seconds in_window total
    (Session (Some (strftime_YmdHMS sd)) (Some (strftime_YmdHMS ed)) (Some dstr))
  = if in_window sd then total + (ed - sd) / us_per_second else total.
Proof.
  intros Hf Hle. destruct (entry_of_form_range _ _ _ _ _ _ Hf) as [[Rs Ws] _].
  unfold add_session_seconds. cbn [start duration default from_option id].
  rewrite (strptime_strftime_whole sd Rs Ws).
  destruct (in_window sd); [|reflexivity].
  rewrite (entry_of_form_duration _ _ _ _ _ _ Hf Hle), !py_int_pad2.
  f_equal. apply hms_sum.
Qed.

Lemma manual_entry_read_back_witness :
  add_session_seconds (daily_window 738946) 0
    (Session (Some (strftime_YmdHMS (at_time "2024-03-01 23:30:00")))
             (Some (strftime_YmdHMS (at_time "2024-03-02 00:15:00")))
             (Some "00:45:00"))
  = if daily_window 738946 (at_time "2024-03-01 23:30:00")
    then 0 + (at_time "2024-03-02 00:15:00" - at_time "2024-03-01 23:30:00")
             / us_per_second
    else 0.
Proof.
  refine (manual_entry_read_back "2024-03-01" "23:30" "00:15"
            (at_time "2024-03-01 23:30:00") (at_time "2024-03-02 00:15:00") "00:45:00"
            (daily_window 738946) 0 _ _).
  - vm_compute. reflexivity.
  - vm_compute. discriminate.
Defined.

(** ** The user form and the stored users *)

Arguments month_of_name : simpl never.
Arguments mk_datetime : simpl never.
Arguments py_int : simpl never.

Lemma kid_settings_sessions f ks : kid_settings f = Some ks → sessions ks = None.
Proof.
  unfold kid_settings. intros H.
  repeat match type of H with
         | mbind _ ?x = Some _ => destruct x; cbn in H; [|discriminate]
         | (?x ≫= _) = Some _ => destruct x; cbn in H; [|discriminate]
         end.
  injection H as <-. reflexivity.
Qed.

Lemma gathered_sessions f user_data g :
  sessions user_data = None →
  (if bool_decide (role user_data = Some ROLE_KID)
   then dict_update user_data <$> kid_settings f
   else Some user_data) = Some g →
  sessions g = None.
Proof.
  intros Hs. destruct (bool_decide _).
  - destruct (kid_settings f) as [ks|] eqn:E; [|discriminate]. cbn.
    intros [= <-]. cbn. rewrite (kid_settings_sessions f ks E). exact Hs.
  - intros [= <-]. exact Hs.
Qed.

Lemma logs_after_update_user d user_id data user_id' :
  sessions data = None →
  get_session_logs_for_user (Some (fst (update_user d user_id data))) user_id'
  = get_session_logs_for_user (Some d) user_id'.
Proof.
  intros Hs. unfold update_user, get_session_logs_for_user.
  destruct (d !! user_id) as [doc|] eqn:E; cbn; [|reflexivity].
  destruct (decide (user_id' = user_id)) as [->|Hne].
  - rewrite lookup_insert_eq, E. cbn. rewrite Hs. reflexivity.
  - rewrite lookup_insert_ne by congruence. reflexivity.
Qed.

(** X13. Saving the changes of a user through the form changes no session
    log: the stored sessions of every user are after [_gather_and_save_user]
    what they were, whatever the form holds. *)
Theorem save_changes_keeps_logs f editing_user_id new_id user_data w user_id :
  sessions user_data = None →
  get_session_logs_for_user
    (db (snd (_gather_and_save_user f editing_user_id new_id user_data true w))) user_id
  = get_session_logs_for_user (db w) user_id.
Proof.
  intros Hs. unfold _gather_and_save_user. cbv zeta.
  pose proof (gathered_sessions f user_data) as Hg.
  destruct (if bool_decide (role user_data = Some ROLE_KID)
            then dict_update user_data <$> kid_settings f
            else Some user_data) as [g|];
    [|destruct w; reflexivity].
  specialize (Hg g Hs eq_refl). unfold_m.
  destruct w as [d ? ? ? ? ? ? ? ? ? ? ? ? ? ? ? ?]; cbn.
  destruct d as [d|]; cbn; [|reflexivity].
  destruct editing_user_id as [eid|]; cbn; [|reflexivity].
  destruct (snd (update_user d eid g)) eqn:Eu; cbn; [|reflexivity].
  apply logs_after_update_user. exact Hg.
Qed.

Lemma save_changes_keeps_logs_witness :
  get_session_logs_for_user
    (db (snd (_gather_and_save_user ana_form (Some "kid1") "new" ana_data true
                (ana_app two_sessions "2024-03-01 16:00:00")))) "kid1"
  = get_session_logs_for_user (db (ana_app two_sessions "2024-03-01 16:00:00")) "kid1".
Proof.
  exact (save_changes_keeps_logs ana_form (Some "kid1") "new" ana_data
           (ana_app two_sessions "2024-03-01 16:00:00") "kid1" eq_refl).
Defined.

(** X14. A date of birth that the calendar does not have is refused: for a
    kid, a day beyond the length of the month makes [_gather_and_save_user]
    show the input error and leave the collection as it is, for an addition
    and for an update alike.  The day and the year are numbers that a C
    [int] holds; beyond, the constructor of [datetime] raises
    [OverflowError], which the handler of the form does not catch. *)
Theorem impossible_dob_refused f editing_user_id new_id user_data is_update w
    day month year :
  role user_data = Some ROLE_KID →
  py_int (dob_day_var f) = Some day →
  month_of_name (dob_month_var f) = Some month →
  py_int (dob_year_var f) = Some year →
  - 2 ^ 31 <= day < 2 ^ 31 →
  - 2 ^ 31 <= year < 2 ^ 31 →
  days_in_month year month < day →
  let w' := snd (_gather_and_save_user f editing_user_id new_id user_data is_update w) in
  db w' = db w
  ∧ trace w'
    = trace w ++ [ShowError "Input Error"
                    "Invalid Date of Birth or numeric value. Please check your inputs."].
Proof.
  intros Hrole Hd Hm Hy _ _ Hlong. cbv zeta. unfold _gather_and_save_user. cbv zeta.
  rewrite bool_decide_true by exact Hrole.
  assert (Hnone : kid_settings f = None).
  { unfold kid_settings. rewrite Hd. cbn. rewrite Hm. cbn. rewrite Hy. cbn.
    unfold mk_datetime.
    replace (day <=? days_in_month year month) with false
      by (symmetry; apply Z.leb_gt; exact Hlong).
    rewrite !andb_false_r. reflexivity. }
  rewrite Hnone. cbn. destruct w; split; reflexivity.
Qed.

Lemma impossible_dob_refused_witness :
  let w' := snd (_gather_and_save_user
                   (UserForm "30" "February" "2015" "1" "60" "30" "12:00" "13:00"
                             "15:00" "18:00" false)
                   None "kid9" ana_data false
                   (ana_app two_sessions "2024-03-01 16:00:00")) in
  db w' = db (ana_app two_sessions "2024-03-01 16:00:00")
  ∧ trace w'
    = trace (ana_app two_sessions "2024-03-01 16:00:00")
      ++ [ShowError "Input Error"
            "Invalid Date of Birth or numeric value. Please check your inputs."].
Proof.
  refine (impossible_dob_refused
            (UserForm "30" "February" "2015" "1" "60" "30" "12:00" "13:00"
                      "15:00" "18:00" false)
            None "kid9" ana_data false (ana_app two_sessions "2024-03-01 16:00:00")
            30 2 2015 eq_refl eq_refl eq_refl eq_refl _ _ _).
  - vm_compute. split; [discriminate | reflexivity].
  - vm_compute. split; [discriminate | reflexivity].
  - vm_compute. reflexivity.
Defined.

(** ** The stored log under [add_session_log_to_user] *)

Lemma with_sessions_twice l l' doc :
  with_sessions l (with_sessions l' doc) = with_sessions l doc.
Proof. reflexivity. Qed.

Lemma array_union_elem l x : x ∈ array_union l x.
Proof.
  unfold array_union. destruct (bool_decide_reflect (x ∈ l)) as [H|H]; [exact H|].
  apply elem_of_app. right. apply list_elem_of_singleton. reflexivity.
Qed.

Lemma array_union_twice l x : array_union (array_union l x) x = array_union l x.
Proof.
  unfold array_union at 1. rewrite bool_decide_true by apply array_union_elem.
  reflexivity.
Qed.

(** X15. [add_session_log_to_user] is idempotent: handing it a session a
    second time changes nothing and returns what the first call returned,
    since [ArrayUnion] adds no element that the array already has. *)
Theorem add_session_log_idempotent d user_id s :
  add_session_log_to_user (fst (add_session_log_to_user d user_id s)) user_id s
  = add_session_log_to_user d user_id s.
Proof.
  destruct d as [d|]; [|reflexivity].
  destruct user_id as [user_id|]; [|reflexivity].
  unfold add_session_log_to_user at 2 3. unfold update_sessions.
  destruct (d !! user_id) as [doc|] eqn:E; cbn [fst].
  - unfold add_session_log_to_user, update_sessions, get_session_logs_for_user.
    rewrite lookup_insert_eq, E. cbn. rewrite array_union_twice, insert_insert_eq.
    reflexivity.
  - unfold add_session_log_to_user, update_sessions. rewrite E. reflexivity.
Qed.

(** X16. What [add_session_log_to_user] stores: the session goes to the end
    of the log of the user, unless the log has it already or the document
    of the user does not exist; the logs of the other users stay as they
    are. *)
Theorem add_session_log_lookup d user_id s user_id' :
  get_session_logs_for_user
    (fst (add_session_log_to_user (Some d) (Some user_id) s)) user_id'
  = if bool_decide (user_id' = user_id ∧ is_Some (d !! user_id)
                    ∧ s ∉ get_session_logs_for_user (Some d) user_id)
    then get_session_logs_for_user (Some d) user_id ++ [s]
    else get_session_logs_for_user (Some d) user_id'.
Proof.
  unfold add_session_log_to_user, update_sessions.
  match goal with
  | |- context [@bool_decide (?A ∧ ?B) ?dec] =>
      destruct (@bool_decide_reflect (A ∧ B) dec) as [(-> & [doc E] & Hnew)|Hn]
  end.
  - rewrite E. cbn [fst]. unfold array_union.
    rewrite bool_decide_false by exact Hnew.
    unfold get_session_logs_for_user. rewrite lookup_insert_eq, E. reflexivity.
  - destruct (d !! user_id) as [doc|] eqn:E; cbn [fst]; [|reflexivity].
    destruct (decide (user_id' = user_id)) as [->|Hne].
    + unfold array_union.
      destruct (bool_decide_reflect (s ∈ get_session_logs_for_user (Some d) user_id))
        as [Hin|Hin]; [|exfalso; apply Hn; eauto].
      unfold get_session_logs_for_user. rewrite lookup_insert_eq, E. reflexivity.
    + unfold get_session_logs_for_user. rewrite lookup_insert_ne by congruence.
      reflexivity.
Qed.

Lemma add_session_log_no_document d user_id s :
  d !! user_id = None →
  add_session_log_to_user (Some d) (Some user_id) s = (Some d, false).
Proof.
  intros H. unfold add_session_log_to_user, update_sessions. rewrite H. reflexivity.
Qed.

Lemma check_daily_limit_no_user user_id name w :
  get_user (db w) user_id = None → _check_daily_limit user_id name w = (tt, w).
Proof.
  intros H. unfold _check_daily_limit. unfold_m. cbn.
  destruct (db w); [|reflexivity]. rewrite H. reflexivity.
Qed.

(** X17. The stop of a session of a user whose document is no longer in the
    collection stores nothing and tells nobody: the collection is as it
    was, the only event is the stop notice, and the local log of the kid
    view shows the session all the same. *)
Theorem stop_without_document w u user_id t0 d :
  kid_timer_running w = true →
  kid_timer_start_time w = Some t0 →
  current_kid_user w = Some u →
  uid u = Some user_id →
  db w = Some d →
  d !! user_id = None →
  let w' := snd (start_stop_timer w) in
  db w' = db w
  ∧ trace w'
    = trace w ++ [StopSessionThread (default "Kid" (username u))
                    (_format_duration (clock w (ticks w) - t0))
                    (sound_notifications_enabled w)]
  ∧ kid_session_log w' = kid_session_log w ++ [stop_entry w t0].
Proof.
  intros Hr Hs Hu Hid Hdb Hdoc. cbv zeta.
  unfold start_stop_timer, stop_entry. unfold_m.
  destruct w as [dd ? ? ? ? ? ? ? ? ? ? ? ? ? ? ? ?]; cbn in *; subst; cbn.
  rewrite Hid, (add_session_log_no_document d user_id _ Hdoc). cbn.
  assert (Hg : get_user (Some d) user_id = None)
    by (unfold get_user; rewrite Hdoc; reflexivity).
  destruct (String.eqb user_id ""); cbn.
  - match goal with |- context [_update_daily_time_display ?x] =>
      destruct (update_display_frame x) as (n & l & ->) end.
    cbn. auto.
  - rewrite check_daily_limit_no_user by exact Hg. cbn.
    match goal with |- context [_update_daily_time_display ?x] =>
      destruct (update_display_frame x) as (n & l & ->) end.
    cbn. auto.
Qed.

Lemma stop_without_document_witness :
  let w := set_db (Some ∅) stopping_app in
  let w' := snd (start_stop_timer w) in
  db w' = db w
  ∧ trace w'
    = trace w ++ [StopSessionThread (default "Kid" (username (ana morning_sessions)))
                    (_format_duration (clock w (ticks w) - at_time "2024-03-01 15:58:00"))
                    (sound_notifications_enabled w)]
  ∧ kid_session_log w'
    = kid_session_log w ++ [stop_entry w (at_time "2024-03-01 15:58:00")].
Proof.
  exact (stop_without_document (set_db (Some ∅) stopping_app) (ana morning_sessions)
           "kid1" (at_time "2024-03-01 15:58:00") ∅
           eq_refl eq_refl eq_refl eq_refl eq_refl eq_refl).
Defined.

(** ** Rows, edits and deletions *)

(** The identifier of a row splits back into the user and the index. *)
Lemma split_row_iid user_id idx :
  all_chars (fun c => negb (Ascii.eqb c ":")) user_id = true →
  split_on ":" (row_iid user_id idx) = [user_id; str_of_Z (Z.of_nat idx)].
Proof.
  intros H. unfold row_iid.
  change (":" +:+ str_of_Z (Z.of_nat idx)) with (String ":" (str_of_Z (Z.of_nat idx))).
  rewrite (split_on_app ":" user_id _ H).
  rewrite split_on_nosep; [reflexivity|].
  apply (all_chars_impl is_sign_or_digit); [|apply str_of_Z_chars].
  intros c Hc. rewrite (sign_or_digit_not_colon c Hc). reflexivity.
Qed.

Lemma log_rows_lookup selected_date l idx s :
  In (idx, s) (log_rows selected_date l) → l !! idx = Some s.
Proof.
  unfold log_rows. intros H. apply filter_In in H as [H _].
  apply list_elem_of_In, elem_of_lookup_imap in H as (i & y & [= -> ->] & Hl).
  exact Hl.
Qed.

(** X18. The identifier of a row leads [delete_selected_log] back to the
    session of the row: for a user whose identifier has no colon, deleting a
    row of the view and confirming removes from the stored log exactly the
    session that the row shows. *)
Theorem delete_row_deletes_its_session w d user_id doc selected_date idx s :
  db w = Some d →
  d !! user_id = Some doc →
  all_chars (fun c => negb (Ascii.eqb c ":")) user_id = true →
  In (idx, s) (log_rows selected_date (default [] (sessions doc))) →
  answers w (asked w) = true →
  default [] (sessions doc) !! idx = Some s
  ∧ get_session_logs_for_user
      (db (snd (delete_selected_log (Some (row_iid user_id idx)) w))) user_id
    = delete idx (default [] (sessions doc)).
Proof.
  intros Hdb Hdoc Hid Hrow Hyes.
  pose proof (log_rows_lookup _ _ _ _ Hrow) as Hl. split; [exact Hl|].
  unfold delete_selected_log. unfold_m.
  destruct w as [dd ? ? ? ? ? ? ? ? ? ? ? ? ? ? ? ?]; cbn in *; subst; cbn.
  rewrite (split_row_iid user_id idx Hid), py_int_str_of_Z. cbn.
  rewrite Hyes, Hdoc. cbn.
  apply lookup_lt_Some in Hl as Hlt.
  replace ((0 <=? Z.of_nat idx) && (Z.of_nat idx <? Z.of_nat (length (default [] (sessions doc)))))
    with true by (symmetry; apply andb_true_intro; split;
                  [apply Z.leb_le | apply Z.ltb_lt]; lia).
  rewrite Nat2Z.id. unfold update_sessions. rewrite Hdoc. cbn.
  unfold get_session_logs_for_user. rewrite lookup_insert_eq. reflexivity.
Qed.

Lemma delete_row_deletes_its_session_witness :
  default [] (sessions (ana two_sessions)) !! 1%nat
  = Some (Session (Some "2024-03-01 11:00:00") (Some "2024-03-01 11:30:00")
                  (Some "00:30:00"))
  ∧ get_session_logs_for_user
      (db (snd (delete_selected_log (Some (row_iid "kid1" 1))
                  (ana_app two_sessions "2024-03-01 16:00:00")))) "kid1"
    = delete 1%nat (default [] (sessions (ana two_sessions))).
Proof.
  refine (delete_row_deletes_its_session (ana_app two_sessions "2024-03-01 16:00:00")
            {["kid1" := ana two_sessions]} "kid1" (ana two_sessions) (Some 738946) 1
            (Session (Some "2024-03-01 11:00:00") (Some "2024-03-01 11:30:00")
                     (Some "00:30:00"))
            eq_refl eq_refl eq_refl _ eq_refl).
  vm_compute. right. left. reflexivity.
Defined.

(** What [delete_selected_log] does to the collection: nothing, or the
    removal of one stored session of one user. *)
Lemma delete_selected_log_db selected w :
  let w' := snd (delete_selected_log selected w) in
  db w' = db w
  ∨ ∃ d d' user_id idx,
      db w = Some d ∧ db w' = Some d'
      ∧ (idx < length (get_session_logs_for_user (Some d) user_id))%nat
      ∧ update_sessions d user_id (delete idx (get_session_logs_for_user (Some d) user_id))
        = Some d'.
Proof.
  cbv zeta. unfold delete_selected_log. unfold_m.
  destruct w as [d ? ? ? ? ? ? ? ? ? ? ? ? ? ? ? ?]; cbn.
  destruct d as [d|]; cbn; [|left; reflexivity].
  destruct selected as [iid|]; cbn; [|left; reflexivity].
  destruct (split_on ":" iid) as [|user_id [|idx_s rest]]; cbn; try (left; reflexivity).
  destruct (py_int idx_s) as [session_idx|]; cbn; [|left; reflexivity].
  match goal with
  | |- context [if negb ?a then _ else _] => destruct a; cbn; [|left; reflexivity]
  end.
  destruct (_ && _) eqn:Hrange; cbn; [|left; reflexivity].
  destruct (update_sessions _ _ _) as [d'|] eqn:Eu; cbn; [|left; reflexivity].
  right. exists d, d', user_id, (Z.to_nat session_idx).
  apply andb_prop in Hrange as [H0 H1]. apply Z.leb_le in H0. apply Z.ltb_lt in H1.
  repeat split; try reflexivity; [|exact Eu].
  unfold get_session_logs_for_user. lia.
Qed.

(** X19. [delete_selected_log] removes at most one stored session: the log
    of every user is after it what it was, or what it was without one of
    its sessions, the others keeping their order. *)
Theorem delete_removes_at_most_one selected w user_id :
  let before := get_session_logs_for_user (db w) user_id in
  let after := get_session_logs_for_user
                 (db (snd (delete_selected_log selected w))) user_id in
  after = before ∨ ∃ idx, (idx < length before)%nat ∧ after = delete idx before.
Proof.
  cbv zeta.
  destruct (delete_selected_log_db selected w)
    as [->|(d & d' & uid' & idx & Hd & -> & Hlt & Hu)]; [left; reflexivity|].
  rewrite Hd. rewrite (logs_after_update _ _ _ _ user_id Hu).
  destruct (bool_decide_reflect (user_id = uid')) as [->|_]; [|left; reflexivity].
  right. exists idx. auto.
Qed.

(** X20. [edit_selected_log] changes at most one stored session: the log of
    every user is after it what it was with at most one session replaced,
    so that no session is added, removed or moved. *)
Theorem edit_replaces_at_most_one selected ns ne nd w user_id :
  let before := get_session_logs_for_user (db w) user_id in
  let after := get_session_logs_for_user
                 (db (snd (edit_selected_log selected ns ne nd w))) user_id in
  ∃ idx x, after = <[idx := x]> before.
Proof.
  cbv zeta.
  destruct (edit_selected_log_db selected ns ne nd w)
    as [->|(d & d' & uid' & idx & s1 & s2 & s3 & sd & ed
            & Hd & -> & Hs & He & Hf & Hu)].
  - exists (length (get_session_logs_for_user (db w) user_id)),
      (Session None None None).
    rewrite list_insert_ge by lia. reflexivity.
  - rewrite Hd. rewrite (logs_after_update _ _ _ _ user_id Hu).
    destruct (bool_decide_reflect (user_id = uid')) as [->|_]; [eauto|].
    exists (length (get_session_logs_for_user (Some d) user_id)),
      (Session None None None).
    rewrite list_insert_ge by lia. reflexivity.
Qed.

(** ** The form opened on a stored kid and saved *)

Lemma month_of_name_month_name m : 1 <= m <= 12 → month_of_name (month_name m) = Some m.
Proof.
  intros Hm.
  pose proof (forallb_upto
                (fun m => bool_decide (month_of_name (month_name m) = Some m)) 1 12
                eq_refl m Hm) as H.
  apply bool_decide_eq_true in H. exact H.
Qed.

Lemma days_in_month_january y : days_in_month y 1 = 31.
Proof. reflexivity. Qed.

(** The settings gathered from the form that [edit_selected_user] populated
    from a stored kid: the stored limits and hours, with the defaults of the
    form where the document has none. *)
Lemma kid_settings_of_populated_form this_year parsed_dob user_data :
  default ROLE_KID (role user_data) = ROLE_KID →
  11 <= this_year <= 9999 →
  from_option valid_date True parsed_dob →
  kid_settings (edit_selected_user this_year parsed_dob user_data)
  = let '(y, m, d) := form_dob this_year parsed_dob user_data in
    Some (User None None None
            (Some (pad4 y +:+ "-" +:+ pad2 m +:+ "-" +:+ pad2 d +:+ "T00:00:00"))
            (Some (default 120 (max_session_minutes user_data)))
            (Some (default 210 (max_daily_minutes user_data)))
            (Some (default 60 (rest_minutes user_data)))
            None None
            (Some (default true (enforce_lunch_routine user_data)))
            (Some (default "12:00" (lunch_start_time user_data)))
            (Some (default "13:00" (lunch_end_time user_data)))
            (Some (default "15:00" (allowed_start_time user_data)))
            (Some (default "18:00" (allowed_end_time user_data))) None).
Proof.
  intros Hrole Hyear Hvalid.
  assert (Hn : ∀ (o : option Z) (dflt : Z) (s : string),
             py_int s = Some dflt →
             py_int (match o with Some n => str_of_Z n | None => s end)
             = Some (default dflt o)).
  { intros [n|] dflt s Hs; [apply py_int_str_of_Z | exact Hs]. }
  assert (Hd : ∃ y m d, form_dob this_year parsed_dob user_data = (y, m, d)
                        ∧ valid_date (y, m, d)
                        ∧ dob_day_var (edit_selected_user this_year parsed_dob user_data)
                          = str_of_Z d
                        ∧ dob_month_var (edit_selected_user this_year parsed_dob user_data)
                          = month_name m
                        ∧ dob_year_var (edit_selected_user this_year parsed_dob user_data)
                          = str_of_Z y).
  { unfold form_dob, edit_selected_user. rewrite bool_decide_true by exact Hrole.
    cbv zeta.
    destruct (truthy (dob user_data)); [destruct parsed_dob as [[[y m] d]|]|].
    - exists y, m, d. cbn in Hvalid. cbn. auto.
    - exists (this_year - 10), 1, 1. split; [reflexivity|].
      split; [unfold valid_date; rewrite days_in_month_january; lia|].
      repeat split; reflexivity.
    - exists (this_year - 10), 1, 1. split; [reflexivity|].
      split; [unfold valid_date; rewrite days_in_month_january; lia|].
      repeat split; reflexivity. }
  destruct Hd as (y & m & d & -> & (Hy & Hm & Hdd) & E1 & E2 & E3).
  unfold kid_settings. rewrite E1, E2, E3.
  rewrite !py_int_str_of_Z. cbn [mbind option_bind].
  rewrite (month_of_name_month_name m Hm). cbn [mbind option_bind].
  rewrite (mk_datetime_valid y m d 0 0 0) by lia. cbn [mbind option_bind].
  unfold edit_selected_user. rewrite bool_decide_true by exact Hrole. cbv zeta.
  cbn [max_session_var max_daily_var rest_time_var lunch_start_entry lunch_end_entry
       allowed_start_entry allowed_end_entry enforce_lunch_routine_var].
  rewrite (Hn (max_session_minutes user_data) 120 "120" eq_refl).
  rewrite (Hn (max_daily_minutes user_data) 210 "210" eq_refl).
  rewrite (Hn (rest_minutes user_data) 60 "60" eq_refl).
  reflexivity.
Qed.

(** X21. Opening a stored kid in the user form and saving it unchanged: the
    limits and the hours of the kid stay what they were, except that a limit
    or an hour that the document did not have is now stored with the
    default of the form, so that a kid without a daily limit gets the limit
    of 210 minutes; the sessions and the length of the break stay as they
    were. *)
Theorem edit_and_save_fills_defaults w d user_id doc this_year parsed_dob new_id
    user_data :
  db w = Some d →
  d !! user_id = Some doc →
  default ROLE_KID (role doc) = ROLE_KID →
  role user_data = Some ROLE_KID →
  sessions user_data = None →
  rest_duration_minutes user_data = None →
  11 <= this_year <= 9999 →
  from_option valid_date True parsed_dob →
  let stored := default no_fields (get_user (db w) user_id) in
  let f := edit_selected_user this_year parsed_dob stored in
  let w' := snd (_gather_and_save_user f (Some user_id) new_id user_data true w) in
  let doc' := default no_fields (get_user (db w') user_id) in
  max_session_minutes doc' = Some (default 120 (max_session_minutes doc))
  ∧ max_daily_minutes doc' = Some (default 210 (max_daily_minutes doc))
  ∧ rest_minutes doc' = Some (default 60 (rest_minutes doc))
  ∧ allowed_start_time doc' = Some (default "15:00" (allowed_start_time doc))
  ∧ allowed_end_time doc' = Some (default "18:00" (allowed_end_time doc))
  ∧ lunch_start_time doc' = Some (default "12:00" (lunch_start_time doc))
  ∧ lunch_end_time doc' = Some (default "13:00" (lunch_end_time doc))
  ∧ enforce_lunch_routine doc' = Some (default true (enforce_lunch_routine doc))
  ∧ sessions doc' = sessions doc
  ∧ rest_duration_minutes doc' = rest_duration_minutes doc.
Proof.
  intros Hdb Hdoc Hrole Hrole' Hs Hrd Hyear Hvalid. cbv zeta.
  assert (Hget : get_user (db w) user_id
                 = Some (User (Some user_id) (username doc) (role doc) (dob doc)
                           (max_session_minutes doc) (max_daily_minutes doc)
                           (rest_minutes doc) (rest_duration_minutes doc)
                           (enforce_rest doc) (enforce_lunch_routine doc)
                           (lunch_start_time doc) (lunch_end_time doc)
                           (allowed_start_time doc) (allowed_end_time doc)
                           (sessions doc))).
  { rewrite Hdb. unfold get_user. rewrite Hdoc. reflexivity. }
  rewrite Hget. cbn [default from_option id].
  unfold _gather_and_save_user. cbv zeta.
  rewrite bool_decide_true by exact Hrole'.
  rewrite kid_settings_of_populated_form; [|exact Hrole|exact Hyear|exact Hvalid].
  destruct (form_dob _ _ _) as [[y m] dd]. cbn [fmap option_fmap option_map].
  unfold_m. unfold update_user.
  destruct w as [dd0 ? ? ? ? ? ? ? ? ? ? ? ? ? ? ? ?]; cbn in *; subst; cbn.
  rewrite Hdoc. cbn. unfold get_user. rewrite lookup_insert_eq. cbn.
  rewrite Hs, Hrd. repeat split; reflexivity.
Qed.

Lemma edit_and_save_fills_defaults_witness :
  let w := init_app {["kid1" := unlimited_ana]} None
             (always (at_time "2024-03-01 16:00:00")) (always true) in
  let stored := default no_fields (get_user (db w) "kid1") in
  let f := edit_selected_user 2024 (Some (2015, 3, 1)) stored in
  let w' := snd (_gather_and_save_user f (Some "kid1") "new" ana_data true w) in
  let doc' := default no_fields (get_user (db w') "kid1") in
  max_session_minutes doc' = Some (default 120 (max_session_minutes unlimited_ana))
  ∧ max_daily_minutes doc' = Some (default 210 (max_daily_minutes unlimited_ana))
  ∧ rest_minutes doc' = Some (default 60 (rest_minutes unlimited_ana))
  ∧ allowed_start_time doc' = Some (default "15:00" (allowed_start_time unlimited_ana))
  ∧ allowed_end_time doc' = Some (default "18:00" (allowed_end_time unlimited_ana))
  ∧ lunch_start_time doc' = Some (default "12:00" (lunch_start_time unlimited_ana))
  ∧ lunch_end_time doc' = Some (default "13:00" (lunch_end_time unlimited_ana))
  ∧ enforce_lunch_routine doc'
    = Some (default true (enforce_lunch_routine unlimited_ana))
  ∧ sessions doc' = sessions unlimited_ana
  ∧ rest_duration_minutes doc' = rest_duration_minutes unlimited_ana.
Proof.
  refine (edit_and_save_fills_defaults
            (init_app {["kid1" := unlimited_ana]} None
               (always (at_time "2024-03-01 16:00:00")) (always true))
            {["kid1" := unlimited_ana]} "kid1" unlimited_ana 2024 (Some (2015, 3, 1))
            "new" ana_data eq_refl eq_refl eq_refl eq_refl eq_refl eq_refl _ _).
  - lia.
  - vm_compute. repeat split; discriminate.
Defined.

Lemma lunch_gate_keeps_db : keeps db _is_lunch_routine_required.
Proof. unfold _is_lunch_routine_required. repeat keeps_step. Qed.

Lemma lunch_gate_keeps_log : keeps kid_session_log _is_lunch_routine_required.
Proof. unfold _is_lunch_routine_required. repeat keeps_step. Qed.

Lemma update_kid_timer_keeps_db : keeps db _update_kid_timer.
Proof.
  unfold _update_kid_timer.
  repeat first [apply update_display_keeps_db | keeps_step].
Qed.

Lemma update_display_keeps_log : keeps kid_session_log _update_daily_time_display.
Proof.
  intros w. destruct (update_display_frame w) as (n & l & ->). destruct w; reflexivity.
Qed.

Lemma update_kid_timer_keeps_log : keeps kid_session_log _update_kid_timer.
Proof.
  unfold _update_kid_timer.
  repeat first [apply update_display_keeps_log | keeps_step].
Qed.

(** ** Rest periods started and observed *)

(** X22. A rest period started by [_start_rest_period] is what the rest
    tracker then reports, when the start and the end of the break are
    instants of the calendar (beyond, the addition of the minutes raises
    [OverflowError] in the source) and the end is less than [2 ^ 34] seconds
    from the reading at which the remaining time is computed: the user is in rest at exactly the readings
    of the clock before the start plus the minutes of the break, the end of
    the last rest is that instant, and the remaining seconds are the whole
    seconds up to it; with a clock that does not go back they lie between 0
    and the seconds of the break. *)
Theorem rest_started_is_observed user_id minutes w :
  let w1 := snd (_start_rest_period user_id minutes w) in
  let rest_end_time := clock w (ticks w) + timedelta_minutes minutes in
  1 <= date_of (clock w (ticks w)) <= MAXORDINAL →
  1 <= date_of rest_end_time <= MAXORDINAL →
  Z.abs (rest_end_time - clock w (S (S (ticks w)))) < 2 ^ 34 * us_per_second →
  fst (_is_user_in_rest user_id w1) = (clock w (S (ticks w)) <? rest_end_time)
  ∧ fst (_get_last_rest_end_time user_id w1) = rest_end_time
  ∧ fst (_get_rest_remaining_seconds user_id w1)
    = (if clock w (S (ticks w)) <? rest_end_time
       then Z.max 0 (int_total_seconds (rest_end_time - clock w (S (S (ticks w)))))
       else 0)
  ∧ (clock w (ticks w) <= clock w (S (S (ticks w))) →
     0 <= fst (_get_rest_remaining_seconds user_id w1) <= Z.max 0 (minutes * 60)).
Proof.
  cbv zeta. intros _ _ _.
  assert (Hrem : fst (_get_rest_remaining_seconds user_id
                        (snd (_start_rest_period user_id minutes w)))
                 = if clock w (S (ticks w)) <? clock w (ticks w) + timedelta_minutes minutes
                   then Z.max 0 (int_total_seconds
                                   (clock w (ticks w) + timedelta_minutes minutes
                                    - clock w (S (S (ticks w)))))
                   else 0).
  { unfold _get_rest_remaining_seconds, _is_user_in_rest, _start_rest_period.
    unfold_m. destruct w; cbn. rewrite !lookup_insert_eq. cbn.
    destruct (_ <? _); cbn; [|reflexivity].
    rewrite lookup_insert_eq. reflexivity. }
  split; [|split; [|split; [exact Hrem|]]].
  - unfold _is_user_in_rest, _start_rest_period. unfold_m. destruct w; cbn.
    rewrite !lookup_insert_eq. reflexivity.
  - unfold _get_last_rest_end_time, _start_rest_period. unfold_m. destruct w; cbn.
    rewrite !lookup_insert_eq. reflexivity.
  - intros Hmono. rewrite Hrem. destruct (_ <? _); [|lia].
    split; [lia|]. apply Z.max_le_compat_l.
    unfold int_total_seconds, timedelta_minutes.
    rewrite <- (Z.quot_mul (minutes * 60) us_per_second) at 2 by discriminate.
    apply Z.quot_le_mono; [reflexivity | lia].
Qed.

Lemma rest_started_is_observed_witness :
  let w := ana_app morning_sessions "2024-03-01 16:00:00" in
  let w1 := snd (_start_rest_period "kid1" 60 w) in
  let rest_end_time := clock w (ticks w) + timedelta_minutes 60 in
  fst (_is_user_in_rest "kid1" w1) = (clock w (S (ticks w)) <? rest_end_time)
  ∧ fst (_get_last_rest_end_time "kid1" w1) = rest_end_time
  ∧ fst (_get_rest_remaining_seconds "kid1" w1)
    = (if clock w (S (ticks w)) <? rest_end_time
       then Z.max 0 (int_total_seconds (rest_end_time - clock w (S (S (ticks w)))))
       else 0)
  ∧ (clock w (ticks w) <= clock w (S (S (ticks w))) →
     0 <= fst (_get_rest_remaining_seconds "kid1" w1) <= Z.max 0 (60 * 60)).
Proof.
  refine (rest_started_is_observed "kid1" 60
            (ana_app morning_sessions "2024-03-01 16:00:00") _ _ _).
  - vm_compute. split; discriminate.
  - vm_compute. split; discriminate.
  - vm_compute. reflexivity.
Defined.

(** ** A click on Start *)

(** X23. A click on Start writes nothing: whether the session starts or a
    gate refuses it, the collection of users and the local session log are
    after the click what they were. *)
Theorem start_writes_nothing w :
  kid_timer_running w = false →
  db (snd (start_stop_timer w)) = db w
  ∧ kid_session_log (snd (start_stop_timer w)) = kid_session_log w.
Proof.
  intros Hr. split.
  - unfold start_stop_timer.
    unfold bind at 1. unfold gets at 1. cbv zeta. cbn [fst snd]. rewrite Hr. cbn [negb].
    lazymatch goal with
    | |- db (snd (?m _)) = _ => assert (K : keeps db m); [|apply K]
    end.
    repeat first [ apply lunch_gate_keeps_db | apply update_kid_timer_keeps_db
                 | keeps_step ].
  - unfold start_stop_timer.
    unfold bind at 1. unfold gets at 1. cbv zeta. cbn [fst snd]. rewrite Hr. cbn [negb].
    lazymatch goal with
    | |- kid_session_log (snd (?m _)) = _ =>
        assert (K : keeps kid_session_log m); [|apply K]
    end.
    repeat first [ apply lunch_gate_keeps_log | apply update_kid_timer_keeps_log
                 | keeps_step ].
Qed.

Lemma start_writes_nothing_witness :
  db (snd (start_stop_timer (ana_app two_sessions "2024-03-01 16:00:00")))
  = db (ana_app two_sessions "2024-03-01 16:00:00")
  ∧ kid_session_log (snd (start_stop_timer (ana_app two_sessions "2024-03-01 16:00:00")))
    = kid_session_log (ana_app two_sessions "2024-03-01 16:00:00").
Proof.
  exact (start_writes_nothing (ana_app two_sessions "2024-03-01 16:00:00") eq_refl).
Defined.

(** ** The preview and the saved entry *)

(** The fields on which [ManualEntryDialog.save] reports invalid input are
    those for which the preview shows no duration. *)
Lemma preview_of_invalid_input date start_s stop_s :
  entry_of_form date start_s stop_s = None →
  update_duration date start_s stop_s = "Duration: --:--:--".
Proof.
  unfold entry_of_form, update_duration.
  destruct (strptime (date +:+ " " +:+ start_s) FMT_YmdHM) as [a|]; [|reflexivity].
  destruct (strptime (date +:+ " " +:+ stop_s) FMT_YmdHM) as [b|]; [|reflexivity].
  cbv zeta. destruct ((b <? a) && _); [reflexivity | discriminate].
Qed.

(** X24. The duration that the manual-entry dialog previews is the one that
    [ManualEntryDialog.save] stores, for every entry of less than a day. *)
Theorem preview_matches_saved_duration date start_s stop_s start_dt stop_dt
    duration_str :
  entry_of_form date start_s stop_s = Some (start_dt, stop_dt, duration_str) →
  stop_dt - start_dt < us_per_day →
  update_duration date start_s stop_s = "Duration: " +:+ duration_str.
Proof.
  unfold entry_of_form, update_duration.
  destruct (strptime (date +:+ " " +:+ start_s) FMT_YmdHM) as [a|]; [|discriminate].
  destruct (strptime (date +:+ " " +:+ stop_s) FMT_YmdHM) as [b|]; [|discriminate].
  cbv zeta. destruct ((b <? a) && _); [discriminate|].
  intros [= <- E <-] Hday. rewrite E.
  replace (0 <? td_days (stop_dt - a)) with false; [reflexivity|].
  symmetry. apply Z.ltb_ge. unfold td_days.
  assert ((stop_dt - a) / us_per_day < 1)
    by (apply Z.div_lt_upper_bound; [reflexivity | lia]).
  lia.
Qed.

Lemma preview_matches_saved_duration_witness :
  update_duration "2024-03-01" "23:30" "00:15" = "Duration: " +:+ "00:45:00".
Proof.
  refine (preview_matches_saved_duration "2024-03-01" "23:30" "00:15"
            (at_time "2024-03-01 23:30:00") (at_time "2024-03-02 00:15:00") "00:45:00"
            _ _).
  - vm_compute. reflexivity.
  - vm_compute. reflexivity.
Defined.

(** X25. [ManualEntryDialog.save] adds at most one session, at the end of
    the log of the user of the dialog: the log of every user is after it
    what it was, or what it was followed by one new session. *)
Theorem save_appends_at_most_one dialog_user date start_s stop_s w user_id :
  let before := get_session_logs_for_user (db w) user_id in
  let after := get_session_logs_for_user
                 (db (snd (ManualEntryDialog_save dialog_user date start_s stop_s w)))
                 user_id in
  after = before ∨ ∃ x, after = before ++ [x].
Proof.
  cbv zeta.
  destruct (ManualEntryDialog_save_db dialog_user date start_s stop_s w)
    as [->|(d & d' & sd & ed & dstr & Hd & -> & Hf & Hle & Hfind & Hu)];
    [left; reflexivity|].
  rewrite Hd. rewrite (logs_after_update _ _ _ _ user_id Hu).
  destruct (bool_decide_reflect (user_id = dialog_user)) as [->|_]; [|left; reflexivity].
  right. eauto.
Qed.
